(** * AgriMitra backend: the free-text response parser, the conversation
      context builder and the suggestion heuristic of
      [backend/services/langchain_service.py].

    The Python methods are embedded as Rocq functions.  Text is a
    [string], a sequence of 8-bit characters.  On ASCII text, the text for
    which [PyStr.isascii] holds, the string primitives and the matcher are
    those of Python.  The characters from 128 on stand for the bytes of
    what is not ASCII and are taken as caseless, and as neither whitespace
    nor digits: there the primitives are not those of Python, which folds
    the case of, strips and reads as digits characters of all of Unicode.
    Where a hypothesis of a property is about the letters or the digits of
    a text, and not about a value that the code computes from it, the
    property is therefore stated for ASCII text.  The confidence score is
    a binary64 float, with the operations of [SpecFloat].  Code that can
    raise runs in the error
    monad [Py.M]; [try ... except Exception] is [Py.try_except]. *)

From Stdlib Require Import Bool Arith List Ascii String ZArith QArith Lia SpecFloat.
Import ListNotations.
Local Open Scope string_scope.
Local Open Scope list_scope.
Local Open Scope nat_scope.

(** ** Python values, exceptions and sequence primitives *)

Module Py.

(** The exceptions this code can meet; all of them derive from
    [Exception]. *)
Inductive exn : Type :=
| AttributeError
| TypeError
| ValueError
| ReError.

Definition M (A : Type) : Type := (exn + A)%type.

Definition ret {A : Type} (a : A) : M A := inr a.
Definition raise {A : Type} (e : exn) : M A := inl e.

Definition bind {A B : Type} (c : M A) (k : A -> M B) : M B :=
  match c with
  | inl e => inl e
  | inr a => k a
  end.

(** [try: body except Exception as e: handler e] *)
Definition try_except {A : Type} (body : M A) (handler : exn -> M A) : M A :=
  match body with
  | inl e => handler e
  | inr a => inr a
  end.

(** What [response.content] of a chat model can be: a [str], or the list
    of content parts of a multimodal answer. *)
Inductive value : Type :=
| VStr (s : string)
| VList (parts : list string).

(** [xs[:n]] for [0 <= n] *)
Definition slice_to {A : Type} (n : nat) (xs : list A) : list A := firstn n xs.

(** [xs[-n:]] for [0 < n] *)
Definition slice_last {A : Type} (n : nat) (xs : list A) : list A :=
  skipn (List.length xs - n) xs.

(** [any(f(x) for x in xs)] *)
Definition any {A : Type} (f : A -> bool) (xs : list A) : bool := existsb f xs.

End Py.

Declare Scope py_scope.
Delimit Scope py_scope with py.
Notation "x <- c ;; k" := (Py.bind c (fun x => k))
  (at level 61, c at next level, right associativity) : py_scope.
Notation "' p <- c ;; k" := (Py.bind c (fun x => match x with p => k end))
  (at level 61, p pattern, c at next level, right associativity) : py_scope.

(** ** [float]: the IEEE 754 binary64 numbers of CPython *)

Module PyFloat.

Definition t : Type := spec_float.

Definition prec : Z := 53.
Definition emax : Z := 1024.

(** The float nearest to the integer [n], ties to even, and infinity past
    the largest float.  This is what [float(s)] gives on a decimal numeral
    [s] of value [n], and what the [int] operand 100 of a division
    becomes. *)
Definition of_Z (n : Z) : t := binary_normalize prec emax n 0 false.

(** [x / y], for [y] other than zero *)
Definition div (x y : t) : t := SFdiv prec emax x y.

(** [x <= y] *)
Definition leb (x y : t) : bool := SFleb x y.

(** [0.0], [1.0] and [float('inf')] *)
Definition zero : t := S754_zero false.
Definition one : t := S754_finite false 4503599627370496 (-52).

End PyFloat.

(** ** [str] methods *)

Module PyStr.

Definition code (c : ascii) : nat := nat_of_ascii c.

Definition between (lo hi : nat) (c : ascii) : bool :=
  (lo <=? code c) && (code c <=? hi).

Definition isupper (c : ascii) : bool := between 65 90 c.
Definition islower (c : ascii) : bool := between 97 122 c.
Definition iscased (c : ascii) : bool := isupper c || islower c.

(** [str.isspace] on one ASCII character: TAB, LF, VT, FF, CR, the four
    separators FS, GS, RS, US, and the space. *)
Definition isspace (c : ascii) : bool :=
  between 9 13 c || between 28 31 c || (code c =? 32).

(** [str.isdecimal] on one ASCII character, which is also [\d] of [re]
    there. *)
Definition isdecimal (c : ascii) : bool := between 48 57 c.

Definition lower_char (c : ascii) : ascii :=
  if isupper c then ascii_of_nat (code c + 32) else c.

Definition upper_char (c : ascii) : ascii :=
  if islower c then ascii_of_nat (code c - 32) else c.

(** [s.lower()], for ASCII [s]; other characters are kept. *)
Fixpoint lower (s : string) : string :=
  match s with
  | EmptyString => EmptyString
  | String c s' => String (lower_char c) (lower s')
  end.

(** [s.title()]: a cased character is upper-cased when the character
    before it is not cased, and lower-cased otherwise. *)
Fixpoint title_from (previous_is_cased : bool) (s : string) : string :=
  match s with
  | EmptyString => EmptyString
  | String c s' =>
      if iscased c
      then String (if previous_is_cased then lower_char c else upper_char c)
                  (title_from true s')
      else String c (title_from false s')
  end.

Definition title (s : string) : string := title_from false s.

(** [s.startswith(p)] *)
Fixpoint startswith (p s : string) : bool :=
  match p, s with
  | EmptyString, _ => true
  | String a p', String b s' => Ascii.eqb a b && startswith p' s'
  | String _ _, EmptyString => false
  end.

(** [needle in hay] *)
Fixpoint contains (needle hay : string) : bool :=
  startswith needle hay
  || match hay with
     | EmptyString => false
     | String _ hay' => contains needle hay'
     end.

Fixpoint lstrip (s : string) : string :=
  match s with
  | EmptyString => EmptyString
  | String c s' => if isspace c then lstrip s' else s
  end.

Fixpoint rstrip (s : string) : string :=
  match s with
  | EmptyString => EmptyString
  | String c s' =>
      match rstrip s' with
      | EmptyString => if isspace c then EmptyString else String c EmptyString
      | String d t => String c (String d t)
      end
  end.

(** [s.strip()] *)
Definition strip (s : string) : string := rstrip (lstrip s).

(** [s.split(sep)] for a one-character separator: never the empty list. *)
Fixpoint split (sep : ascii) (s : string) : list string :=
  match s with
  | EmptyString => [EmptyString]
  | String c s' =>
      if Ascii.eqb c sep
      then EmptyString :: split sep s'
      else match split sep s' with
           | [] => [String c EmptyString]
           | piece :: pieces => String c piece :: pieces
           end
  end.

Definition newline : ascii := ascii_of_nat 10.

(** [not s] *)
Definition is_empty (s : string) : bool :=
  match s with
  | EmptyString => true
  | String _ _ => false
  end.

Fixpoint all_chars (p : ascii -> bool) (s : string) : bool :=
  match s with
  | EmptyString => true
  | String c s' => p c && all_chars p s'
  end.

(** [s.isascii()] *)
Definition isascii (s : string) : bool := all_chars (fun c => code c <? 128) s.

Definition digit_value (c : ascii) : N := N.of_nat (code c - 48).

Fixpoint decimal_acc (acc : N) (s : string) : N :=
  match s with
  | EmptyString => acc
  | String c s' => decimal_acc (10 * acc + digit_value c)%N s'
  end.

(** [float(x)] where [x] is what [group(1)] gave: [None] is a
    [TypeError]; a non-empty run of decimal digits is the float nearest to
    its value, which is infinity for a value past the largest float.  The
    other numeral syntaxes of [float] (signs, exponents, blanks) cannot
    come out of a [\d+] group and are refused here like any malformed
    numeral. *)
Definition float (x : option string) : Py.M PyFloat.t :=
  match x with
  | None => Py.raise Py.TypeError
  | Some s =>
      if negb (is_empty s) && all_chars isdecimal s
      then Py.ret (PyFloat.of_Z (Z.of_N (decimal_acc 0 s)))
      else Py.raise Py.ValueError
  end.

End PyStr.

(** ** The fragment of [re] that the service uses

    Patterns are compiled from their source text.  The fragment covers
    literal characters, escapes ([\d], [\s], escaped punctuation), bracket
    classes of such items, the greedy [*] and [+] on one atom, one capture
    group and [^]; anything else is refused by [compile].  Matching is
    backtracking search in the order of [re]: leftmost start, greedy
    repetition first. *)

Module Re.
Import Py.
Local Open Scope py_scope.

Inductive item : Type :=
| IChar (c : ascii)
| IDigit
| ISpace.

Inductive atom : Type :=
| Lit (c : ascii)
| Class (items : list item).

Inductive regex : Type :=
| Eps
| Atom (a : atom)
| Star (a : atom)
| Plus (a : atom)
| Cat (r1 r2 : regex)
| Group (r : regex)
| Bol.

Definition isalnum (c : ascii) : bool :=
  PyStr.isdecimal c || PyStr.isupper c || PyStr.islower c.

Definition is_one_of (cs : string) (c : ascii) : bool :=
  PyStr.contains (String c EmptyString) cs.

(** What follows a backslash. *)
Definition escape_item (c : ascii) : M item :=
  if Ascii.eqb c "d" then ret IDigit
  else if Ascii.eqb c "s" then ret ISpace
  else if isalnum c then raise ReError
  else ret (IChar c).

Definition atom_of_item (i : item) : atom :=
  match i with
  | IChar c => Lit c
  | IDigit => Class [IDigit]
  | ISpace => Class [ISpace]
  end.

(** The inside of [[...]], after the opening bracket. *)
Fixpoint parse_class (s : string) (acc : list item) : M (list item * string) :=
  match s with
  | EmptyString => raise ReError
  | String c rest =>
      if Ascii.eqb c "]" then ret (rev acc, rest)
      else if Ascii.eqb c "\" then
        match rest with
        | EmptyString => raise ReError
        | String e rest' =>
            match escape_item e with
            | inl err => inl err
            | inr i => parse_class rest' (i :: acc)
            end
        end
      else if is_one_of "^-[" c then raise ReError
      else parse_class rest (IChar c :: acc)
  end.

Definition parse_atom (s : string) : M (atom * string) :=
  match s with
  | EmptyString => raise ReError
  | String c rest =>
      if Ascii.eqb c "\" then
        match rest with
        | EmptyString => raise ReError
        | String e rest' => i <- escape_item e ;; ret (atom_of_item i, rest')
        end
      else if Ascii.eqb c "[" then
        ' (items, rest') <- parse_class rest [] ;; ret (Class items, rest')
      else if is_one_of ".$*+?{}]|" c then raise ReError
      else ret (Lit c, rest)
  end.

Fixpoint parse_seq (fuel : nat) (s : string) : M (regex * string) :=
  match fuel with
  | O => raise ReError
  | S fuel' =>
      match s with
      | EmptyString => ret (Eps, EmptyString)
      | String c rest =>
          if Ascii.eqb c ")" then ret (Eps, s)
          else if Ascii.eqb c "(" then
            ' (body, rest1) <- parse_seq fuel' rest ;;
            match rest1 with
            | String ")" rest2 =>
                ' (tl, rest3) <- parse_seq fuel' rest2 ;;
                ret (Cat (Group body) tl, rest3)
            | _ => raise ReError
            end
          else if Ascii.eqb c "^" then
            ' (tl, rest1) <- parse_seq fuel' rest ;; ret (Cat Bol tl, rest1)
          else
            ' (a, rest1) <- parse_atom s ;;
            match rest1 with
            | String "*" rest2 =>
                ' (tl, rest3) <- parse_seq fuel' rest2 ;; ret (Cat (Star a) tl, rest3)
            | String "+" rest2 =>
                ' (tl, rest3) <- parse_seq fuel' rest2 ;; ret (Cat (Plus a) tl, rest3)
            | _ =>
                ' (tl, rest3) <- parse_seq fuel' rest1 ;; ret (Cat (Atom a) tl, rest3)
            end
      end
  end.

Fixpoint count_groups (r : regex) : nat :=
  match r with
  | Cat r1 r2 => count_groups r1 + count_groups r2
  | Group r' => S (count_groups r')
  | _ => 0
  end.

(** [re.compile(pattern)]; a pattern outside the fragment, and one with
    more than one group, is refused. *)
Definition compile (pattern : string) : M regex :=
  ' (r, rest) <- parse_seq (S (String.length pattern)) pattern ;;
  if PyStr.is_empty rest && (count_groups r <=? 1) then ret r else raise ReError.

(** *** Matching *)

(** Two characters under [re.IGNORECASE] or without it; with the flag, the
    case of ASCII letters is folded. *)
Definition char_eq (ignorecase : bool) (a b : ascii) : bool :=
  if ignorecase
  then Ascii.eqb (PyStr.lower_char a) (PyStr.lower_char b)
  else Ascii.eqb a b.

Definition item_match (ignorecase : bool) (i : item) (c : ascii) : bool :=
  match i with
  | IChar a => char_eq ignorecase a c
  | IDigit => PyStr.isdecimal c
  | ISpace => PyStr.isspace c
  end.

Definition atom_match (ignorecase : bool) (a : atom) (c : ascii) : bool :=
  match a with
  | Lit b => char_eq ignorecase b c
  | Class items => existsb (fun i => item_match ignorecase i c) items
  end.

(** A match object: the text of group 0, the text of group 1 if the
    group took part, and what is left of the subject after the match. *)
Record found : Type := mkFound {
  whole : string;
  group1 : option string;
  after : string
}.

(** [a*] on [s]: every way to split off a run of [a], longest first. *)
Fixpoint star (ignorecase : bool) (a : atom) (s : string) : list (string * string) :=
  match s with
  | EmptyString => [(EmptyString, EmptyString)]
  | String c s' =>
      if atom_match ignorecase a c
      then map (fun ur => (String c (fst ur), snd ur)) (star ignorecase a s')
           ++ [(EmptyString, s)]
      else [(EmptyString, s)]
  end.

Definition plain (ur : string * string) : found :=
  mkFound (fst ur) None (snd ur).

(** All the matches of [r] at offset [pos], where the subject still has
    [s] to offer, in the order in which backtracking finds them. *)
Fixpoint matches (ignorecase : bool) (r : regex) (pos : nat) (s : string) : list found :=
  match r with
  | Eps => [mkFound EmptyString None s]
  | Atom a =>
      match s with
      | EmptyString => []
      | String c s' =>
          if atom_match ignorecase a c
          then [mkFound (String c EmptyString) None s']
          else []
      end
  | Star a => map plain (star ignorecase a s)
  | Plus a =>
      match s with
      | EmptyString => []
      | String c s' =>
          if atom_match ignorecase a c
          then map (fun ur => mkFound (String c (fst ur)) None (snd ur))
                   (star ignorecase a s')
          else []
      end
  | Cat r1 r2 =>
      flat_map
        (fun m1 =>
           map (fun m2 =>
                  mkFound (whole m1 ++ whole m2)
                          (match group1 m2 with
                           | Some g => Some g
                           | None => group1 m1
                           end)
                          (after m2))
               (matches ignorecase r2 (pos + String.length (whole m1)) (after m1)))
        (matches ignorecase r1 pos s)
  | Group r' =>
      map (fun m => mkFound (whole m) (Some (whole m)) (after m))
          (matches ignorecase r' pos s)
  | Bol => if pos =? 0 then [mkFound EmptyString None s] else []
  end.

Fixpoint search_from (ignorecase : bool) (r : regex) (pos : nat) (s : string)
  : option found :=
  match matches ignorecase r pos s with
  | m :: _ => Some m
  | [] =>
      match s with
      | EmptyString => None
      | String _ s' => search_from ignorecase r (S pos) s'
      end
  end.

(** The flag [re.IGNORECASE] or none. *)
Inductive flags : Type :=
| NOFLAG
| IGNORECASE.

Definition ignorecase_of (f : flags) : bool :=
  match f with
  | NOFLAG => false
  | IGNORECASE => true
  end.

(** [re.search(pattern, text, flags)] *)
Definition search (pattern : string) (text : string) (f : flags) : M (option found) :=
  r <- compile pattern ;;
  ret (search_from (ignorecase_of f) r 0 text).

(** [re.match(pattern, text)] *)
Definition match_ (pattern : string) (text : string) : M (option found) :=
  r <- compile pattern ;;
  ret (hd_error (matches false r 0 text)).

(** [m.group(1)] *)
Definition group (m : found) : option string := group1 m.

End Re.

(** ** [class LangChainService] *)

Module LangChainService.
Import Py.
Local Open Scope py_scope.

(** The message classes of [langchain.schema] that the service builds. *)
Inductive Message : Type :=
| SystemMessage (content : string)
| HumanMessage (content : string)
| AIMessage (content : string).

Inductive Role : Type :=
| system
| user
| assistant.

Definition message_role (m : Message) : Role :=
  match m with
  | SystemMessage _ => system
  | HumanMessage _ => user
  | AIMessage _ => assistant
  end.

Definition message_content (m : Message) : string :=
  match m with
  | SystemMessage c => c
  | HumanMessage c => c
  | AIMessage c => c
  end.

Definition role_name (r : Role) : string :=
  match r with
  | system => "system"
  | user => "user"
  | assistant => "assistant"
  end.

(** One entry of [conversation_history]: the [dict] of a [ChatMessage]
    of [api/routes/chat.py]. *)
Record ChatMessage : Type := mkChatMessage {
  role : string;
  content : string;
  timestamp : option string
}.

(** The attributes of [self] that the methods read.  The chat model is
    the external collaborator: a call either answers or raises. *)
Record Self : Type := mkSelf {
  system_prompt : string;
  image_analysis_prompt : string;
  chat_model : list Message -> M string
}.

(** *** [process_chat_message] *)

(** The names the method works on: its parameters [message] and
    [conversation_history], and its local list [messages]. *)
Record frame : Type := mkFrame {
  message : string;
  conversation_history : list ChatMessage;
  messages : list Message
}.

Definition append_message (fr : frame) (m : Message) : frame :=
  mkFrame (message fr) (conversation_history fr) (messages fr ++ [m]).

Definition assign_message (fr : frame) (text : string) : frame :=
  mkFrame text (conversation_history fr) (messages fr).

(** The body of [for msg in conversation_history[-5:]]. *)
Definition history_step (fr : frame) (msg : ChatMessage) : frame :=
  if String.eqb (role msg) "user"
  then append_message fr (HumanMessage (content msg))
  else append_message fr (AIMessage (content msg)).

Definition kannada_directive : string := "[Please respond in Kannada language] ".

(** An omitted [language] argument takes the default ["en"]. *)
Definition language_or_default (language : option string) : string :=
  match language with
  | Some l => l
  | None => "en"
  end.

(** Lines 95 to 108: the frame when the messages are ready to be sent. *)
Definition process_chat_message_context
  (self : Self) (message : string) (conversation_history : list ChatMessage)
  (language : option string) : frame :=
  let fr := mkFrame message conversation_history [SystemMessage (system_prompt self)] in
  let fr := fold_left history_step (slice_last 5 (LangChainService.conversation_history fr)) fr in
  let fr :=
    if String.eqb (language_or_default language) "kn"
    then assign_message fr (kannada_directive ++ LangChainService.message fr)
    else fr in
  append_message fr (HumanMessage (LangChainService.message fr)).

(** *** [_get_suggested_actions] *)

Definition mentions (text_lower : string) (words : list string) : bool :=
  any (fun word => PyStr.contains word text_lower) words.

Definition _get_suggested_actions (message : string) : list string :=
  let message_lower := PyStr.lower message in
  let suggestions : list string := [] in
  let suggestions :=
    if mentions message_lower
         ["disease"; "spot"; "yellow"; "brown"; "pest"; "bug"; "insect"]
    then suggestions ++
         ["Upload an image of the affected plant";
          "Check market prices for your crop";
          "Look for organic treatment options"]
    else if mentions message_lower ["price"; "sell"; "market"; "mandi"]
    then suggestions ++
         ["Check current market prices";
          "Find nearby mandis";
          "Look for government schemes"]
    else if mentions message_lower ["subsidy"; "scheme"; "government"; "loan"]
    then suggestions ++
         ["Search government schemes";
          "Check eligibility criteria";
          "Find application procedures"]
    else if mentions message_lower ["weather"; "rain"; "drought"; "irrigation"]
    then suggestions ++
         ["Check weather forecasts";
          "Look for drought-resistant varieties";
          "Explore irrigation subsidies"]
    else suggestions ++
         ["Upload crop images for analysis";
          "Check market prices";
          "Explore government schemes"] in
  slice_to 3 suggestions.

(** The [dict] that [process_chat_message] returns. *)
Record ChatResult : Type := mkChatResult {
  response : string;
  conversation_id : string;
  suggested_actions : list string
}.

Definition process_chat_message
  (self : Self) (message : string) (conversation_history : list ChatMessage)
  (language : option string) : M ChatResult :=
  try_except
    (let fr := process_chat_message_context self message conversation_history language in
     response <- chat_model self (messages fr) ;;
     let suggested_actions := _get_suggested_actions (LangChainService.message fr) in
     ret (mkChatResult response "default" suggested_actions))
    (fun e => raise e).

(** *** [_parse_image_analysis] *)

(** The [dict] that [_parse_image_analysis] returns. *)
Record AnalysisResult : Type := mkAnalysisResult {
  analysis : value;
  disease_detected : option string;
  confidence_score : option PyFloat.t;
  recommended_actions : list string;
  local_remedies : list string
}.

Definition set_disease_detected (r : AnalysisResult) (d : option string) :=
  mkAnalysisResult (analysis r) d (confidence_score r)
                   (recommended_actions r) (local_remedies r).

Definition set_confidence_score (r : AnalysisResult) (c : option PyFloat.t) :=
  mkAnalysisResult (analysis r) (disease_detected r) c
                   (recommended_actions r) (local_remedies r).

Definition set_recommended_actions (r : AnalysisResult) (xs : list string) :=
  mkAnalysisResult (analysis r) (disease_detected r) (confidence_score r)
                   xs (local_remedies r).

Definition set_local_remedies (r : AnalysisResult) (xs : list string) :=
  mkAnalysisResult (analysis r) (disease_detected r) (confidence_score r)
                   (recommended_actions r) xs.

Definition diseases : list string :=
  ["blight"; "wilt"; "rust"; "mildew"; "mosaic"; "rot"; "canker";
   "anthracnose"; "leaf spot"; "powdery mildew"; "downy mildew";
   "bacterial"; "fungal"; "viral"; "aphid"; "thrips"; "whitefly"].

(** [for disease in diseases: if disease in response_lower: ...; break] *)
Fixpoint disease_loop (diseases : list string) (response_lower : string)
  (analysis_result : AnalysisResult) : AnalysisResult :=
  match diseases with
  | [] => analysis_result
  | disease :: diseases' =>
      if PyStr.contains disease response_lower
      then set_disease_detected analysis_result (Some (PyStr.title disease))
      else disease_loop diseases' response_lower analysis_result
  end.

Definition confidence_patterns : list string :=
  ["confidence[:\s]*(\d+)%";
   "(\d+)%\s*confidence";
   "confidence[:\s]*(\d+)";
   "(\d+)\s*percent"].

(** [for pattern in confidence_patterns: ...; break] *)
Fixpoint confidence_loop (patterns : list string) (response_text : string)
  (analysis_result : AnalysisResult) : M AnalysisResult :=
  match patterns with
  | [] => ret analysis_result
  | pattern :: patterns' =>
      confidence_match <- Re.search pattern response_text Re.IGNORECASE ;;
      match confidence_match with
      | Some m =>
          x <- PyStr.float (Re.group m) ;;
          ret (set_confidence_score analysis_result (Some (PyFloat.div x (PyFloat.of_Z 100))))
      | None => confidence_loop patterns' response_text analysis_result
      end
  end.

Definition action_words : list string :=
  ["spray"; "apply"; "use"; "treat"; "remove"; "cut"; "water";
   "fertilize"; "prune"; "harvest"; "isolate"].

Definition remedy_words : list string :=
  ["neem"; "organic"; "local"; "traditional"; "natural";
   "turmeric"; "garlic"; "soap"; "ash"].

Definition numbered_remedy_words : list string := ["neem"; "organic"; "local"].

Definition numbered_pattern : string := "^\d+\.".

Definition is_match (m : option Re.found) : bool :=
  match m with
  | Some _ => true
  | None => false
  end.

(** [for line in lines: ...] with the two lists it appends to. *)
Fixpoint lines_loop (lines : list string) (actions remedies : list string)
  : M (list string * list string) :=
  match lines with
  | [] => ret (actions, remedies)
  | line :: lines' =>
      let line := PyStr.strip line in
      if PyStr.is_empty line then lines_loop lines' actions remedies
      else if mentions (PyStr.lower line) action_words then
        if mentions (PyStr.lower line) remedy_words
        then lines_loop lines' actions (remedies ++ [PyStr.strip line])
        else lines_loop lines' (actions ++ [PyStr.strip line]) remedies
      else
        numbered <- Re.match_ numbered_pattern line ;;
        if is_match numbered && (10 <? String.length line) then
          if mentions (PyStr.lower line) numbered_remedy_words
          then lines_loop lines' actions (remedies ++ [PyStr.strip line])
          else lines_loop lines' (actions ++ [PyStr.strip line]) remedies
        else lines_loop lines' actions remedies
  end.

(** The [try] block.  Its first use of [response_text] is
    [response_text.lower()]: on a value that is not a [str] this raises
    [AttributeError] and nothing after it runs. *)
Definition parse_try (response_text : value) : M AnalysisResult :=
  let analysis_result := mkAnalysisResult response_text None None [] [] in
  match response_text with
  | VList _ => raise AttributeError
  | VStr text =>
      let response_lower := PyStr.lower text in
      let analysis_result := disease_loop diseases response_lower analysis_result in
      analysis_result <- confidence_loop confidence_patterns text analysis_result ;;
      let lines := PyStr.split PyStr.newline text in
      ' (actions, remedies) <- lines_loop lines [] [] ;;
      let analysis_result :=
        set_recommended_actions analysis_result (slice_to 5 actions) in
      let analysis_result :=
        set_local_remedies analysis_result (slice_to 3 remedies) in
      ret analysis_result
  end.

(** The [except Exception] block; the logging call has no effect on the
    result. *)
Definition parse_except (response_text : value) (e : exn) : M AnalysisResult :=
  ret (mkAnalysisResult response_text None None [] []).

Definition _parse_image_analysis (response_text : value) : M AnalysisResult :=
  try_except (parse_try response_text) (parse_except response_text).

End LangChainService.

(** ** Static analyses of compiled patterns, used to bound what a capture
       group can hold *)

Module ReShape.
Import Re.

Definition is_digit_atom (a : atom) : bool :=
  match a with
  | Class [IDigit] => true
  | _ => false
  end.

(** Every match of the pattern is a run of decimal digits. *)
Fixpoint digits_only (r : regex) : bool :=
  match r with
  | Eps => true
  | Atom a => is_digit_atom a
  | Star a => is_digit_atom a
  | Plus a => is_digit_atom a
  | Cat r1 r2 => digits_only r1 && digits_only r2
  | Group r' => digits_only r'
  | Bol => true
  end.

(** Every match of the pattern takes at least one character. *)
Fixpoint consuming (r : regex) : bool :=
  match r with
  | Atom _ => true
  | Plus _ => true
  | Cat r1 r2 => consuming r1 || consuming r2
  | Group r' => consuming r'
  | _ => false
  end.

(** Whatever a group of the pattern captures is a non-empty run of
    decimal digits. *)
Fixpoint groups_numeric (r : regex) : bool :=
  match r with
  | Cat r1 r2 => groups_numeric r1 && groups_numeric r2
  | Group r' => digits_only r' && consuming r'
  | _ => true
  end.

(** Every match of the pattern goes through a group. *)
Fixpoint sets_group (r : regex) : bool :=
  match r with
  | Cat r1 r2 => sets_group r1 || sets_group r2
  | Group _ => true
  | _ => false
  end.

Definition numeric_capture (r : regex) : bool :=
  groups_numeric r && sets_group r.

(** A non-empty run of decimal digits. *)
Definition numeric (g : string) : Prop :=
  g <> EmptyString /\ PyStr.all_chars PyStr.isdecimal g = true.




(** The last character of [s] is a [p]; no last character, no [p]. *)
Fixpoint ends_with (p : ascii -> bool) (s : string) : bool :=
  match s with
  | EmptyString => false
  | String c EmptyString => p c
  | String _ s' => ends_with p s'
  end.

End ReShape.

(** ** What the first and the fourth confidence pattern compile to *)

Module Patterns.
Import Re ReShape.



End Patterns.

(** ** The classification of one line, as a function of the line *)

Module Lines.
Import LangChainService.

Inductive category : Type :=
| remedy
| action
| ignored.

(** The compiled [numbered_pattern]. *)
Definition numbered_regex : Re.regex :=
  Re.Cat Re.Bol
    (Re.Cat (Re.Plus (Re.Class [Re.IDigit]))
       (Re.Cat (Re.Atom (Re.Lit ".")) Re.Eps)).

Definition is_numbered (line : string) : bool :=
  is_match (hd_error (Re.matches false numbered_regex 0 line)).

(** What the loop body does with a stripped line. *)
Definition classify (line : string) : category :=
  if PyStr.is_empty line then ignored
  else if mentions (PyStr.lower line) action_words then
    if mentions (PyStr.lower line) remedy_words then remedy else action
  else if is_numbered line && (10 <? String.length line) then
    if mentions (PyStr.lower line) numbered_remedy_words then remedy else action
  else ignored.

Definition is_category (c : category) (line : string) : bool :=
  match classify line, c with
  | remedy, remedy => true
  | action, action => true
  | ignored, ignored => true
  | _, _ => false
  end.

(** The stripped lines of a category, in the order of the text. *)
Definition collected (c : category) (text : string) : list string :=
  filter (is_category c) (map PyStr.strip (PyStr.split PyStr.newline text)).

End Lines.

(** ** [analyze_crop_image]

    The image library, the base64 codec and the multimodal call of the
    chat model are collaborators: they are the variables of the section.
    [str(e)] of an exception is one of them too. *)

Module CropImage.
Import Py LangChainService.
Local Open Scope string_scope.
Local Open Scope py_scope.

(** The parts of the content of a multimodal user message. *)
Inductive Part : Type :=
| TextPart (text : string)
| ImageUrlPart (url : string) (detail : string).

Inductive VisionMessage : Type :=
| VisionSystemMessage (content : string)
| VisionHumanMessage (content : list Part).

Definition user_query_header : string :=
  String PyStr.newline (String PyStr.newline "User Query: ").

(** The [dict] of the [except] block. *)
Definition fallback_result (error_text : string) : AnalysisResult :=
  mkAnalysisResult
    (VStr ("I'm having trouble analyzing the image right now. Error: " ++ error_text
           ++ ". Please try uploading a clearer image or describe the issue you're seeing with your crops."))
    None
    (Some PyFloat.zero)
    ["Upload a clearer image"; "Describe the problem in text"; "Check image size and quality"]
    [].

(** [analysis_prompt], lines 139 to 142. *)
Definition analysis_prompt (self : Self) (query : string) (language : string) : string :=
  let analysis_prompt :=
    if negb (PyStr.is_empty query)
    then image_analysis_prompt self ++ user_query_header ++ query
    else image_analysis_prompt self in
  if String.eqb language "kn"
  then "[Please respond in Kannada language] " ++ analysis_prompt
  else analysis_prompt.

(** [messages], lines 145 to 160. *)
Definition analysis_messages (self : Self) (analysis_prompt image_base64 : string)
  : list VisionMessage :=
  [VisionSystemMessage (system_prompt self);
   VisionHumanMessage
     [TextPart analysis_prompt;
      ImageUrlPart ("data:image/jpeg;base64," ++ image_base64) "high"]].

Section Collaborators.

Variable Image : Type.
(** [image.size] *)
Variable size : Image -> nat * nat.
(** The image after [image.thumbnail(box, Image.Resampling.LANCZOS)]. *)
Variable thumbnail : Image -> nat * nat -> Image.
(** The bytes in the buffer after [image.save(buffer, format="JPEG",
    quality=q)], or what the call raises. *)
Variable save_jpeg : Image -> nat -> M string.
(** [base64.b64encode(data).decode()] *)
Variable b64encode : string -> string.
(** [response.content] of [self.chat_model.ainvoke(messages)], or what the
    call raises. *)
Variable ainvoke : list VisionMessage -> M value.
(** [str(e)] *)
Variable str_of_exception : exn -> string.

(** The image that goes into the buffer, lines 132 and 133. *)
Definition optimized (image : Image) : Image :=
  if ((1024 <? fst (size image)) || (1024 <? snd (size image)))%nat
  then thumbnail image (1024, 1024)
  else image.

Definition analyze_crop_image
  (self : Self) (image : Image) (query : string) (language : string)
  : M AnalysisResult :=
  try_except
    (let image := optimized image in
     data <- save_jpeg image 85 ;;
     let image_base64 := b64encode data in
     let analysis_prompt := analysis_prompt self query language in
     let messages := analysis_messages self analysis_prompt image_base64 in
     content <- ainvoke messages ;;
     analysis_result <- _parse_image_analysis content ;;
     ret analysis_result)
    (fun e => ret (fallback_result (str_of_exception e))).

End Collaborators.

End CropImage.

(** ** What a route raises

    A route either returns or raises: an [HTTPException] with its status
    code and detail, or another exception, kept as its [str(e)]. *)

Module Http.

Inductive failure : Type :=
| HTTPException (status_code : nat) (detail : string)
| Error (message : string).

Definition R (A : Type) : Type := (failure + A)%type.

(** [try: body] under [except HTTPException: raise] and
    [except Exception as e: raise HTTPException(500, prefix + str(e))]. *)
Definition guarded {A : Type} (prefix : string) (body : R A) : R A :=
  match body with
  | inl (HTTPException status_code detail) => inl (HTTPException status_code detail)
  | inl (Error message) => inl (HTTPException 500 (prefix ++ message))
  | inr a => inr a
  end.

End Http.

(** ** [api/routes/schemes.py] *)

Module Schemes.
Import Py.
Local Open Scope string_scope.

(** [class GovernmentScheme], and the [dict]s of the scheme database. *)
Record GovernmentScheme : Type := mkScheme {
  name : string;
  description : string;
  category : string;
  eligibility : list string;
  benefits : list string;
  application_process : list string;
  documents_required : list string;
  application_link : option string;
  deadline : option string;
  contact_info : list (string * string)
}.

(** [self.schemes_database] as [__init__] sets it. *)
Definition schemes_database : list GovernmentScheme :=
  [mkScheme
     "PM-KISAN Samman Nidhi"
     "Direct income support to farmers providing ₹6000 per year in three equal installments"
     "subsidy"
     ["Small and marginal farmers";
      "Land holding up to 2 hectares";
      "Valid Aadhaar card required";
      "Bank account linked with Aadhaar"]
     ["₹2000 per installment (3 times a year)";
      "Direct bank transfer";
      "No paperwork after initial registration"]
     ["Visit nearest Common Service Center (CSC)";
      "Provide land documents and Aadhaar";
      "Fill PM-KISAN application form";
      "Submit documents for verification";
      "Receive confirmation SMS"]
     ["Aadhaar Card";
      "Bank Account Details";
      "Land Ownership Documents";
      "Mobile Number"]
     (Some "https://pmkisan.gov.in")
     (Some "Open throughout the year")
     [("helpline", "155261"); ("email", "pmkisan-ict@gov.in")];
   mkScheme
     "Pradhan Mantri Fasal Bima Yojana (PMFBY)"
     "Crop insurance scheme providing financial support in case of crop loss due to natural calamities"
     "insurance"
     ["All farmers (sharecroppers and tenant farmers included)";
      "Must have insurable interest in the crop";
      "Should be growing notified crops in notified areas"]
     ["Low premium rates (2% for Kharif, 1.5% for Rabi)";
      "Coverage for yield losses";
      "Quick settlement of claims";
      "Technology-based damage assessment"]
     ["Approach nearest bank or insurance company";
      "Fill crop insurance application";
      "Pay premium amount";
      "Receive insurance certificate";
      "Report crop loss within 72 hours if occurs"]
     ["Aadhaar Card";
      "Bank Account Details";
      "Land Records";
      "Crop Sowing Certificate"]
     (Some "https://pmfby.gov.in")
     (Some "Usually 1 month before harvest")
     [("helpline", "14434"); ("email", "support@pmfby.gov.in")];
   mkScheme
     "Kisan Credit Card (KCC)"
     "Easy access to credit for farmers to meet their production and consumption needs"
     "loan"
     ["All farmers (individual/joint borrowers)";
      "Tenant farmers and sharecroppers";
      "Self Help Group members";
      "Minimum 18 years age"]
     ["Interest rate 7% per annum";
      "No collateral required up to ₹1.6 lakh";
      "Flexible repayment options";
      "Insurance coverage included"]
     ["Visit nearest bank branch";
      "Fill KCC application form";
      "Submit required documents";
      "Bank verification process";
      "Receive KCC within 15 days"]
     ["Identity Proof (Aadhaar/PAN)";
      "Address Proof";
      "Land Documents";
      "Income Proof"]
     (Some "https://www.nabard.org/kcc")
     (Some "Open throughout the year")
     [("helpline", "1800-180-1111"); ("website", "nabard.org")];
   mkScheme
     "Soil Health Card Scheme"
     "Provides soil health information to farmers for appropriate nutrient management"
     "training"
     ["All farmers";
      "No land size restriction";
      "Available for all crop types"]
     ["Free soil testing";
      "Nutrient recommendations";
      "Fertilizer recommendations";
      "Improved crop productivity"]
     ["Contact local agriculture officer";
      "Register for soil sampling";
      "Collect soil samples as per guidelines";
      "Submit samples to testing lab";
      "Receive soil health card"]
     ["Land ownership documents";
      "Aadhaar Card";
      "Survey number details"]
     (Some "https://soilhealth.dac.gov.in")
     (Some "Open throughout the year")
     [("helpline", "011-23382401"); ("email", "info@soilhealth.com")];
   mkScheme
     "Micro Irrigation Subsidy"
     "Financial assistance for drip and sprinkler irrigation systems"
     "subsidy"
     ["All categories of farmers";
      "Minimum 0.2 hectare land";
      "Maximum 5 hectare per beneficiary"]
     ["55% subsidy for general farmers";
      "75% subsidy for SC/ST farmers";
      "Water conservation";
      "Increased crop yield"]
     ["Apply through horticulture department";
      "Submit detailed project report";
      "Technical approval from department";
      "Installation after approval";
      "Claim subsidy after completion"]
     ["Land documents";
      "Aadhaar Card";
      "Bank account details";
      "Caste certificate (if applicable)"]
     (Some "https://pmksy.gov.in")
     (Some "Usually April-May each year")
     [("helpline", "011-23382477"); ("email", "pmksy@nic.in")]].

(** [sep.join(xs)] *)
Fixpoint join (sep : string) (xs : list string) : string :=
  match xs with
  | [] => ""
  | [x] => x
  | x :: rest => x ++ sep ++ join sep rest
  end.

(** [s.split()]: the words between runs of whitespace; [word] is the word
    being read. *)
Fixpoint split_from (word : string) (s : string) : list string :=
  match s with
  | EmptyString => if PyStr.is_empty word then [] else [word]
  | String c s' =>
      if PyStr.isspace c
      then if PyStr.is_empty word then split_from "" s' else word :: split_from "" s'
      else split_from (word ++ String c "") s'
  end.

Definition split_whitespace (s : string) : list string := split_from "" s.

(** The truth value of an optional [str]: [None] and [""] are false. *)
Definition truthy (x : option string) : bool :=
  match x with
  | Some s => negb (PyStr.is_empty s)
  | None => false
  end.

(** [x != y] for a [str] and an optional [str]. *)
Definition differs (x : string) (y : option string) : bool :=
  match y with
  | Some s => negb (String.eqb x s)
  | None => true
  end.

Definition searchable_text (scheme : GovernmentScheme) : string :=
  PyStr.lower (name scheme ++ " " ++ description scheme ++ " " ++ join " " (benefits scheme)).

(** The first loop of [search_schemes], over the database. *)
Fixpoint text_loop (database : list GovernmentScheme) (query_lower : string)
  (category : option string) (matching_schemes : list GovernmentScheme)
  : list GovernmentScheme :=
  match database with
  | [] => matching_schemes
  | scheme :: database' =>
      let searchable_text := searchable_text scheme in
      if truthy category && differs (Schemes.category scheme) category
      then text_loop database' query_lower category matching_schemes
      else if any (fun word => PyStr.contains word searchable_text)
                  (split_whitespace query_lower)
      then text_loop database' query_lower category (matching_schemes ++ [scheme])%list
      else text_loop database' query_lower category matching_schemes
  end.

Definition keyword_mapping : list (string * list string) :=
  [("loan", ["loan"]);
   ("credit", ["loan"]);
   ("insurance", ["insurance"]);
   ("subsidy", ["subsidy"]);
   ("training", ["training"]);
   ("irrigation", ["subsidy"]);
   ("water", ["subsidy"]);
   ("income", ["subsidy"])].

(** [x in xs] for a list of [str]. *)
Definition member (x : string) (xs : list string) : bool := existsb (String.eqb x) xs.

(** The inner loop of the fallback: the schemes of the categories. *)
Fixpoint category_loop (database : list GovernmentScheme) (categories : list string)
  (matching_schemes : list GovernmentScheme) : list GovernmentScheme :=
  match database with
  | [] => matching_schemes
  | scheme :: database' =>
      if member (category scheme) categories
      then category_loop database' categories (matching_schemes ++ [scheme])%list
      else category_loop database' categories matching_schemes
  end.

(** [for keyword, categories in keyword_mapping.items(): ...; break] *)
Fixpoint keyword_loop (mapping : list (string * list string))
  (database : list GovernmentScheme) (query_lower : string)
  (matching_schemes : list GovernmentScheme) : list GovernmentScheme :=
  match mapping with
  | [] => matching_schemes
  | (keyword, categories) :: mapping' =>
      if PyStr.contains keyword query_lower
      then category_loop database categories matching_schemes
      else keyword_loop mapping' database query_lower matching_schemes
  end.

(** The [dict] that [search_schemes] returns. *)
Record SearchResult : Type := mkSearchResult {
  schemes : list GovernmentScheme;
  total_found : nat;
  search_suggestions : list string
}.

(** [search_schemes], with [self.schemes_database] as [database]. *)
Definition search_schemes (database : list GovernmentScheme)
  (query : string) (state : string) (category : option string) : SearchResult :=
  let query_lower := PyStr.lower query in
  let matching_schemes := text_loop database query_lower category [] in
  let matching_schemes :=
    match matching_schemes with
    | [] => keyword_loop keyword_mapping database query_lower matching_schemes
    | _ :: _ => matching_schemes
    end in
  let suggestions :=
    ["Crop insurance schemes";
     "Irrigation subsidies";
     "Farmer loans and credit";
     "Soil testing programs";
     "Direct benefit transfer schemes"] in
  mkSearchResult (slice_to 5 matching_schemes) (List.length matching_schemes) suggestions.

(** [for scheme_data in ...: if ... == scheme_name.lower(): return ...] *)
Fixpoint details_loop (database : list GovernmentScheme) (scheme_name : string)
  : Http.R GovernmentScheme :=
  match database with
  | [] => inl (Http.HTTPException 404 "Scheme not found")
  | scheme_data :: database' =>
      if String.eqb (PyStr.lower (name scheme_data)) (PyStr.lower scheme_name)
      then inr scheme_data
      else details_loop database' scheme_name
  end.

(** The route [get_scheme_details]. *)
Definition get_scheme_details (database : list GovernmentScheme) (scheme_name : string)
  : Http.R GovernmentScheme :=
  Http.guarded "Failed to get scheme details: " (details_loop database scheme_name).

(** What the first loop asks of a scheme to keep it. *)
Definition text_match (query_lower : string) (category : option string)
  (scheme : GovernmentScheme) : bool :=
  negb (truthy category && differs (Schemes.category scheme) category)
  && any (fun word => PyStr.contains word (searchable_text scheme))
         (split_whitespace query_lower).

(** The schemes that the fallback takes for a query. *)
Definition fallback_schemes (database : list GovernmentScheme) (query_lower : string)
  : list GovernmentScheme :=
  match find (fun entry => PyStr.contains (fst entry) query_lower) keyword_mapping with
  | Some (_, categories) =>
      filter (fun scheme => member (category scheme) categories) database
  | None => []
  end.

Definition suggestions : list string :=
  ["Crop insurance schemes";
   "Irrigation subsidies";
   "Farmer loans and credit";
   "Soil testing programs";
   "Direct benefit transfer schemes"].

End Schemes.

(** ** [api/routes/market.py]

    The random module, the clock, [round] and the rendering of numbers in
    f-strings are collaborators: the variables of the section.  Prices are
    kept as exact rationals. *)

Module Market.
Local Open Scope string_scope.

(** What the service can raise. *)
Inductive exn : Type :=
| ZeroDivisionError
| OverflowError (message : string).

(** [str(e)] *)
Definition str_of_exception (e : exn) : string :=
  match e with
  | ZeroDivisionError => "division by zero"
  | OverflowError message => message
  end.

(** A value of [self.mock_prices]. *)
Record PriceData : Type := mkPriceData {
  data_current_price : Q;
  data_unit : string;
  data_trend : string;
  data_trend_percentage : Q;
  data_market : string
}.

(** [self.mock_prices] as [__init__] sets it. *)
Definition mock_prices : list (string * PriceData) :=
  [("tomato", mkPriceData 25.50 "per kg" "increasing" 12.5 "Bangalore APMC");
   ("onion", mkPriceData 18.75 "per kg" "stable" 2.1 "Mysore Mandi");
   ("potato", mkPriceData 22.00 "per kg" "decreasing" (-5.3) "Hassan Market");
   ("rice", mkPriceData 45.00 "per kg" "stable" 1.2 "Shimoga APMC");
   ("sugarcane", mkPriceData 2800.00 "per ton" "increasing" 8.7 "Mandya Sugar Factory")].

(** [table.get(key)] *)
Fixpoint lookup (table : list (string * PriceData)) (key : string) : option PriceData :=
  match table with
  | [] => None
  | (k, data) :: table' => if String.eqb k key then Some data else lookup table' key
  end.

(** The [dict] that [get_current_price] returns. *)
Record Price : Type := mkPrice {
  crop_name : string;
  current_price : Q;
  price_unit : string;
  market_name : string;
  price_date : string;
  trend : string;
  trend_percentage : Q;
  recommendations : list string
}.

Definition _generate_recommendations (price_data : PriceData) : list string :=
  let recommendations : list string := [] in
  if String.eqb (data_trend price_data) "increasing"
  then (recommendations ++
        ["Good time to sell - prices are rising";
         "Consider holding for 2-3 days if possible";
         "Ensure proper storage to maintain quality"])%list
  else if String.eqb (data_trend price_data) "decreasing"
  then (recommendations ++
        ["Consider selling immediately";
         "Avoid holding stock for too long";
         "Look for alternative markets with better rates"])%list
  else (recommendations ++
        ["Prices are stable - good time to sell";
         "Focus on quality to get better rates";
         "Compare prices across different markets"])%list.

(** An entry of [historical_prices] and an entry of [forecast]. *)
Record HistoricalPrice : Type := mkHistoricalPrice {
  date : string;
  price : Q;
  market : string
}.

Record Forecast : Type := mkForecast {
  forecast_date : string;
  predicted_price : Q;
  confidence : Q
}.

(** The [dict] that [get_market_trends] returns. *)
Record Trends : Type := mkTrends {
  trends_crop_name : string;
  historical_prices : list HistoricalPrice;
  forecast : list Forecast;
  best_selling_time : string;
  market_insights : list string
}.

(** The [dict] that [analyze_selling_decision] returns. *)
Record Decision : Type := mkDecision {
  decision_crop_name : string;
  decision : string;
  decision_confidence : Q;
  decision_current_price : Q;
  reasons : list string;
  decision_recommendations : list string
}.

(** [f"{location}"] for an optional [str]. *)
Definition str_of_optional (x : option string) : string :=
  match x with
  | Some s => s
  | None => "None"
  end.

(** [x > y] and [x < y] on numbers. *)
Definition gt (x y : Q) : bool := negb (Qle_bool x y).
Definition lt (x y : Q) : bool := negb (Qle_bool y x).

Fixpoint sum_prices (prices : list HistoricalPrice) : Q :=
  match prices with
  | [] => 0
  | p :: prices' => (price p + sum_prices prices')%Q
  end.

Section Collaborators.

(** The state of the [random] module. *)
Variable rng : Type.
(** [random.uniform(a, b)] *)
Variable uniform : Q -> Q -> rng -> Q * rng.
(** [random.choice(xs)] *)
Variable choice : list string -> rng -> string * rng.
(** [round(x, ndigits)] *)
Variable round_ : Q -> nat -> Q.
(** [datetime.now().strftime("%Y-%m-%d")] *)
Variable today : string.
(** [(datetime.now() + timedelta(days=d)).strftime("%Y-%m-%d")], which
    raises [OverflowError] when the date is out of range. *)
Variable shifted_day : Z -> exn + string.
(** An [int] and a [float] in an f-string. *)
Variable str_of_int : Z -> string.
Variable str_of_float : Q -> string.

(** A computation that draws random numbers and can raise, over the
    failures [E]. *)
Definition Run (E A : Type) : Type := rng -> (E + A) * rng.

Definition ret {E A : Type} (a : A) : Run E A := fun g => (inr a, g).

Definition raise {E A : Type} (e : E) : Run E A := fun g => (inl e, g).

Definition bind {E A B : Type} (c : Run E A) (k : A -> Run E B) : Run E B :=
  fun g =>
    match c g with
    | (inl e, g') => (inl e, g')
    | (inr a, g') => k a g'
    end.

Definition draw {E A : Type} (f : rng -> A * rng) : Run E A :=
  fun g => (inr (fst (f g)), snd (f g)).

Definition lift {E A : Type} (x : E + A) : Run E A := fun g => (x, g).

(** [try: body except Exception as e: raise HTTPException(500, prefix + str(e))] *)
Definition as_http {A : Type} (prefix : string) (body : Run exn A) : Run Http.failure A :=
  fun g =>
    match body g with
    | (inl e, g') => (inl (Http.HTTPException 500 (prefix ++ str_of_exception e)), g')
    | (inr a, g') => (inr a, g')
    end.

Local Notation "x <- c ;; k" := (bind c (fun x => k))
  (at level 61, c at next level, right associativity).

(** [get_current_price], with [self.mock_prices] as [table]. *)
Definition get_current_price (table : list (string * PriceData))
  (crop_name : string) (location : option string) : Run exn Price :=
  let crop_lower := PyStr.lower crop_name in
  match lookup table crop_lower with
  | Some data =>
      ret (mkPrice crop_name (data_current_price data) (data_unit data) (data_market data)
             today (data_trend data) (data_trend_percentage data)
             (_generate_recommendations data))
  | None =>
      x <- draw (uniform 15.0 50.0) ;;
      let price := round_ x 2 in
      let trends := ["increasing"; "decreasing"; "stable"] in
      trend <- draw (choice trends) ;;
      y <- draw (uniform (-10.0) 15.0) ;;
      ret (mkPrice crop_name price "per kg" (str_of_optional location ++ " Local Market")
             today trend (round_ y 1)
             ["Monitor price trends for next few days";
              "Consider nearby markets for better rates";
              "Check quality requirements before selling"])
  end.

(** [for i in range(days)], from [i] on, with [count] rounds to go. *)
Fixpoint historical_loop (base_price : Q) (days : Z) (count : nat) (i : Z)
  (historical_prices : list HistoricalPrice) : Run exn (list HistoricalPrice) :=
  match count with
  | O => ret historical_prices
  | S count' =>
      date <- lift (shifted_day (- (days - i))) ;;
      price_variation <- draw (uniform (-3) 3) ;;
      let price := round_ (base_price + price_variation)%Q 2 in
      historical_loop base_price days count' (i + 1)
        (historical_prices ++ [mkHistoricalPrice date price "Local APMC"])%list
  end.

(** [for i in range(1, 4)], over the values of [i] that are left. *)
Fixpoint forecast_loop (base_price : Q) (indices : list Z) (forecast : list Forecast)
  : Run exn (list Forecast) :=
  match indices with
  | [] => ret forecast
  | i :: indices' =>
      date <- lift (shifted_day i) ;;
      price_variation <- draw (uniform (-2) 4) ;;
      let price := round_ (base_price + price_variation)%Q 2 in
      confidence <- draw (uniform 0.7 0.95) ;;
      forecast_loop base_price indices'
        (forecast ++ [mkForecast date price confidence])%list
  end.

(** [sum(p['price'] for p in historical_prices)/len(historical_prices)] *)
Definition average (historical_prices : list HistoricalPrice) : exn + Q :=
  if (List.length historical_prices =? 0)%nat
  then inl ZeroDivisionError
  else inr (sum_prices historical_prices
            / inject_Z (Z.of_nat (List.length historical_prices)))%Q.

(** [get_market_trends], with [self.mock_prices] as [table]. *)
Definition get_market_trends (table : list (string * PriceData))
  (crop_name : string) (days : Z) : Run exn Trends :=
  let base_price :=
    match lookup table (PyStr.lower crop_name) with
    | Some data => data_current_price data
    | None => 25.0%Q
    end in
  historical_prices <- historical_loop base_price days (Z.to_nat days) 0 [] ;;
  forecast <- forecast_loop base_price [1; 2; 3]%Z [] ;;
  mean <- lift (average historical_prices) ;;
  ret (mkTrends crop_name historical_prices forecast "Within next 2-3 days"
         ["Average price over " ++ str_of_int days ++ " days: â‚¹"
          ++ str_of_float (round_ mean 2);
          "Demand is seasonal - festival season shows higher prices";
          "Transportation costs affect final margins";
          "Quality grading significantly impacts price"]).

(** The route [get_market_trends]. *)
Definition get_market_trends_route (table : list (string * PriceData))
  (crop_name : string) (days : Z) : Run Http.failure Trends :=
  as_http "Failed to fetch trend data: " (get_market_trends table crop_name days).

(** The route [analyze_selling_decision]. *)
Definition analyze_selling_decision (table : list (string * PriceData))
  (request_crop_name : string) (request_location : option string)
  : Run Http.failure Decision :=
  as_http "Failed to analyze selling decision: "
    (price_data <- get_current_price table request_crop_name request_location ;;
     trend_data <- get_market_trends table request_crop_name 7 ;;
     let confidence := 0.7%Q in
     let reasons : list string := [] in
     let '(decision, reasons) :=
       if String.eqb (trend price_data) "increasing"
          && gt (trend_percentage price_data) 5
       then ("hold", reasons ++ ["Prices are rising significantly"])%list
       else if String.eqb (trend price_data) "decreasing"
               && lt (trend_percentage price_data) (-3)
       then ("sell", reasons ++ ["Prices are falling, sell to avoid losses"])%list
       else ("sell", reasons ++ ["Stable prices, good time to sell"])%list in
     ret (mkDecision request_crop_name decision confidence (current_price price_data)
            reasons (recommendations price_data))).

End Collaborators.

End Market.

(** ** [services/azure_vision_service.py] *)

Module Vision.
Import Py.
Local Open Scope string_scope.
Local Open Scope py_scope.

(** The two shapes of the [dict] that [analyze_image] returns. *)
Inductive Analysis : Type :=
| Failed (error : string) (details : string)
| Described (description : string) (objects colors text faces brands : list string)
            (image_quality : string).

Definition mock_result : Analysis :=
  Described "Agricultural crop image detected"
    ["plant"; "leaves"; "crop"] ["green"; "brown"; "yellow"] [] [] [] "good".

Section Collaborators.

Variable Image : Type.
(** [image.size] *)
Variable size : Image -> nat * nat.
(** The bytes in the buffer after [image.save(buffer, format='JPEG')], or
    what the call raises. *)
Variable save_jpeg : Image -> M string.
(** [str(e)] *)
Variable str_of_exception : exn -> string.

Definition analyze_image (image : Image) : Analysis :=
  match
    (let '(width, height) := size image in
     if ((width <? 100) || (height <? 100))%nat
     then ret (Failed "Image too small for analysis"
                      "Please upload a clearer, larger image")
     else ret mock_result)
  with
  | inr result => result
  | inl e => Failed "Image analysis failed" (str_of_exception e)
  end.

(** [len(data) / (1024 * 1024) > 10]: the division by a power of two is
    exact, so this is a comparison of integers. *)
Definition over_ten_megabytes (data : string) : bool :=
  (10 * (1024 * 1024) <? String.length data)%nat.

Definition validate_crop_image (image : Image) : bool :=
  match
    (let '(width, height) := size image in
     if ((width <? 200) || (height <? 200))%nat then ret false
     else
       data <- save_jpeg image ;;
       if over_ten_megabytes data then ret false else ret true)
  with
  | inr answer => answer
  | inl e => false
  end.

End Collaborators.

End Vision.

(** ** The language and voice tables of [api/routes/speech.py] *)

Module Speech.
Local Open Scope string_scope.

Definition language_mappings : list (string * string) :=
  [("en", "en-US"); ("kn", "kn-IN"); ("hi", "hi-IN"); ("ta", "ta-IN")].

Definition voice_mappings : list (string * string) :=
  [("en-US", "en-US-AriaNeural");
   ("kn-IN", "kn-IN-SapnaNeural");
   ("hi-IN", "hi-IN-SwaraNeural");
   ("ta-IN", "ta-IN-PallaviNeural")].

(** [table.get(key, default)], for a key that may be [None]: no key of
    these tables is [None]. *)
Fixpoint get {A : Type} (table : list (string * string)) (key : option string)
  (default : A) (found : string -> A) : A :=
  match table with
  | [] => default
  | (k, v) :: table' =>
      match key with
      | Some key' => if String.eqb k key' then found v else get table' key default found
      | None => default
      end
  end.

(** [self.language_mappings.get(language, language)] *)
Definition full_language (language : option string) : option string :=
  get language_mappings language language Some.

(** What the synthesis can raise: [Exception(message)], or what the
    synthesizer raised, kept as its message. *)
Inductive exn : Type :=
| Exception (message : string).

(** [result.reason] of a synthesis, with its rendering in an f-string. *)
Inductive Reason : Type :=
| SynthesizingAudioCompleted
| Canceled
| OtherReason (text : string).

Definition str_of_reason (reason : Reason) : string :=
  match reason with
  | SynthesizingAudioCompleted => "ResultReason.SynthesizingAudioCompleted"
  | Canceled => "ResultReason.Canceled"
  | OtherReason text => text
  end.

(** The voice that [text_to_speech] chooses, lines 174 to 176. *)
Definition synthesis_voice (language : option string) (voice : option string) : string :=
  let full_language := full_language language in
  match voice with
  | Some (String c v) => String c v
  | _ => get voice_mappings full_language "en-US-AriaNeural" (fun v => v)
  end.

Section Collaborators.

(** [self.speech_config.speech_synthesis_voice_name = voice] *)
Variable set_voice_name : string -> exn + unit.
(** [speechsdk.audio.AudioOutputConfig(use_default_speaker=...)] *)
Variable AudioOutputConfig : bool -> exn + unit.
(** [speechsdk.SpeechSynthesizer(speech_config=self.speech_config,
    audio_config=None)] with the voice that is set, and
    [speak_text_async(text).get()] on it: the reason and the audio data of
    the result, or what one of the calls raises. *)
Variable speak : string -> string -> exn + (Reason * string).

(** The body of the [try] of [text_to_speech]. *)
Definition text_to_speech_try (text : string) (language : option string)
  (voice : option string) : exn + string :=
  let voice := synthesis_voice language voice in
  match set_voice_name voice with
  | inl e => inl e
  | inr _ =>
      match AudioOutputConfig false with
      | inl e => inl e
      | inr audio_stream =>
          match speak voice text with
          | inl e => inl e
          | inr (SynthesizingAudioCompleted, audio_data) => inr audio_data
          | inr (reason, _) =>
              inl (Exception ("Speech synthesis failed: " ++ str_of_reason reason))
          end
      end
  end.

(** [text_to_speech]: the handler logs and raises what it caught. *)
Definition text_to_speech (text : string) (language : option string)
  (voice : option string) : exn + string :=
  match text_to_speech_try text language voice with
  | inl e => inl e
  | inr audio_data => inr audio_data
  end.

End Collaborators.

End Speech.

(** ** The route [analyze_crop_image] of [api/routes/chat.py] *)

Module ChatRoutes.
Import Py LangChainService.
Local Open Scope string_scope.

(** [class ImageAnalysisResponse] *)
Record ImageAnalysisResponse : Type := mkImageAnalysisResponse {
  response_analysis : string;
  response_disease_detected : option string;
  response_confidence_score : option PyFloat.t;
  response_recommended_actions : list string;
  response_local_remedies : list string
}.

(** An optional [str] where only its truth value and its text are used:
    [None] behaves as the empty text. *)
Definition text_of (x : option string) : string :=
  match x with
  | Some s => s
  | None => ""
  end.

Section Collaborators.

Variable Image : Type.
Variable size : Image -> nat * nat.
Variable thumbnail : Image -> nat * nat -> Image.
Variable save_jpeg : Image -> nat -> M string.
Variable b64encode : string -> string.
Variable ainvoke : list CropImage.VisionMessage -> M value.
Variable str_of_exception : exn -> string.
(** [base64.b64decode(data)] *)
Variable b64decode : string -> M string.
(** [Image.open(io.BytesIO(data))] *)
Variable image_open : string -> M Image.
(** [str(e)] of the validation error that the response model raises for
    an [analysis] that is not a [str]. *)
Variable str_of_validation_error : list string -> string.
(** [get_langchain_service()]: the service, built on first use, or the
    [ValueError] of its constructor when the configuration is missing. *)
Variable get_langchain_service : M Self.

(** [ImageAnalysisResponse(analysis=..., ...)]: the model takes a [str]
    for [analysis] and refuses a list. *)
Definition image_analysis_response (analysis_result : AnalysisResult)
  : Http.R ImageAnalysisResponse :=
  match analysis analysis_result with
  | VStr text =>
      inr (mkImageAnalysisResponse text
             (disease_detected analysis_result)
             (confidence_score analysis_result)
             (recommended_actions analysis_result)
             (local_remedies analysis_result))
  | VList parts => inl (Http.Error (str_of_validation_error parts))
  end.

(** The inner [try] of the route: decode and open, or HTTP 400. *)
Definition decode_image (image_base64 : string) : Http.R Image :=
  match Py.bind (b64decode image_base64) image_open with
  | inr image => inr image
  | inl img_error => inl (Http.HTTPException 400 "Invalid image data")
  end.

Definition analyze_crop_image (image_base64 : string) (query language : option string)
  : Http.R ImageAnalysisResponse :=
  Http.guarded "Failed to analyze image: "
    match decode_image image_base64 with
    | inl failure => inl failure
    | inr image =>
        if ((fst (size image) <? 50) || (snd (size image) <? 50))%nat
        then inl (Http.HTTPException 400 "Image too small for analysis")
        else
          match get_langchain_service with
          | inl e => inl (Http.Error (str_of_exception e))
          | inr service =>
              match CropImage.analyze_crop_image Image size thumbnail save_jpeg b64encode
                      ainvoke str_of_exception service
                      image (text_of query) (text_of language) with
              | inl e => inl (Http.Error (str_of_exception e))
              | inr analysis_result => image_analysis_response analysis_result
              end
          end
    end.

End Collaborators.

End ChatRoutes.

(** ** A match seen through [lower] *)

Module CaseFold.
Import Re.

(** The match [m] with its three texts lower-cased. *)
Definition lower_found (m : found) : found :=
  mkFound (PyStr.lower (whole m)) (option_map PyStr.lower (group1 m)) (PyStr.lower (after m)).

End CaseFold.

(** ** Facts on binary64 rounding and on the score *)

Module FloatFacts.
Import PyFloat.
Local Open Scope Z_scope.

Lemma digits2_size (p : positive) : digits2_pos p = Pos.size p.
Proof. induction p as [p IH | p IH |]; simpl; now rewrite ?IH. Qed.

Lemma digits_bounds (p : positive) :
  2 ^ (Zpos (digits2_pos p) - 1) <= Zpos p < 2 ^ Zpos (digits2_pos p).
Proof.
  rewrite digits2_size. split.
  - pose proof (Pos.size_le p) as H.
    assert (H2 : 2 ^ Zpos (Pos.size p) <= 2 * Zpos p).
    { change (2 * Zpos p) with (Zpos p~0). rewrite <- Pos2Z.inj_pow. now apply Pos2Z.pos_le_pos. }
    replace (Zpos (Pos.size p)) with (Z.succ (Zpos (Pos.size p) - 1)) in H2 by lia.
    rewrite Z.pow_succ_r in H2 by lia. lia.
  - pose proof (Pos.size_gt p) as H. rewrite <- Pos2Z.inj_pow. now apply Pos2Z.pos_lt_pos.
Qed.

Lemma digits_unique (p : positive) (d : Z) :
  2 ^ (d - 1) <= Zpos p < 2 ^ d -> Zpos (digits2_pos p) = d.
Proof.
  intros [Hlo Hhi]. destruct (digits_bounds p) as [Hlo' Hhi'].
  assert (Hd : 0 < d).
  { destruct (Z_lt_le_dec 0 d) as [H | H]; [exact H|].
    destruct (Z.eq_dec d 0) as [-> | Hn]; [simpl in Hhi; lia|].
    rewrite (Z.pow_neg_r 2 d) in Hhi by lia. lia. }
  destruct (Z.lt_trichotomy (Zpos (digits2_pos p)) d) as [H | [H | H]]; [|exact H|].
  - assert (2 ^ Zpos (digits2_pos p) <= 2 ^ (d - 1)) by (apply Z.pow_le_mono_r; lia). lia.
  - assert (2 ^ d <= 2 ^ (Zpos (digits2_pos p) - 1)) by (apply Z.pow_le_mono_r; lia). lia.
Qed.

Lemma shr_1_m (mrs : shr_record) :
  0 <= shr_m mrs -> shr_m (shr_1 mrs) = shr_m mrs / 2.
Proof.
  destruct mrs as [m r s]. cbn [shr_m]. intros Hm.
  destruct m as [|[p|p|]|p]; cbn [shr_1 shr_m]; try lia.
  - reflexivity.
  - apply (Z.div_unique _ _ _ 1); lia.
  - apply (Z.div_unique _ _ _ 0); lia.
  - reflexivity.
Qed.

Lemma iter_shr_m (k : positive) (mrs : shr_record) :
  0 <= shr_m mrs -> shr_m (iter_pos shr_1 k mrs) = shr_m mrs / 2 ^ Zpos k.
Proof.
  revert mrs. induction k as [k IH | k IH |]; intros mrs Hm; simpl iter_pos.
  - assert (Hpow : 0 < 2 ^ Zpos k) by (apply Z.pow_pos_nonneg; lia).
    assert (H1 : 0 <= shr_m (shr_1 mrs)) by (rewrite shr_1_m by lia; apply Z.div_pos; lia).
    assert (H2 : 0 <= shr_m (iter_pos shr_1 k (shr_1 mrs)))
      by (rewrite IH by lia; apply Z.div_pos; lia).
    rewrite IH, IH, shr_1_m by lia.
    rewrite !Z.div_div by lia.
    f_equal. rewrite (Pos2Z.inj_xI k), Z.pow_add_r, Z.pow_mul_r by lia.
    rewrite Z.pow_2_r, Z.pow_1_r, Z.pow_mul_l. ring.
  - assert (Hpow : 0 < 2 ^ Zpos k) by (apply Z.pow_pos_nonneg; lia).
    assert (H2 : 0 <= shr_m (iter_pos shr_1 k mrs))
      by (rewrite IH by lia; apply Z.div_pos; lia).
    rewrite IH, IH by lia.
    rewrite !Z.div_div by lia.
    f_equal. rewrite (Pos2Z.inj_xO k), Z.pow_mul_r by lia.
    now rewrite Z.pow_2_r, Z.pow_mul_l.
  - rewrite shr_1_m by lia. reflexivity.
Qed.

Lemma shr_record_of_loc_m (m : Z) (l : location) : shr_m (shr_record_of_loc m l) = m.
Proof. destruct l as [|[| |]]; reflexivity. Qed.

(** One normalising shift on a mantissa of at least 53 bits. *)
Lemma shr_fexp_big (m e : Z) (l : location) :
  2 ^ 52 <= m -> -1074 <= e ->
  exists m' e',
    shr_fexp prec emax m e l = (m', e')
    /\ 2 ^ 52 <= shr_m m' < 2 ^ 53
    /\ e <= e'
    /\ (m < 2 ^ 53 -> shr_m m' = m /\ m' = shr_record_of_loc m l /\ e' = e).
Proof.
  intros Hm He. destruct m as [|p|p]; try lia.
  unfold shr_fexp, shr, fexp, emin, prec, emax. cbn [Zdigits2].
  destruct (digits_bounds p) as [Hlo Hhi].
  set (d := Zpos (digits2_pos p)) in *.
  assert (Hd : 53 <= d).
  { destruct (Z_lt_le_dec d 53) as [H | H]; [|exact H].
    assert (2 ^ d <= 2 ^ 52) by (apply Z.pow_le_mono_r; lia). lia. }
  replace (Z.max (d + e - 53) (3 - 1024 - 53) - e) with (d - 53) by lia.
  destruct (d - 53) as [|k|k] eqn:Ek; try lia.
  - eexists. eexists. split; [reflexivity|]. rewrite shr_record_of_loc_m.
    assert (d = 53) by lia. replace d with 53 in * by lia.
    split; [lia|]. split; [lia|]. intros _. now repeat split.
  - eexists. eexists. split; [reflexivity|].
    rewrite iter_shr_m by (rewrite shr_record_of_loc_m; lia).
    rewrite shr_record_of_loc_m.
    assert (Hpow : 0 < 2 ^ Zpos k) by (apply Z.pow_pos_nonneg; lia).
    assert (E1 : 2 ^ (d - 1) = 2 ^ 52 * 2 ^ Zpos k).
    { rewrite <- Z.pow_add_r by lia. f_equal. lia. }
    assert (E2 : 2 ^ d = 2 ^ 53 * 2 ^ Zpos k).
    { rewrite <- Z.pow_add_r by lia. f_equal. lia. }
    split; [split|split].
    + apply Z.div_le_lower_bound; lia.
    + apply Z.div_lt_upper_bound; lia.
    + lia.
    + intros Hs. exfalso.
      assert (2 ^ 53 <= 2 ^ (d - 1)) by (apply Z.pow_le_mono_r; lia). lia.
Qed.

(** Rounding a mantissa of at least 53 bits, at an exponent in range, gives
    an infinity or a normal number, never below the exponent it started
    from. *)
Lemma binary_round_aux_big (sx : bool) (m e : Z) (l : location) :
  2 ^ 52 <= m -> -1074 <= e ->
  binary_round_aux prec emax sx m e l = S754_infinity sx
  \/ exists m' e',
       binary_round_aux prec emax sx m e l = S754_finite sx m' e'
       /\ 2 ^ 52 <= Zpos m' < 2 ^ 53 /\ e <= e'.
Proof.
  intros Hm He. unfold binary_round_aux.
  destruct (shr_fexp_big m e l Hm He) as [mrs1 [e1 [-> [Hm1 [He1 _]]]]].
  set (m2 := round_nearest_even (shr_m mrs1) (loc_of_shr_record mrs1)).
  assert (Hm2 : 2 ^ 52 <= m2 <= 2 ^ 53).
  { subst m2. unfold round_nearest_even.
    destruct (loc_of_shr_record mrs1) as [|[| |]]; try lia.
    destruct (Z.even (shr_m mrs1)); lia. }
  destruct (shr_fexp_big m2 e1 loc_Exact (proj1 Hm2) ltac:(lia))
    as [mrs2 [e2 [-> [Hm3 [He2 _]]]]].
  destruct (shr_m mrs2) as [|m'|m'] eqn:Em; try lia.
  destruct (e2 <=? emax - prec); [right | now left].
  exists m', e2. split; [reflexivity|]. split; [exact Hm3 | lia].
Qed.

Lemma iter_xO (p k : positive) : Zpos (Pos.iter xO p k) = Zpos p * 2 ^ Zpos k.
Proof.
  induction k as [|k IH] using Pos.peano_ind.
  - cbn [Pos.iter]. rewrite Z.pow_1_r. lia.
  - rewrite Pos.iter_succ, Pos2Z.inj_xO, IH, Pos2Z.inj_succ, Z.pow_succ_r by lia. ring.
Qed.

(** The float of a positive integer is an infinity or a normal number. *)
Lemma of_Z_pos (p : positive) :
  of_Z (Zpos p) = S754_infinity false
  \/ exists m e,
       of_Z (Zpos p) = S754_finite false m e
       /\ 2 ^ 52 <= Zpos m < 2 ^ 53
       /\ Z.min (Zpos (digits2_pos p) - 53) 0 <= e.
Proof.
  unfold of_Z, binary_normalize, binary_round, shl_align, fexp, emin, prec, emax.
  destruct (digits_bounds p) as [Hlo Hhi].
  set (d := Zpos (digits2_pos p)) in *.
  assert (Hd : 1 <= d) by (subst d; lia).
  replace (Z.max (d + 0 - 53) (3 - 1024 - 53) - 0) with (d - 53) by lia.
  replace (Z.max (d + 0 - 53) (3 - 1024 - 53)) with (d - 53) by lia.
  change (binary_round_aux 53 1024) with (binary_round_aux prec emax).
  destruct (d - 53) as [|k|k] eqn:Ek.
  - assert (H52 : 2 ^ 52 <= Zpos p) by (replace 52 with (d - 1) by lia; exact Hlo).
    destruct (binary_round_aux_big false (Zpos p) 0 loc_Exact H52 ltac:(lia))
      as [-> | [m [e [-> [Hm He]]]]]; [now left | right].
    exists m, e. split; [reflexivity|]. split; [exact Hm | lia].
  - assert (H52 : 2 ^ 52 <= Zpos p).
    { assert (2 ^ 52 <= 2 ^ (d - 1)) by (apply Z.pow_le_mono_r; lia). lia. }
    destruct (binary_round_aux_big false (Zpos p) 0 loc_Exact H52 ltac:(lia))
      as [-> | [m [e [-> [Hm He]]]]]; [now left | right].
    exists m, e. split; [reflexivity|]. split; [exact Hm | lia].
  - assert (H52 : 2 ^ 52 <= Zpos (Pos.iter xO p k)).
    { rewrite iter_xO.
      assert (E : 2 ^ 52 = 2 ^ (d - 1) * 2 ^ Zpos k).
      { rewrite <- Z.pow_add_r by lia. f_equal. lia. }
      rewrite E. apply Z.mul_le_mono_nonneg_r; [apply Z.pow_nonneg; lia | exact Hlo]. }
    destruct (binary_round_aux_big false (Zpos (Pos.iter xO p k)) (Zneg k) loc_Exact H52
                ltac:(lia))
      as [-> | [m [e [-> [Hm He]]]]]; [now left | right].
    exists m, e. split; [reflexivity|]. split; [exact Hm | lia].
Qed.

Lemma of_Z_100 : of_Z 100 = S754_finite false 7036874417766400 (-46).
Proof. reflexivity. Qed.

(** A normal number over 100: an infinity or a normal number, whose
    exponent is at most 7 less. *)
Lemma div_100 (m1 : positive) (e1 : Z) :
  2 ^ 52 <= Zpos m1 < 2 ^ 53 -> -52 <= e1 ->
  div (S754_finite false m1 e1) (of_Z 100) = S754_infinity false
  \/ exists m e,
       div (S754_finite false m1 e1) (of_Z 100) = S754_finite false m e
       /\ e1 - 7 <= e.
Proof.
  intros Hm He. rewrite of_Z_100. unfold div, SFdiv, SFdiv_core_binary.
  cbn [Zdigits2 xorb]. rewrite (digits_unique m1 53) by (simpl; lia).
  change (Zpos (digits2_pos 7036874417766400)) with 53.
  unfold fexp, emin, prec, emax.
  replace (Z.min (Z.max (53 + e1 - (53 + -46) - 53) (3 - 1024 - 53)) (e1 - -46))
    with (e1 - 7) by lia.
  replace (e1 - -46 - (e1 - 7)) with 53 by lia.
  change (binary_round_aux 53 1024) with (binary_round_aux prec emax).
  pose proof (Z_div_mod (Z.shiftl (Zpos m1) 53) 7036874417766400 eq_refl) as Hdiv.
  destruct (Z.div_eucl (Z.shiftl (Zpos m1) 53) 7036874417766400) as [q r].
  rewrite Z.shiftl_mul_pow2 in Hdiv by lia. destruct Hdiv as [Hq Hr].
  assert (H52 : 2 ^ 52 <= q) by lia.
  destruct (binary_round_aux_big false q (e1 - 7)
              (new_location 7036874417766400 r) H52 ltac:(lia))
    as [E | [m [e [E [_ Hle]]]]].
  - left. exact E.
  - right. exists m, e. now split.
Qed.

Lemma small_scores :
  forallb (fun k => Bool.eqb (leb (div (of_Z (Z.of_nat k)) (of_Z 100)) one) (k <=? 100)%nat)
          (seq 0 256)
  = true.
Proof. vm_compute. reflexivity. Qed.

(** The score of a capture of value [n]: never negative, never a NaN, and
    at most 1 exactly when [n] is at most 100. *)
Lemma score_bounds (n : N) :
  leb zero (div (of_Z (Z.of_N n)) (of_Z 100)) = true
  /\ (leb (div (of_Z (Z.of_N n)) (of_Z 100)) one = true <-> (n <= 100)%N).
Proof.
  split.
  - destruct n as [|p]; [reflexivity|]. cbn [Z.of_N].
    destruct (of_Z_pos p) as [-> | [m1 [e1 [-> [Hm He]]]]]; [reflexivity|].
    assert (He1 : -52 <= e1) by (pose proof (Pos2Z.is_pos (digits2_pos p)); lia).
    destruct (div_100 m1 e1 Hm He1) as [-> | [m [e [-> _]]]]; reflexivity.
  - destruct (N.lt_ge_cases n 256) as [Hsmall | Hbig].
    + pose proof small_scores as H. rewrite forallb_forall in H.
      specialize (H (N.to_nat n)).
      assert (Hin : In (N.to_nat n) (seq 0 256)) by (apply in_seq; lia).
      apply H in Hin. rewrite N_nat_Z in Hin. apply eqb_prop in Hin. rewrite Hin.
      rewrite Nat.leb_le. lia.
    + destruct n as [|p]; [lia|]. cbn [Z.of_N].
      assert (Hd : 9 <= Zpos (digits2_pos p)).
      { destruct (digits_bounds p) as [_ Hhi].
        destruct (Z_lt_le_dec (Zpos (digits2_pos p)) 9) as [H | H]; [|exact H].
        assert (2 ^ Zpos (digits2_pos p) <= 2 ^ 8) by (apply Z.pow_le_mono_r; lia).
        lia. }
      split; [|lia]. intros Hle. exfalso.
      destruct (of_Z_pos p) as [E | [m1 [e1 [E [Hm He]]]]]; rewrite E in Hle.
      * discriminate Hle.
      * destruct (div_100 m1 e1 Hm ltac:(lia)) as [E' | [m [e [E' He']]]];
          rewrite E' in Hle; [discriminate Hle|].
        unfold leb, SFleb, SFcompare, one in Hle.
        destruct (Z.compare_spec e (-52)) as [H | H | H]; first [lia | discriminate Hle].
Qed.

End FloatFacts.

(** ** Facts on the string primitives *)

Module PyStrFacts.
Import PyStr.
Local Open Scope string_scope.

Lemma append_empty_r (s : string) : s ++ "" = s.
Proof. induction s as [|c s IH]; simpl; [reflexivity | now rewrite IH]. Qed.

Lemma append_assoc (a b c : string) : (a ++ b) ++ c = a ++ (b ++ c).
Proof. induction a as [|x a IH]; simpl; [reflexivity | now rewrite IH]. Qed.

Lemma startswith_spec (p s : string) :
  startswith p s = true <-> exists post, s = p ++ post.
Proof.
  revert s; induction p as [|a p IH]; intros s; simpl.
  - split; [intros _; now exists s | reflexivity].
  - destruct s as [|b s].
    + split; [discriminate | intros [post H]; discriminate].
    + rewrite andb_true_iff, Ascii.eqb_eq, IH. split.
      * intros [-> [post ->]]. now exists post.
      * intros [post H]. injection H as -> ->. split; [reflexivity | now exists post].
Qed.

Lemma contains_spec (needle hay : string) :
  contains needle hay = true <-> exists pre post, hay = pre ++ needle ++ post.
Proof.
  induction hay as [|c hay IH].
  - simpl. rewrite orb_false_r, startswith_spec. split.
    + intros [post H]. now exists "", post.
    + intros [pre [post H]]. destruct pre; [now exists post | discriminate].
  - simpl. rewrite orb_true_iff, startswith_spec, IH. split.
    + intros [[post H] | [pre [post H]]].
      * now exists "", post.
      * exists (String c pre), post. simpl. now rewrite H.
    + intros [pre [post H]]. destruct pre as [|x pre]; simpl in H.
      * left. now exists post.
      * right. injection H as _ H. now exists pre, post.
Qed.

(** A part of a part is a part. *)
Lemma contains_trans (a b t : string) :
  contains a b = true -> contains b t = true -> contains a t = true.
Proof.
  rewrite !contains_spec. intros [p1 [q1 ->]] [p2 [q2 ->]].
  exists (p2 ++ p1), (q1 ++ q2). now rewrite !append_assoc.
Qed.

Lemma lstrip_head (s : string) :
  lstrip s = "" \/ exists c t, lstrip s = String c t /\ isspace c = false.
Proof.
  induction s as [|c s IH]; simpl; [now left|].
  destruct (isspace c) eqn:E; [exact IH | right; now exists c, s].
Qed.

Lemma rstrip_cons (c : ascii) (t : string) :
  isspace c = false -> rstrip (String c t) = String c (rstrip t).
Proof. intros E. simpl. destruct (rstrip t); [now rewrite E | reflexivity]. Qed.

Lemma rstrip_idem (s : string) : rstrip (rstrip s) = rstrip s.
Proof.
  induction s as [|c s IH]; simpl; [reflexivity|].
  destruct (rstrip s) as [|d t] eqn:E.
  - destruct (isspace c) eqn:Ec; simpl; [reflexivity | now rewrite Ec].
  - change (rstrip (String c (String d t))) with
      (match rstrip (String d t) with
       | "" => if isspace c then "" else String c ""
       | String d' t' => String c (String d' t')
       end).
    now rewrite IH.
Qed.

(** [strip] has nothing left to remove from what it returns. *)
Lemma strip_idem (s : string) : strip (strip s) = strip s.
Proof.
  unfold strip. destruct (lstrip_head s) as [-> | [c [t [-> E]]]]; [reflexivity|].
  rewrite (rstrip_cons c t E). simpl lstrip. rewrite E.
  rewrite <- (rstrip_cons c t E). apply rstrip_idem.
Qed.

Lemma all_chars_app (p : ascii -> bool) (a b : string) :
  all_chars p (a ++ b) = all_chars p a && all_chars p b.
Proof. induction a as [|c a IH]; simpl; [reflexivity | now rewrite IH, andb_assoc]. Qed.

Lemma append_is_empty (a b : string) : a ++ b = "" -> a = "" /\ b = "".
Proof. destruct a; simpl; [now split | discriminate]. Qed.

Lemma lower_app (a b : string) : lower (a ++ b) = lower a ++ lower b.
Proof. induction a as [|c a IH]; [reflexivity|]. cbn. now rewrite IH. Qed.

(** A text that holds a word in any letter case holds the lower-cased
    word once it is lower-cased. *)
Lemma contains_lower_word (pre word post : string) :
  contains (lower word) (lower (pre ++ word ++ post)) = true.
Proof. apply contains_spec. exists (lower pre), (lower post). now rewrite !lower_app. Qed.

(** [float] accepts every non-empty run of decimal digits. *)
Lemma float_digits (g : string) :
  g <> "" -> all_chars isdecimal g = true ->
  float (Some g) = inr (PyFloat.of_Z (Z.of_N (decimal_acc 0 g))).
Proof.
  intros Hne Hd. unfold float. rewrite Hd.
  destruct g; [now elim Hne | reflexivity].
Qed.

End PyStrFacts.

(** ** Facts on matching *)

Module ReFacts.
Import Re ReShape PyStr PyStrFacts.
Local Open Scope string_scope.

Lemma star_sound (ic : bool) (a : atom) (s u rest : string) :
  In (u, rest) (star ic a s) ->
  s = u ++ rest /\ all_chars (atom_match ic a) u = true.
Proof.
  revert u rest; induction s as [|c s IH]; intros u rest; simpl.
  - intros [H | []]. injection H as <- <-. now split.
  - destruct (atom_match ic a c) eqn:E.
    + intros H. apply in_app_or in H as [H | [H | []]].
      * apply in_map_iff in H as [[u' r'] [H Hin]].
        injection H as <- <-. simpl.
        destruct (IH _ _ Hin) as [-> Hall]. now rewrite E, Hall.
      * injection H as <- <-. now split.
    + intros [H | []]. injection H as <- <-. now split.
Qed.

Lemma digit_atom_match (ic : bool) (a : atom) (c : ascii) :
  is_digit_atom a = true -> atom_match ic a c = isdecimal c.
Proof.
  destruct a as [b | [| [b | |] [| i items]]]; simpl; try discriminate.
  intros _. apply orb_false_r.
Qed.

Lemma all_chars_ext (p q : ascii -> bool) (s : string) :
  (forall c, p c = q c) -> all_chars p s = all_chars q s.
Proof. intros E. induction s as [|c s IH]; simpl; [reflexivity | now rewrite E, IH]. Qed.

Lemma matches_digits (ic : bool) (r : regex) :
  digits_only r = true ->
  forall pos s m, In m (matches ic r pos s) -> all_chars isdecimal (whole m) = true.
Proof.
  induction r as [| a | a | a | r1 IH1 r2 IH2 | r IH |]; simpl; intros Hd pos s m Hin.
  - destruct Hin as [<- | []]. reflexivity.
  - destruct s as [|c s]; [contradiction|].
    destruct (atom_match ic a c) eqn:E; [|contradiction].
    destruct Hin as [<- | []]. simpl.
    now rewrite <- (digit_atom_match ic a c Hd), E.
  - apply in_map_iff in Hin as [[u rest] [<- Hin]]. simpl.
    apply star_sound in Hin as [_ Hall].
    rewrite <- Hall. apply all_chars_ext. intros c.
    symmetry. now apply digit_atom_match.
  - destruct s as [|c s]; [contradiction|].
    destruct (atom_match ic a c) eqn:E; [|contradiction].
    apply in_map_iff in Hin as [[u rest] [<- Hin]]. simpl.
    apply star_sound in Hin as [_ Hall].
    rewrite <- (digit_atom_match ic a c Hd), E. simpl.
    rewrite <- Hall. apply all_chars_ext. intros d.
    symmetry. now apply digit_atom_match.
  - apply andb_true_iff in Hd as [Hd1 Hd2].
    apply in_flat_map in Hin as [m1 [Hin1 Hin]].
    apply in_map_iff in Hin as [m2 [<- Hin2]]. simpl.
    rewrite all_chars_app, (IH1 Hd1 _ _ _ Hin1), (IH2 Hd2 _ _ _ Hin2).
    reflexivity.
  - apply in_map_iff in Hin as [m' [<- Hin]]. simpl. now apply (IH Hd pos s).
  - destruct (pos =? 0)%nat; [|contradiction]. destruct Hin as [<- | []]. reflexivity.
Qed.

Lemma matches_consuming (ic : bool) (r : regex) :
  consuming r = true ->
  forall pos s m, In m (matches ic r pos s) -> whole m <> "".
Proof.
  induction r as [| a | a | a | r1 IH1 r2 IH2 | r IH |]; simpl; intros Hc pos s m Hin;
    try discriminate.
  - destruct s as [|c s]; [contradiction|].
    destruct (atom_match ic a c); [|contradiction].
    destruct Hin as [<- | []]. discriminate.
  - destruct s as [|c s]; [contradiction|].
    destruct (atom_match ic a c); [|contradiction].
    apply in_map_iff in Hin as [ur [<- _]]. discriminate.
  - apply in_flat_map in Hin as [m1 [Hin1 Hin]].
    apply in_map_iff in Hin as [m2 [<- Hin2]]. simpl. intros Hnil.
    apply append_is_empty in Hnil as [H1 H2].
    apply orb_true_iff in Hc as [Hc | Hc].
    + now apply (IH1 Hc _ _ _ Hin1).
    + now apply (IH2 Hc _ _ _ Hin2).
  - apply in_map_iff in Hin as [m' [<- Hin]]. simpl. now apply (IH Hc pos s).
Qed.

Lemma matches_groups_numeric (ic : bool) (r : regex) :
  groups_numeric r = true ->
  forall pos s m g, In m (matches ic r pos s) -> group1 m = Some g -> numeric g.
Proof.
  induction r as [| a | a | a | r1 IH1 r2 IH2 | r IH |]; simpl; intros Hg pos s m g Hin Hgrp.
  - destruct Hin as [<- | []]. discriminate.
  - destruct s as [|c s]; [contradiction|].
    destruct (atom_match ic a c); [|contradiction].
    destruct Hin as [<- | []]. discriminate.
  - apply in_map_iff in Hin as [ur [<- _]]. discriminate.
  - destruct s as [|c s]; [contradiction|].
    destruct (atom_match ic a c); [|contradiction].
    apply in_map_iff in Hin as [ur [<- _]]. discriminate.
  - apply andb_true_iff in Hg as [Hg1 Hg2].
    apply in_flat_map in Hin as [m1 [Hin1 Hin]].
    apply in_map_iff in Hin as [m2 [<- Hin2]]. simpl in Hgrp.
    destruct (group1 m2) as [g2|] eqn:E2.
    + injection Hgrp as <-. now apply (IH2 Hg2 _ _ _ _ Hin2).
    + now apply (IH1 Hg1 _ _ _ _ Hin1).
  - apply andb_true_iff in Hg as [Hd Hc].
    apply in_map_iff in Hin as [m' [<- Hin]]. simpl in Hgrp.
    injection Hgrp as <-. split.
    + now apply (matches_consuming ic r Hc pos s).
    + now apply (matches_digits ic r Hd pos s).
  - destruct (pos =? 0)%nat; [|contradiction]. destruct Hin as [<- | []]. discriminate.
Qed.

Lemma matches_sets_group (ic : bool) (r : regex) :
  sets_group r = true ->
  forall pos s m, In m (matches ic r pos s) -> group1 m <> None.
Proof.
  induction r as [| a | a | a | r1 IH1 r2 IH2 | r IH |]; simpl; intros Hs pos s m Hin;
    try discriminate.
  - apply in_flat_map in Hin as [m1 [Hin1 Hin]].
    apply in_map_iff in Hin as [m2 [<- Hin2]]. simpl.
    destruct (group1 m2) as [g2|] eqn:E2; [discriminate|].
    apply orb_true_iff in Hs as [Hs | Hs].
    + now apply (IH1 Hs _ _ _ Hin1).
    + exfalso. now apply (IH2 Hs _ _ _ Hin2).
  - apply in_map_iff in Hin as [m' [<- _]]. discriminate.
Qed.

Lemma search_from_in (ic : bool) (r : regex) (s : string) :
  forall pos m, search_from ic r pos s = Some m ->
                exists pos' s', In m (matches ic r pos' s').
Proof.
  induction s as [|c s IH]; intros pos m; simpl.
  - destruct (matches ic r pos "") as [|m0 l] eqn:E; [discriminate|].
    intros H. injection H as <-. exists pos, "". rewrite E. now left.
  - destruct (matches ic r pos (String c s)) as [|m0 l] eqn:E.
    + apply IH.
    + intros H. injection H as <-. exists pos, (String c s). rewrite E. now left.
Qed.

(** What a search with a pattern of numeric capture finds carries a
    group that [float] accepts. *)
Lemma search_numeric (ic : bool) (r : regex) (s : string) (m : found) :
  numeric_capture r = true ->
  search_from ic r 0 s = Some m ->
  exists g, group m = Some g /\ numeric g.
Proof.
  intros Hn Hs. apply andb_true_iff in Hn as [Hg Hset].
  apply search_from_in in Hs as [pos [s' Hin]].
  unfold group. destruct (group1 m) as [g|] eqn:E.
  - exists g. split; [reflexivity|]. now apply (matches_groups_numeric ic r Hg pos s' m).
  - exfalso. now apply (matches_sets_group ic r Hset pos s' m).
Qed.

(** *** Matching in a subject that goes on *)











End ReFacts.

(** ** Facts on the loops of the service *)

Module ServiceFacts.
Import Py PyStr PyStrFacts Re ReShape ReFacts LangChainService Patterns Lines.
Local Open Scope string_scope.

Lemma compile_numbered : compile numbered_pattern = inr numbered_regex.
Proof. reflexivity. Qed.

Lemma match_numbered (line : string) :
  match_ numbered_pattern line = inr (hd_error (matches false numbered_regex 0 line)).
Proof. unfold match_. now rewrite compile_numbered. Qed.

(** Each of the four patterns compiles, and its group can only hold a
    non-empty run of decimal digits. *)
Lemma confidence_patterns_compile (p : string) :
  In p confidence_patterns ->
  exists r, compile p = inr r /\ numeric_capture r = true.
Proof.
  intros [<- | [<- | [<- | [<- | []]]]];
    (eexists; split; [vm_compute; reflexivity | vm_compute; reflexivity]).
Qed.

Lemma search_compiled (p : string) (r : regex) (text : string) (f : flags) :
  compile p = inr r ->
  search p text f = inr (search_from (ignorecase_of f) r 0 text).
Proof. intros E. unfold search. now rewrite E. Qed.

(** The score that a captured run of digits stands for. *)
Lemma float_numeric (g : string) :
  numeric g -> float (Some g) = inr (PyFloat.of_Z (Z.of_N (decimal_acc 0 g))).
Proof. intros [Hne Hd]. now apply float_digits. Qed.

Lemma confidence_loop_cons (p : string) (ps : list string) (text : string)
  (a : AnalysisResult) :
  confidence_loop (p :: ps) text a
  = Py.bind (search p text IGNORECASE)
      (fun confidence_match =>
         match confidence_match with
         | Some m =>
             Py.bind (float (group m))
               (fun x => ret (set_confidence_score a (Some (PyFloat.div x (PyFloat.of_Z 100)))))
         | None => confidence_loop ps text a
         end).
Proof. reflexivity. Qed.

(** The loop stops at the first pattern that is found: the patterns
    after it play no part. *)
Lemma confidence_loop_first (pre : list string) (p : string) (post : list string)
  (text : string) (a : AnalysisResult) (m : found) :
  (forall q, In q pre -> search q text IGNORECASE = inr None) ->
  search p text IGNORECASE = inr (Some m) ->
  confidence_loop (pre ++ p :: post)%list text a
  = Py.bind (float (group m))
      (fun x => ret (set_confidence_score a (Some (PyFloat.div x (PyFloat.of_Z 100))))).
Proof.
  intros Hpre Hp. induction pre as [|q pre IH]; simpl app; rewrite confidence_loop_cons.
  - now rewrite Hp.
  - rewrite (Hpre q (or_introl eq_refl)). simpl Py.bind. apply IH.
    intros q' Hq'. apply Hpre. now right.
Qed.

Lemma confidence_loop_none (patterns : list string) (text : string) (a : AnalysisResult) :
  (forall q, In q patterns -> search q text IGNORECASE = inr None) ->
  confidence_loop patterns text a = inr a.
Proof.
  intros H. induction patterns as [|q patterns IH]; [reflexivity|].
  rewrite confidence_loop_cons, (H q (or_introl eq_refl)). simpl Py.bind. apply IH.
  intros q' Hq'. apply H. now right.
Qed.

(** With patterns of numeric capture the loop completes: either no
    pattern is found and the result is untouched, or the first one found
    sets the score from its group. *)
Lemma confidence_loop_cases (patterns : list string) (text : string) (a : AnalysisResult) :
  (forall p, In p patterns -> exists r, compile p = inr r /\ numeric_capture r = true) ->
  (confidence_loop patterns text a = inr a
   /\ forall p, In p patterns -> search p text IGNORECASE = inr None)
  \/ (exists pre p post m g,
        patterns = (pre ++ p :: post)%list
        /\ (forall q, In q pre -> search q text IGNORECASE = inr None)
        /\ search p text IGNORECASE = inr (Some m)
        /\ group m = Some g /\ numeric g
        /\ confidence_loop patterns text a
           = inr (set_confidence_score a
                    (Some (PyFloat.div (PyFloat.of_Z (Z.of_N (decimal_acc 0 g))) (PyFloat.of_Z 100))))).
Proof.
  induction patterns as [|p patterns IH]; intros Hok.
  - left. split; [reflexivity | intros p []].
  - destruct (Hok p (or_introl eq_refl)) as [r [Hc Hn]].
    pose proof (search_compiled p r text IGNORECASE Hc) as Hs. simpl in Hs.
    destruct (search_from true r 0 text) as [m|] eqn:E.
    + right. destruct (search_numeric true r text m Hn E) as [g [Hg Hnum]].
      exists [], p, patterns, m, g.
      refine (conj eq_refl (conj _ (conj Hs (conj Hg (conj Hnum _))))).
      * intros q [].
      * rewrite confidence_loop_cons, Hs. simpl Py.bind.
        rewrite Hg, (float_numeric g Hnum). reflexivity.
    + destruct IH as [[Hl Hall] | [pre [q [post [m [g [Heq [Hpre [Hq [Hg [Hnum Hl]]]]]]]]]]].
      * intros q Hq. apply Hok. now right.
      * left. split.
        -- rewrite confidence_loop_cons, Hs. exact Hl.
        -- intros q [<- | Hq]; [exact Hs | now apply Hall].
      * right. exists (p :: pre)%list, q, post, m, g.
        refine (conj _ (conj _ (conj Hq (conj Hg (conj Hnum _))))).
        -- simpl. now rewrite Heq.
        -- intros q' [<- | Hq']; [exact Hs | now apply Hpre].
        -- rewrite confidence_loop_cons, Hs. exact Hl.
Qed.

Lemma disease_loop_find (ds : list string) (response_lower : string) (a : AnalysisResult) :
  disease_loop ds response_lower a
  = match find (fun d => contains d response_lower) ds with
    | Some d => set_disease_detected a (Some (title d))
    | None => a
    end.
Proof.
  induction ds as [|d ds IH]; simpl; [reflexivity|].
  destruct (contains d response_lower); [reflexivity | exact IH].
Qed.

Lemma lines_loop_cons (line0 : string) (lines : list string)
  (actions remedies : list string) :
  lines_loop (line0 :: lines) actions remedies
  = let line := strip line0 in
    if is_empty line then lines_loop lines actions remedies
    else if mentions (lower line) action_words then
      if mentions (lower line) remedy_words
      then lines_loop lines actions (remedies ++ [strip line])%list
      else lines_loop lines (actions ++ [strip line])%list remedies
    else
      Py.bind (match_ numbered_pattern line)
        (fun numbered =>
           if is_match numbered && (10 <? String.length line)%nat then
             if mentions (lower line) numbered_remedy_words
             then lines_loop lines actions (remedies ++ [strip line])%list
             else lines_loop lines (actions ++ [strip line])%list remedies
           else lines_loop lines actions remedies).
Proof. reflexivity. Qed.

Lemma is_category_action (line : string) :
  is_category action line
  = match classify line with action => true | _ => false end.
Proof. unfold is_category. now destruct (classify line). Qed.

Lemma is_category_remedy (line : string) :
  is_category remedy line
  = match classify line with remedy => true | _ => false end.
Proof. unfold is_category. now destruct (classify line). Qed.

(** The loop over the lines appends, in order, the stripped lines of
    each category. *)
Lemma lines_loop_filter (lines : list string) :
  forall actions remedies,
    lines_loop lines actions remedies
    = inr ((actions ++ filter (is_category action) (map strip lines))%list,
           (remedies ++ filter (is_category remedy) (map strip lines))%list).
Proof.
  induction lines as [|line lines IH]; intros actions remedies.
  - simpl. now rewrite !app_nil_r.
  - rewrite lines_loop_cons. cbv zeta.
    rewrite match_numbered. cbv beta iota delta [Py.bind].
    change (is_match (hd_error (matches false numbered_regex 0 (strip line))))
      with (is_numbered (strip line)).
    rewrite strip_idem. cbn [map filter].
    rewrite is_category_action, is_category_remedy. unfold classify.
    destruct (is_empty (strip line)); [apply IH|].
    destruct (mentions (lower (strip line)) action_words).
    + destruct (mentions (lower (strip line)) remedy_words);
        rewrite IH, <- app_assoc; reflexivity.
    + destruct (is_numbered (strip line) && (10 <? String.length (strip line))%nat);
        [|apply IH].
      destruct (mentions (lower (strip line)) numbered_remedy_words);
        rewrite IH, <- app_assoc; reflexivity.
Qed.

(** The disease label of a text: the first vocabulary term, in the
    order of [diseases], that the lower-cased text contains. *)
Lemma disease_loop_initial (text : string) :
  disease_loop diseases (lower text) (mkAnalysisResult (VStr text) None None [] [])
  = mkAnalysisResult (VStr text)
      (option_map title (find (fun d => contains d (lower text)) diseases))
      None [] [].
Proof.
  rewrite disease_loop_find.
  now destruct (find (fun d => contains d (lower text)) diseases).
Qed.

(** What the parser returns on a [str]: it completes, and each field is
    what its extraction step computes. *)
Lemma parse_str (text : string) :
  exists c,
    parse_try (VStr text)
    = inr (mkAnalysisResult (VStr text)
             (option_map title (find (fun d => contains d (lower text)) diseases))
             c
             (slice_to 5 (collected action text))
             (slice_to 3 (collected remedy text)))
    /\ ((c = None
         /\ forall p, In p confidence_patterns -> search p text IGNORECASE = inr None)
        \/ (exists pre p post m g,
              confidence_patterns = (pre ++ p :: post)%list
              /\ (forall q, In q pre -> search q text IGNORECASE = inr None)
              /\ search p text IGNORECASE = inr (Some m)
              /\ group m = Some g /\ numeric g
              /\ c = Some (PyFloat.div (PyFloat.of_Z (Z.of_N (decimal_acc 0 g))) (PyFloat.of_Z 100)))).
Proof.
  unfold parse_try. cbv zeta.
  rewrite disease_loop_initial, lines_loop_filter.
  destruct (confidence_loop_cases confidence_patterns text
              (mkAnalysisResult (VStr text)
                 (option_map title (find (fun d => contains d (lower text)) diseases))
                 None [] [])
              confidence_patterns_compile)
    as [[Hl Hall] | [pre [p [post [m [g [Heq [Hpre [Hp [Hg [Hnum Hl]]]]]]]]]]];
    rewrite Hl.
  - exists None. split; [reflexivity | now left].
  - eexists. split; [reflexivity|].
    right. exists pre, p, post, m, g. repeat (split; [assumption|]). reflexivity.
Qed.

(** When the [try] block completes, its result is the result. *)
Lemma parse_completes (response_text : value) (r : AnalysisResult) :
  parse_try response_text = inr r -> _parse_image_analysis response_text = inr r.
Proof. unfold _parse_image_analysis, try_except. now intros ->. Qed.

(** On a [str] the result always comes from the [try] block. *)
Lemma parse_str_from_try (text : string) (r : AnalysisResult) :
  _parse_image_analysis (VStr text) = inr r -> parse_try (VStr text) = inr r.
Proof.
  unfold _parse_image_analysis, try_except.
  destruct (parse_str text) as [c [-> _]]. now intros H.
Qed.

Lemma parse_str_fields (text : string) (r : AnalysisResult) :
  _parse_image_analysis (VStr text) = inr r ->
  analysis r = VStr text
  /\ disease_detected r
     = option_map title (find (fun d => contains d (lower text)) diseases)
  /\ recommended_actions r = slice_to 5 (collected action text)
  /\ local_remedies r = slice_to 3 (collected remedy text).
Proof.
  intros Hr. apply parse_str_from_try in Hr.
  destruct (parse_str text) as [c [Htry _]].
  assert (E : r = mkAnalysisResult (VStr text)
                    (option_map title (find (fun d => contains d (lower text)) diseases))
                    c (slice_to 5 (collected action text))
                    (slice_to 3 (collected remedy text)))
    by congruence.
  rewrite E. repeat split.
Qed.

Lemma find_first {A : Type} (f : A -> bool) (pre : list A) (x : A) (post : list A) :
  (forall y, In y pre -> f y = false) -> f x = true ->
  find f (pre ++ x :: post)%list = Some x.
Proof.
  intros Hpre Hx. induction pre as [|y pre IH]; simpl.
  - now rewrite Hx.
  - rewrite (Hpre y (or_introl eq_refl)). apply IH. intros z Hz. apply Hpre. now right.
Qed.

Lemma find_absent {A : Type} (f : A -> bool) (l : list A) :
  (forall y, In y l -> f y = false) -> find f l = None.
Proof.
  intros H. induction l as [|y l IH]; simpl; [reflexivity|].
  rewrite (H y (or_introl eq_refl)). apply IH. intros z Hz. apply H. now right.
Qed.

Lemma in_slice_to {A : Type} (n : nat) (x : A) (l : list A) :
  In x (slice_to n l) -> In x l.
Proof.
  unfold slice_to. intros H. rewrite <- (firstn_skipn n l).
  apply in_or_app. now left.
Qed.

(** Whatever is collected under a category is a stripped line of the
    text, and is of that category. *)
Lemma in_collected (c : category) (text s : string) :
  In s (collected c text) <->
  (exists line, In line (split newline text) /\ s = strip line)
  /\ is_category c s = true.
Proof.
  unfold collected. rewrite filter_In, in_map_iff. split.
  - intros [[line [E Hin]] Hc]. split; [now exists line | exact Hc].
  - intros [[line [Hin E]] Hc]. split; [now exists line | exact Hc].
Qed.

Lemma is_category_classify (c : category) (s : string) :
  is_category c s = true <-> classify s = c.
Proof.
  unfold is_category. destruct (classify s), c; split; congruence.
Qed.


(** The first pattern of the list that is found gives the score. *)
Lemma parse_first_found (text : string) (pre : list string) (p : string)
  (post : list string) (m : found) :
  confidence_patterns = (pre ++ p :: post)%list ->
  (forall q, In q pre -> search q text IGNORECASE = inr None) ->
  search p text IGNORECASE = inr (Some m) ->
  exists g,
    group m = Some g /\ numeric g
    /\ parse_try (VStr text)
       = inr (mkAnalysisResult (VStr text)
                (option_map title (find (fun d => contains d (lower text)) diseases))
                (Some (PyFloat.div (PyFloat.of_Z (Z.of_N (decimal_acc 0 g))) (PyFloat.of_Z 100)))
                (slice_to 5 (collected action text))
                (slice_to 3 (collected remedy text))).
Proof.
  intros Heq Hpre Hp.
  assert (Hin : In p confidence_patterns)
    by (rewrite Heq; apply in_or_app; right; now left).
  destruct (confidence_patterns_compile p Hin) as [r [Hc Hn]].
  rewrite (search_compiled p r text IGNORECASE Hc) in Hp.
  assert (Hs : search_from true r 0 text = Some m) by (simpl in Hp; congruence).
  destruct (search_numeric true r text m Hn Hs) as [g [Hg Hnum]].
  exists g. split; [exact Hg|]. split; [exact Hnum|].
  rewrite <- (search_compiled p r text IGNORECASE Hc) in Hp.
  unfold parse_try. cbv zeta.
  rewrite disease_loop_initial, lines_loop_filter, Heq.
  rewrite (confidence_loop_first pre p post text _ m Hpre Hp).
  rewrite Hg, (float_numeric g Hnum). reflexivity.
Qed.








(** The message that the loop over the history builds from one entry. *)
Lemma history_step_messages (fr : frame) (msg : ChatMessage) :
  messages (history_step fr msg)
  = (messages fr
     ++ [if String.eqb (role msg) "user"
         then HumanMessage (content msg)
         else AIMessage (content msg)])%list
  /\ message (history_step fr msg) = message fr
  /\ conversation_history (history_step fr msg) = conversation_history fr.
Proof.
  unfold history_step. now destruct (String.eqb (role msg) "user").
Qed.

Lemma history_loop (window : list ChatMessage) :
  forall fr,
    messages (fold_left history_step window fr)
    = (messages fr
       ++ map (fun msg => if String.eqb (role msg) "user"
                          then HumanMessage (content msg)
                          else AIMessage (content msg)) window)%list
    /\ message (fold_left history_step window fr) = message fr
    /\ conversation_history (fold_left history_step window fr)
       = conversation_history fr.
Proof.
  induction window as [|msg window IH]; intros fr; cbn [fold_left map].
  - now rewrite app_nil_r.
  - destruct (IH (history_step fr msg)) as [-> [-> ->]].
    destruct (history_step_messages fr msg) as [-> [-> ->]].
    now rewrite <- app_assoc.
Qed.

(** The frame at the end of lines 95 to 108. *)
Lemma context_frame (self : Self) (message : string) (history : list ChatMessage)
  (language : option string) :
  messages (process_chat_message_context self message history language)
  = (SystemMessage (system_prompt self)
     :: map (fun msg => if String.eqb (role msg) "user"
                        then HumanMessage (content msg)
                        else AIMessage (content msg)) (slice_last 5 history)
     ++ [HumanMessage (if String.eqb (language_or_default language) "kn"
                       then kannada_directive ++ message
                       else message)])%list
  /\ conversation_history (process_chat_message_context self message history language)
     = history.
Proof.
  unfold process_chat_message_context. cbv zeta.
  cbn [LangChainService.conversation_history].
  destruct (history_loop (slice_last 5 history)
              (mkFrame message history [SystemMessage (system_prompt self)]))
    as [Hm [Ht Hh]].
  destruct (String.eqb (language_or_default language) "kn");
    cbn [append_message assign_message messages LangChainService.message
           LangChainService.conversation_history];
    rewrite Hm, ?Ht, Hh;
    cbn [messages LangChainService.message LangChainService.conversation_history];
    now rewrite <- app_assoc.
Qed.

(** [xs[-5:]] is the end of [xs], and has 5 elements unless [xs] has
    fewer. *)
Lemma slice_last_suffix {A : Type} (n : nat) (xs : list A) :
  (firstn (List.length xs - n) xs ++ slice_last n xs)%list = xs
  /\ List.length (slice_last n xs) = Nat.min n (List.length xs).
Proof.
  unfold slice_last. split; [apply firstn_skipn|].
  rewrite length_skipn. lia.
Qed.

End ServiceFacts.

(** ** The properties of the specification *)

Import Py PyStr PyStrFacts Re ReShape ReFacts LangChainService Lines ServiceFacts.
Local Open Scope string_scope.

(** *** Response Structurer *)

(** C1.  On every value it is given, [_parse_image_analysis] returns a
    result and raises nothing; the [analysis] field of the result is the
    input itself.  When the [try] block raised, the result is the fallback:
    no disease, no score, no actions, no remedies.  On a [str] the [try]
    block never raises. *)
Theorem parse_image_analysis_never_raises (response_text : value) :
  exists r,
    _parse_image_analysis response_text = inr r
    /\ analysis r = response_text
    /\ (forall e, parse_try response_text = inl e ->
        disease_detected r = None /\ confidence_score r = None
        /\ recommended_actions r = [] /\ local_remedies r = [])
    /\ (forall text, response_text = VStr text -> parse_try response_text = inr r).
Proof.
  destruct response_text as [text | parts].
  - destruct (parse_str text) as [c [Htry _]].
    eexists. split; [apply parse_completes, Htry|].
    split; [reflexivity|]. split.
    + intros e He. rewrite Htry in He. discriminate.
    + intros text' E. injection E as <-. exact Htry.
  - exists (mkAnalysisResult (VList parts) None None [] []).
    split; [reflexivity|]. split; [reflexivity|]. split.
    + intros e _. now repeat split.
    + intros text E. discriminate.
Qed.

Lemma parse_image_analysis_never_raises_witness :
  exists r,
    _parse_image_analysis (VList ["Leaf rust, confidence 80%"]) = inr r
    /\ analysis r = VList ["Leaf rust, confidence 80%"]
    /\ disease_detected r = None /\ confidence_score r = None
    /\ recommended_actions r = [] /\ local_remedies r = [].
Proof.
  destruct (parse_image_analysis_never_raises (VList ["Leaf rust, confidence 80%"]))
    as [r [Hr [Ha [Hexc _]]]].
  exists r. split; [exact Hr|]. split; [exact Ha|].
  apply (Hexc AttributeError). reflexivity.
Defined.




(** C3.  In every result there are at most 5 actions and at most 3
    remedies, however many lines qualify.  No line is in both lists: an
    action is a stripped line of the text that classifies as an action, a
    remedy one that classifies as a remedy.  A line with both an action
    verb and a remedy term is a remedy and never an action. *)
Theorem actions_remedies_bounded_and_disjoint (text : string) (r : AnalysisResult) :
  _parse_image_analysis (VStr text) = inr r ->
  List.length (recommended_actions r) <= 5
  /\ List.length (local_remedies r) <= 3
  /\ (forall s, In s (recommended_actions r) -> In s (local_remedies r) -> False)
  /\ (forall s, In s (recommended_actions r) ->
                classify s = action
                /\ exists line, In line (split newline text) /\ s = strip line)
  /\ (forall s, In s (local_remedies r) ->
                classify s = remedy
                /\ exists line, In line (split newline text) /\ s = strip line)
  /\ (forall line,
         In line (split newline text) ->
         mentions (lower (strip line)) action_words = true ->
         mentions (lower (strip line)) remedy_words = true ->
         classify (strip line) = remedy
         /\ ~ In (strip line) (recommended_actions r)).
Proof.
  intros Hr. destruct (parse_str_fields text r Hr) as [_ [_ [-> ->]]].
  assert (Hact : forall s, In s (slice_to 5 (collected action text)) ->
                           classify s = action
                           /\ exists line, In line (split newline text) /\ s = strip line).
  { intros s Hs. apply in_slice_to, in_collected in Hs as [Hline Hc].
    split; [now apply is_category_classify | exact Hline]. }
  assert (Hrem : forall s, In s (slice_to 3 (collected remedy text)) ->
                           classify s = remedy
                           /\ exists line, In line (split newline text) /\ s = strip line).
  { intros s Hs. apply in_slice_to, in_collected in Hs as [Hline Hc].
    split; [now apply is_category_classify | exact Hline]. }
  split; [apply firstn_le_length|]. split; [apply firstn_le_length|].
  split; [|split; [exact Hact | split; [exact Hrem|]]].
  - intros s Ha Hm. destruct (Hact s Ha) as [Ea _]. destruct (Hrem s Hm) as [Em _].
    congruence.
  - intros line Hin Hverb Hterm.
    assert (E : classify (strip line) = remedy).
    { unfold classify. rewrite Hverb, Hterm.
      destruct (strip line) as [|c t] eqn:Es; [discriminate Hverb | reflexivity]. }
    split; [exact E|]. intros Ha. destruct (Hact _ Ha) as [Ea _]. congruence.
Qed.

Lemma actions_remedies_bounded_and_disjoint_witness :
  List.length ["Remove the affected leaves"] <= 5
  /\ List.length ["Apply neem oil spray twice a week"] <= 3
  /\ classify "Remove the affected leaves" = action
  /\ classify "Apply neem oil spray twice a week" = remedy.
Proof.
  destruct (actions_remedies_bounded_and_disjoint
              "Remove the affected leaves
  Apply neem oil spray twice a week  "
              (mkAnalysisResult
                 (VStr "Remove the affected leaves
  Apply neem oil spray twice a week  ")
                 None None
                 ["Remove the affected leaves"]
                 ["Apply neem oil spray twice a week"]))
    as [H5 [H3 [_ [Hact [Hrem _]]]]].
  - vm_compute. reflexivity.
  - split; [exact H5|]. split; [exact H3|]. split.
    + apply (Hact "Remove the affected leaves"). now left.
    + apply (Hrem "Apply neem oil spray twice a week"). now left.
Defined.

(** C4, as the specification states it, fails: the score need not lie in
    the interval from 0 to 1.  The text ["confidence: 150%"] gets the score
    1.5, the float 6755399441055744 / 2^52. *)
Lemma confidence_score_above_one :
  ~ (forall text r q,
        _parse_image_analysis (VStr text) = inr r ->
        confidence_score r = Some q ->
        PyFloat.leb PyFloat.zero q = true /\ PyFloat.leb q PyFloat.one = true).
Proof.
  intros H.
  assert (E : _parse_image_analysis (VStr "confidence: 150%")
              = inr (mkAnalysisResult (VStr "confidence: 150%") None
                       (Some (S754_finite false 6755399441055744 (-52))) [] []))
    by (vm_compute; reflexivity).
  destruct (H _ _ _ E eq_refl) as [_ Hle].
  discriminate Hle.
Qed.

(** C4, amended.  When extraction succeeds the score is the float of the
    digits that one of the four patterns captured, over 100, in binary64
    arithmetic, so it is the infinity when the digits are too many.  It is
    never negative and never a NaN, and it is at most 1 exactly when the
    captured integer is at most 100. *)
Theorem confidence_score_is_capture_over_100
  (text : string) (r : AnalysisResult) (q : PyFloat.t) :
  _parse_image_analysis (VStr text) = inr r ->
  confidence_score r = Some q ->
  exists p m g,
    In p confidence_patterns
    /\ search p text IGNORECASE = inr (Some m)
    /\ group m = Some g
    /\ q = PyFloat.div (PyFloat.of_Z (Z.of_N (decimal_acc 0 g))) (PyFloat.of_Z 100)
    /\ PyFloat.leb PyFloat.zero q = true
    /\ (PyFloat.leb q PyFloat.one = true <-> (decimal_acc 0 g <= 100)%N).
Proof.
  intros Hr Hq. apply parse_str_from_try in Hr.
  destruct (parse_str text) as [c [Htry Hc]].
  rewrite Htry in Hr. injection Hr as <-. simpl in Hq. subst c.
  destruct Hc as [[Hnone _] | [pre [p [post [m [g [Heq [_ [Hp [Hg [_ Hsome]]]]]]]]]]].
  - discriminate.
  - injection Hsome as ->. exists p, m, g.
    split; [rewrite Heq; apply in_or_app; right; now left|].
    split; [exact Hp|]. split; [exact Hg|]. split; [reflexivity|].
    apply FloatFacts.score_bounds.
Qed.

Lemma confidence_score_is_capture_over_100_witness :
  exists p m g,
    In p confidence_patterns
    /\ search p "Diagnosis confidence: 82%" IGNORECASE = inr (Some m)
    /\ group m = Some g
    /\ S754_finite false 7385903388887613 (-53)
       = PyFloat.div (PyFloat.of_Z (Z.of_N (decimal_acc 0 g))) (PyFloat.of_Z 100)
    /\ PyFloat.leb PyFloat.zero (S754_finite false 7385903388887613 (-53)) = true
    /\ (PyFloat.leb (S754_finite false 7385903388887613 (-53)) PyFloat.one = true
        <-> (decimal_acc 0 g <= 100)%N).
Proof.
  apply (confidence_score_is_capture_over_100 "Diagnosis confidence: 82%"
           (mkAnalysisResult (VStr "Diagnosis confidence: 82%") None
              (Some (S754_finite false 7385903388887613 (-53))) [] [])).
  - vm_compute. reflexivity.
  - reflexivity.
Defined.

(** C5.  The disease label is found by going through the vocabulary in
    its fixed order and taking the first term that the lower-cased text
    contains, whatever the positions of the terms in the text; the label
    is that term in title case.  A text whose lower-cased form contains no
    term of the vocabulary has no label.  The vocabulary has 17 terms. *)
Theorem disease_is_first_vocabulary_term (text : string) (r : AnalysisResult) :
  _parse_image_analysis (VStr text) = inr r ->
  disease_detected r
  = option_map title (find (fun d => contains d (lower text)) diseases)
  /\ (forall pre d post,
         diseases = (pre ++ d :: post)%list ->
         (forall d', In d' pre -> contains d' (lower text) = false) ->
         contains d (lower text) = true ->
         disease_detected r = Some (title d))
  /\ ((forall d, In d diseases -> contains d (lower text) = false) <->
      disease_detected r = None)
  /\ List.length diseases = 17
  /\ map title diseases
     = ["Blight"; "Wilt"; "Rust"; "Mildew"; "Mosaic"; "Rot"; "Canker";
        "Anthracnose"; "Leaf Spot"; "Powdery Mildew"; "Downy Mildew";
        "Bacterial"; "Fungal"; "Viral"; "Aphid"; "Thrips"; "Whitefly"]
  /\ _parse_image_analysis (VStr "Orange rust pustules, then early BLIGHT lesions")
     = inr (mkAnalysisResult
              (VStr "Orange rust pustules, then early BLIGHT lesions")
              (Some "Blight") None [] []).
Proof.
  intros Hr. destruct (parse_str_fields text r Hr) as [_ [-> _]].
  split; [reflexivity|]. split; [|split; [|split; [|split]]].
  - intros pre d post Heq Hpre Hd. rewrite Heq.
    now rewrite (find_first (fun d => contains d (lower text)) pre d post Hpre Hd).
  - split.
    + intros Hnone.
      now rewrite (find_absent (fun d => contains d (lower text)) diseases Hnone).
    + destruct (find (fun d => contains d (lower text)) diseases) as [d|] eqn:E;
        [discriminate|].
      intros _ d Hd. exact (find_none _ _ E d Hd).
  - reflexivity.
  - reflexivity.
  - vm_compute. reflexivity.
Qed.

Lemma disease_is_first_vocabulary_term_witness :
  disease_detected
    (mkAnalysisResult (VStr "Signs of Leaf Spot and root rot") (Some "Rot") None [] [])
  = Some (title "rot").
Proof.
  destruct (disease_is_first_vocabulary_term
              "Signs of Leaf Spot and root rot"
              (mkAnalysisResult (VStr "Signs of Leaf Spot and root rot")
                 (Some "Rot") None [] []))
    as [_ [Hfirst _]].
  - vm_compute. reflexivity.
  - apply (Hfirst ["blight"; "wilt"; "rust"; "mildew"; "mosaic"] "rot"
             ["canker"; "anthracnose"; "leaf spot"; "powdery mildew"; "downy mildew";
              "bacterial"; "fungal"; "viral"; "aphid"; "thrips"; "whitefly"]).
    + reflexivity.
    + intros d' [<- | [<- | [<- | [<- | [<- | []]]]]]; reflexivity.
    + reflexivity.
Defined.

(** C6.  What the code does on a numbered line without action verb: the
    line is a remedy when it contains [neem], [organic] or [local], and an
    action otherwise, whatever other remedy term it holds.  The line
    ["1. Turmeric paste on wounds"] has no action verb, matches the
    numbered pattern, is longer than 10 characters and contains
    [turmeric], and it is filed as an action.  The same term on a line
    with an action verb makes a remedy, and so does [neem] on a numbered
    line. *)
Theorem numbered_line_with_turmeric_is_action :
  (forall line,
      mentions (lower line) action_words = false ->
      match_ numbered_pattern line <> inr None ->
      10 < String.length line ->
      classify line
      = if mentions (lower line) numbered_remedy_words then remedy else action)
  /\ mentions (lower "1. Turmeric paste on wounds") action_words = false
  /\ match_ numbered_pattern "1. Turmeric paste on wounds"
     = inr (Some (mkFound "1." None " Turmeric paste on wounds"))
  /\ 10 < String.length "1. Turmeric paste on wounds"
  /\ contains "turmeric" (lower "1. Turmeric paste on wounds") = true
  /\ In "turmeric" remedy_words
  /\ classify "1. Turmeric paste on wounds" = action
  /\ _parse_image_analysis (VStr "1. Turmeric paste on wounds")
     = inr (mkAnalysisResult (VStr "1. Turmeric paste on wounds") None None
              ["1. Turmeric paste on wounds"] [])
  /\ _parse_image_analysis (VStr "Apply turmeric paste on wounds")
     = inr (mkAnalysisResult (VStr "Apply turmeric paste on wounds") None None
              [] ["Apply turmeric paste on wounds"])
  /\ _parse_image_analysis (VStr "1. Neem oil on the leaves")
     = inr (mkAnalysisResult (VStr "1. Neem oil on the leaves") None None
              [] ["1. Neem oil on the leaves"]).
Proof.
  split.
  - intros line Hverb Hnum Hlen. unfold classify. rewrite Hverb.
    destruct line as [|c t]; [inversion Hlen|]. cbn [is_empty].
    apply Nat.ltb_lt in Hlen. rewrite Hlen, andb_true_r.
    rewrite match_numbered in Hnum. unfold is_numbered.
    destruct (hd_error (matches false numbered_regex 0 (String c t)));
      [reflexivity | now elim Hnum].
  - repeat split; try (vm_compute; reflexivity).
    + unfold lt. vm_compute. repeat constructor.
    + unfold remedy_words. simpl. tauto.
Qed.

Lemma numbered_line_with_turmeric_is_action_witness :
  classify "2. Dust wood ash around the stem"
  = if mentions (lower "2. Dust wood ash around the stem") numbered_remedy_words
    then remedy else action.
Proof.
  destruct numbered_line_with_turmeric_is_action as [Hnumbered _].
  apply (Hnumbered "2. Dust wood ash around the stem").
  - reflexivity.
  - vm_compute. discriminate.
  - vm_compute. repeat constructor.
Defined.

(** C10.  The label is never ["Powdery Mildew"] nor ["Downy Mildew"]: a
    text that contains either term contains ["mildew"], which comes
    earlier in the vocabulary, so the scan has stopped by then. *)
Theorem compound_mildew_labels_unreachable (text : string) (r : AnalysisResult) :
  _parse_image_analysis (VStr text) = inr r ->
  disease_detected r <> Some "Powdery Mildew"
  /\ disease_detected r <> Some "Downy Mildew"
  /\ (contains "powdery mildew" (lower text) = true ->
      contains "mildew" (lower text) = true)
  /\ (contains "downy mildew" (lower text) = true ->
      contains "mildew" (lower text) = true)
  /\ (contains "mildew" (lower text) = true ->
      In (disease_detected r) [Some "Blight"; Some "Wilt"; Some "Rust"; Some "Mildew"]).
Proof.
  intros Hr.
  destruct (parse_str_fields text r Hr) as [_ [Hd _]].
  assert (Hp : contains "powdery mildew" (lower text) = true ->
               contains "mildew" (lower text) = true)
    by (apply contains_trans; reflexivity).
  assert (Hw : contains "downy mildew" (lower text) = true ->
               contains "mildew" (lower text) = true)
    by (apply contains_trans; reflexivity).
  assert (Hm : contains "mildew" (lower text) = true ->
               In (disease_detected r)
                  [Some "Blight"; Some "Wilt"; Some "Rust"; Some "Mildew"]).
  { intros Hc. rewrite Hd. unfold diseases. cbn [find].
    destruct (contains "blight" (lower text)); [now left|].
    destruct (contains "wilt" (lower text)); [right; now left|].
    destruct (contains "rust" (lower text)); [right; right; now left|].
    rewrite Hc. right; right; right; now left. }
  assert (Hfound : forall d, disease_detected r = Some (title d) ->
                             In d diseases -> contains d (lower text) = true).
  { intros d E Hin. rewrite Hd in E.
    destruct (find (fun d => contains d (lower text)) diseases) as [d0|] eqn:Ef;
      [|discriminate].
    apply find_some in Ef as [Hin0 Hf0]. simpl in Hf0.
    injection E as E.
    assert (d0 = d); [|now subst].
    unfold diseases in Hin, Hin0. simpl in Hin, Hin0.
    repeat (destruct Hin0 as [<- | Hin0]; [
      repeat (destruct Hin as [<- | Hin]; [first [reflexivity | discriminate E]|]);
      contradiction |]).
    contradiction. }
  split; [|split; [|split; [exact Hp | split; [exact Hw | exact Hm]]]].
  - intros E.
    assert (Hc : contains "powdery mildew" (lower text) = true).
    { apply Hfound; [exact E | unfold diseases; simpl; tauto]. }
    destruct (Hm (Hp Hc)) as [H | [H | [H | [H | []]]]];
      rewrite E in H; discriminate.
  - intros E.
    assert (Hc : contains "downy mildew" (lower text) = true).
    { apply Hfound; [exact E | unfold diseases; simpl; tauto]. }
    destruct (Hm (Hw Hc)) as [H | [H | [H | [H | []]]]];
      rewrite E in H; discriminate.
Qed.

Lemma compound_mildew_labels_unreachable_witness :
  In (disease_detected
        (mkAnalysisResult (VStr "White coating: powdery mildew") (Some "Mildew")
           None [] []))
     [Some "Blight"; Some "Wilt"; Some "Rust"; Some "Mildew"].
Proof.
  destruct (compound_mildew_labels_unreachable
              "White coating: powdery mildew"
              (mkAnalysisResult (VStr "White coating: powdery mildew") (Some "Mildew")
                 None [] []))
    as [_ [_ [Hpowdery [_ Hmildew]]]].
  - vm_compute. reflexivity.
  - apply Hmildew, Hpowdery. reflexivity.
Defined.

(** *** Conversation Context Builder *)

(** C7.  The messages sent to the model are: first one system message with
    the system prompt, then one message for each entry of the last five of
    the history, in their order, then one user message with the current
    message, which carries the Kannada directive in front when the language
    is ["kn"] and nothing in front when it is ["en"] or not given.  Of
    seven entries of history the last five make the window. *)
Theorem context_is_system_window_message
  (self : Self) (message : string) (history : list ChatMessage) (language : option string) :
  let window := slice_last 5 history in
  let final :=
    if String.eqb (language_or_default language) "kn"
    then kannada_directive ++ message
    else message in
  messages (process_chat_message_context self message history language)
  = (SystemMessage (system_prompt self)
     :: map (fun msg => if String.eqb (role msg) "user"
                        then HumanMessage (content msg)
                        else AIMessage (content msg)) window
     ++ [HumanMessage final])%list
  /\ (firstn (List.length history - 5) history ++ window)%list = history
  /\ List.length window = Nat.min 5 (List.length history)
  /\ (forall h1 h2 h3 h4 h5 h6 h7 : ChatMessage,
         slice_last 5 [h1; h2; h3; h4; h5; h6; h7] = [h3; h4; h5; h6; h7])
  /\ (language = Some "kn" ->
      final = "[Please respond in Kannada language] " ++ message)
  /\ (language = Some "en" \/ language = None -> final = message).
Proof.
  intros window final.
  split; [|split; [|split; [|split; [|split]]]].
  - apply context_frame.
  - apply slice_last_suffix.
  - apply slice_last_suffix.
  - reflexivity.
  - intros ->. reflexivity.
  - intros [-> | ->]; reflexivity.
Qed.

Lemma context_is_system_window_message_witness :
  (if String.eqb (language_or_default (Some "kn")) "kn"
   then kannada_directive ++ "Which crop suits red soil?"
   else "Which crop suits red soil?")
  = "[Please respond in Kannada language] " ++ "Which crop suits red soil?".
Proof.
  destruct (context_is_system_window_message
              (mkSelf "You are AgriMitra" "Analyze this crop image" (fun _ => inr "Ragi"))
              "Which crop suits red soil?"
              [mkChatMessage "user" "Hello" None; mkChatMessage "assistant" "Namaskara" None]
              (Some "kn"))
    as [_ [_ [_ [_ [Hkn _]]]]].
  apply Hkn. reflexivity.
Defined.

(** C8, as the specification states it, fails: a role other than [user]
    and [assistant] is not passed through.  A history entry with role
    ["system"] comes out as an assistant message. *)
Lemma malformed_role_is_remapped :
  ~ (forall self message history language i entry,
        nth_error (slice_last 5 history) i = Some entry ->
        exists m,
          nth_error (messages (process_chat_message_context self message history language))
                    (S i) = Some m
          /\ role_name (message_role m) = role entry).
Proof.
  intros H.
  destruct (H (mkSelf "You are AgriMitra" "Analyze this crop image" (fun _ => inr "Ragi"))
              "Which crop suits red soil?"
              [mkChatMessage "system" "Answer in one sentence" None]
              None 0 (mkChatMessage "system" "Answer in one sentence" None) eq_refl)
    as [m [Hm Hrole]].
  injection Hm as <-. discriminate Hrole.
Qed.

(** C8, amended.  The message built from an entry of the window carries
    the content of the entry unchanged; it is a user message when the role
    of the entry is ["user"] and an assistant message for every other role,
    so that the role of the entry is kept exactly when it is ["user"] or
    ["assistant"].  The history that the caller gave is left as it was. *)
Theorem history_roles_user_or_assistant
  (self : Self) (message : string) (history : list ChatMessage) (language : option string)
  (i : nat) (entry : ChatMessage) :
  nth_error (slice_last 5 history) i = Some entry ->
  exists m,
    nth_error (messages (process_chat_message_context self message history language)) (S i)
    = Some m
    /\ message_content m = content entry
    /\ message_role m = (if String.eqb (role entry) "user" then user else assistant)
    /\ (role_name (message_role m) = role entry <->
        role entry = "user" \/ role entry = "assistant")
    /\ conversation_history (process_chat_message_context self message history language)
       = history.
Proof.
  intros Hi.
  destruct (context_frame self message history language) as [-> ->].
  exists (if String.eqb (role entry) "user"
          then HumanMessage (content entry)
          else AIMessage (content entry)).
  split; [|split; [|split; [|split]]].
  - cbn [nth_error]. rewrite nth_error_app1.
    + now rewrite nth_error_map, Hi.
    + rewrite length_map. apply nth_error_Some. now rewrite Hi.
  - now destruct (String.eqb (role entry) "user").
  - now destruct (String.eqb (role entry) "user").
  - destruct (String.eqb (role entry) "user") eqn:E.
    + apply String.eqb_eq in E. rewrite E. cbn. split; [now left | reflexivity].
    + apply String.eqb_neq in E. cbn. split.
      * intros <-. now right.
      * intros [Hu | Ha]; [contradiction | now rewrite Ha].
  - reflexivity.
Qed.

Lemma history_roles_user_or_assistant_witness :
  exists m,
    nth_error
      (messages
         (process_chat_message_context
            (mkSelf "You are AgriMitra" "Analyze this crop image" (fun _ => inr "Ragi"))
            "Which crop suits red soil?"
            [mkChatMessage "user" "Hello" None; mkChatMessage "moderator" "Be kind" None]
            (Some "en")))
      2 = Some m
    /\ message_content m = "Be kind"
    /\ message_role m = assistant.
Proof.
  destruct (history_roles_user_or_assistant
              (mkSelf "You are AgriMitra" "Analyze this crop image" (fun _ => inr "Ragi"))
              "Which crop suits red soil?"
              [mkChatMessage "user" "Hello" None; mkChatMessage "moderator" "Be kind" None]
              (Some "en") 1 (mkChatMessage "moderator" "Be kind" None) eq_refl)
    as [m [Hm [Hc [Hr _]]]].
  exists m. split; [exact Hm|]. split; [exact Hc | exact Hr].
Defined.

(** *** Suggestion Heuristic *)

(** C9.  [_get_suggested_actions] is a function of the message alone: it
    tests the lower-cased message against the disease and pest words, then
    the market words, then the scheme words, then the weather words, and
    returns the three suggestions of the first set with a word in the
    message, or the three general suggestions when there is none.  The
    list always has 3 entries.  The test is on the lower-cased message: a
    message that holds a disease word in any letter case gets the disease
    suggestions, and one that holds a market word in any letter case, and
    no disease word, gets the market suggestions; so do the upper-case
    messages below.  ["My tomato leaves have yellow spots"] gets the three
    disease suggestions, and the disease set goes before the market set. *)
Theorem suggestions_follow_first_keyword_set (message : string) :
  let message_lower := lower message in
  _get_suggested_actions message
  = (if mentions message_lower
          ["disease"; "spot"; "yellow"; "brown"; "pest"; "bug"; "insect"]
     then ["Upload an image of the affected plant";
           "Check market prices for your crop";
           "Look for organic treatment options"]
     else if mentions message_lower ["price"; "sell"; "market"; "mandi"]
     then ["Check current market prices";
           "Find nearby mandis";
           "Look for government schemes"]
     else if mentions message_lower ["subsidy"; "scheme"; "government"; "loan"]
     then ["Search government schemes";
           "Check eligibility criteria";
           "Find application procedures"]
     else if mentions message_lower ["weather"; "rain"; "drought"; "irrigation"]
     then ["Check weather forecasts";
           "Look for drought-resistant varieties";
           "Explore irrigation subsidies"]
     else ["Upload crop images for analysis";
           "Check market prices";
           "Explore government schemes"])
  /\ List.length (_get_suggested_actions message) = 3
  /\ _get_suggested_actions "My tomato leaves have yellow spots"
     = ["Upload an image of the affected plant";
        "Check market prices for your crop";
        "Look for organic treatment options"]
  /\ _get_suggested_actions "What PRICE can I get for pest-damaged chillies?"
     = ["Upload an image of the affected plant";
        "Check market prices for your crop";
        "Look for organic treatment options"]
  /\ _get_suggested_actions "Namaskara"
     = ["Upload crop images for analysis";
        "Check market prices";
        "Explore government schemes"]
  /\ (forall pre word post,
         In (lower word) ["disease"; "spot"; "yellow"; "brown"; "pest"; "bug"; "insect"] ->
         _get_suggested_actions (pre ++ word ++ post)
         = ["Upload an image of the affected plant";
            "Check market prices for your crop";
            "Look for organic treatment options"])
  /\ (forall pre word post,
         In (lower word) ["price"; "sell"; "market"; "mandi"] ->
         mentions (lower (pre ++ word ++ post))
           ["disease"; "spot"; "yellow"; "brown"; "pest"; "bug"; "insect"] = false ->
         _get_suggested_actions (pre ++ word ++ post)
         = ["Check current market prices";
            "Find nearby mandis";
            "Look for government schemes"])
  /\ _get_suggested_actions "What is the PRICE of ragi at the MANDI?"
     = ["Check current market prices";
        "Find nearby mandis";
        "Look for government schemes"]
  /\ _get_suggested_actions "YELLOW LEAVES ON MY RAGI"
     = ["Upload an image of the affected plant";
        "Check market prices for your crop";
        "Look for organic treatment options"]
  /\ _get_suggested_actions "Is there a SUBSIDY for drip kits?"
     = ["Search government schemes";
        "Check eligibility criteria";
        "Find application procedures"]
  /\ _get_suggested_actions "Will it RAIN this week?"
     = ["Check weather forecasts";
        "Look for drought-resistant varieties";
        "Explore irrigation subsidies"].
Proof.
  intros message_lower.
  assert (Hword : forall pre word post words,
             In (lower word) words ->
             mentions (lower (pre ++ word ++ post)) words = true).
  { intros pre word post words Hin. apply existsb_exists.
    exists (lower word). split; [exact Hin | apply contains_lower_word]. }
  split; [|split; [|split; [|split; [|split; [|split; [|split; [|split; [|split; [|split]]]]]]]]];
    try reflexivity.
  1, 2: unfold _get_suggested_actions; cbv zeta; fold message_lower;
    destruct (mentions message_lower
                ["disease"; "spot"; "yellow"; "brown"; "pest"; "bug"; "insect"]);
    try reflexivity;
    destruct (mentions message_lower ["price"; "sell"; "market"; "mandi"]);
    try reflexivity;
    destruct (mentions message_lower ["subsidy"; "scheme"; "government"; "loan"]);
    try reflexivity;
    destruct (mentions message_lower ["weather"; "rain"; "drought"; "irrigation"]);
    reflexivity.
  - intros pre word post Hin. unfold _get_suggested_actions. cbv zeta.
    now rewrite (Hword pre word post _ Hin).
  - intros pre word post Hin Hnone. unfold _get_suggested_actions. cbv zeta.
    now rewrite Hnone, (Hword pre word post _ Hin).
Qed.

Lemma suggestions_follow_first_keyword_set_witness :
  _get_suggested_actions "Where can I SELL my ragi?"
  = ["Check current market prices";
     "Find nearby mandis";
     "Look for government schemes"].
Proof.
  destruct (suggestions_follow_first_keyword_set "") as [_ [_ [_ [_ [_ [_ [Hmarket _]]]]]]].
  apply (Hmarket "Where can I " "SELL" " my ragi?").
  - right. now left.
  - reflexivity.
Defined.


(** ** Further facts on the parser and on the chat path *)

Module ParserFacts.
Import Py PyStr PyStrFacts Re ReShape ReFacts LangChainService Patterns Lines ServiceFacts.
Local Open Scope string_scope.

(** The directive that goes before a Kannada message holds none of the
    keywords and ends with a blank: the suggestions see through it. *)
Lemma suggestions_ignore_directive (message : string) :
  _get_suggested_actions (kannada_directive ++ message) = _get_suggested_actions message.
Proof. reflexivity. Qed.

Lemma context_message (self : Self) (message : string) (history : list ChatMessage)
  (language : option string) :
  LangChainService.message (process_chat_message_context self message history language)
  = if String.eqb (language_or_default language) "kn"
    then kannada_directive ++ message
    else message.
Proof.
  unfold process_chat_message_context. cbv zeta.
  cbn [LangChainService.conversation_history].
  destruct (history_loop (slice_last 5 history)
              (mkFrame message history [SystemMessage (system_prompt self)]))
    as [_ [Ht _]].
  destruct (String.eqb (language_or_default language) "kn");
    cbn [append_message assign_message LangChainService.message];
    now rewrite Ht.
Qed.

(** The parser answers on every value, within the bounds of its lists. *)
Lemma parse_total (content : value) :
  exists r,
    _parse_image_analysis content = inr r
    /\ analysis r = content
    /\ List.length (recommended_actions r) <= 5
    /\ List.length (local_remedies r) <= 3.
Proof.
  destruct content as [text | parts].
  - destruct (parse_str text) as [c [Htry _]].
    eexists. split; [apply parse_completes, Htry|].
    split; [reflexivity|]. split; apply firstn_le_length.
  - eexists. split; [reflexivity|]. split; [reflexivity|].
    split; apply Nat.le_0_l.
Qed.

Lemma rstrip_end (s : string) : ends_with isspace (rstrip s) = false.
Proof.
  induction s as [|c s IH]; [reflexivity|]. cbn [rstrip].
  destruct (rstrip s) as [|d t].
  - destruct (isspace c) eqn:E; [reflexivity | exact E].
  - exact IH.
Qed.

(** What [strip] returns starts with no whitespace and ends with none. *)
Lemma strip_edges (s : string) :
  lstrip (strip s) = strip s /\ ends_with isspace (strip s) = false.
Proof.
  split; [|apply rstrip_end].
  unfold strip. destruct (lstrip_head s) as [-> | [c [t [-> E]]]]; [reflexivity|].
  rewrite (rstrip_cons c t E). cbn [lstrip]. now rewrite E.
Qed.

Lemma classify_empty : classify "" = ignored.
Proof. reflexivity. Qed.

(** *** Texts without digits, blank texts *)

Lemma all_chars_impl (p q : ascii -> bool) (s : string) :
  (forall c, p c = true -> q c = true) -> all_chars p s = true -> all_chars q s = true.
Proof.
  intros Hpq. induction s as [|c s IH]; [reflexivity|]. cbn [all_chars].
  intros H. apply andb_true_iff in H as [Hc Hs]. now rewrite (Hpq c Hc), (IH Hs).
Qed.

Lemma star_all_chars (p : ascii -> bool) (ic : bool) (a : atom) (s u rest : string) :
  all_chars p s = true -> In (u, rest) (star ic a s) ->
  all_chars p u = true /\ all_chars p rest = true.
Proof.
  intros Hs Hin. apply star_sound in Hin as [-> _].
  rewrite all_chars_app in Hs. now apply andb_true_iff in Hs.
Qed.

(** Whatever a match is made of comes from the subject. *)
Lemma matches_all_chars (p : ascii -> bool) (ic : bool) (r : regex) :
  forall pos s m,
    all_chars p s = true -> In m (matches ic r pos s) ->
    all_chars p (whole m) = true /\ all_chars p (after m) = true
    /\ (forall g, group1 m = Some g -> all_chars p g = true).
Proof.
  induction r as [| a | a | a | r1 IH1 r2 IH2 | r IH |]; cbn [matches]; intros pos s m Hs Hin.
  - destruct Hin as [<- | []]. cbn. repeat split; [exact Hs | discriminate].
  - destruct s as [|c s]; [contradiction|].
    destruct (atom_match ic a c); [|contradiction]. destruct Hin as [<- | []].
    cbn [all_chars] in Hs. apply andb_true_iff in Hs as [Hc Hs].
    cbn. rewrite Hc, Hs. repeat split. discriminate.
  - apply in_map_iff in Hin as [[u rest] [<- Hin]].
    destruct (star_all_chars p ic a s u rest Hs Hin) as [Hu Hr].
    cbn. repeat split; [exact Hu | exact Hr | discriminate].
  - destruct s as [|c s]; [contradiction|].
    destruct (atom_match ic a c); [|contradiction].
    apply in_map_iff in Hin as [[u rest] [<- Hin]].
    cbn [all_chars] in Hs. apply andb_true_iff in Hs as [Hc Hs].
    destruct (star_all_chars p ic a s u rest Hs Hin) as [Hu Hr].
    cbn. rewrite Hc, Hu. repeat split; [exact Hr | discriminate].
  - apply in_flat_map in Hin as [m1 [Hin1 Hin]].
    apply in_map_iff in Hin as [m2 [<- Hin2]].
    destruct (IH1 _ _ _ Hs Hin1) as [Hw1 [Ha1 Hg1]].
    destruct (IH2 _ _ _ Ha1 Hin2) as [Hw2 [Ha2 Hg2]].
    cbn [whole after group1]. rewrite all_chars_app, Hw1, Hw2.
    repeat split; [exact Ha2|].
    intros g. destruct (group1 m2) as [g2|]; [intros E; injection E as <-; now apply Hg2|].
    apply Hg1.
  - apply in_map_iff in Hin as [m' [<- Hin]].
    destruct (IH _ _ _ Hs Hin) as [Hw [Ha _]].
    cbn. repeat split; [exact Hw | exact Ha|]. intros g E. now injection E as <-.
  - destruct (pos =? 0)%nat; [|contradiction]. destruct Hin as [<- | []].
    cbn. repeat split; [exact Hs | discriminate].
Qed.

Lemma search_from_all_chars (p : ascii -> bool) (ic : bool) (r : regex) (s : string) :
  forall pos m g,
    all_chars p s = true -> search_from ic r pos s = Some m -> group m = Some g ->
    all_chars p g = true.
Proof.
  induction s as [|c s IH]; intros pos m g Hs; cbn [search_from].
  - destruct (matches ic r pos "") as [|m0 l] eqn:E; [discriminate|].
    intros H Hg. injection H as <-.
    apply (matches_all_chars p ic r pos "" m0 Hs); [rewrite E; now left | exact Hg].
  - destruct (matches ic r pos (String c s)) as [|m0 l] eqn:E.
    + cbn [all_chars] in Hs. apply andb_true_iff in Hs as [_ Hs]. now apply IH.
    + intros H Hg. injection H as <-.
      apply (matches_all_chars p ic r pos (String c s) m0 Hs); [rewrite E; now left | exact Hg].
Qed.

Lemma contains_all_chars (p : ascii -> bool) (needle hay : string) :
  all_chars p hay = true -> contains needle hay = true -> all_chars p needle = true.
Proof.
  intros Hh Hc. apply contains_spec in Hc as [pre [post ->]].
  rewrite !all_chars_app in Hh.
  apply andb_true_iff in Hh as [_ Hh]. now apply andb_true_iff in Hh as [Hn _].
Qed.

Lemma isspace_lower_char (c : ascii) : isspace (lower_char c) = isspace c.
Proof. destruct c as [[] [] [] [] [] [] [] []]; reflexivity. Qed.

Lemma isdecimal_lower_char (c : ascii) : isdecimal (lower_char c) = isdecimal c.
Proof. destruct c as [[] [] [] [] [] [] [] []]; reflexivity. Qed.

Lemma lower_char_idem (c : ascii) : lower_char (lower_char c) = lower_char c.
Proof. destruct c as [[] [] [] [] [] [] [] []]; reflexivity. Qed.

Lemma lower_char_decimal (c : ascii) : isdecimal c = true -> lower_char c = c.
Proof. destruct c as [[] [] [] [] [] [] [] []]; (reflexivity || discriminate). Qed.

Lemma space_not_decimal (c : ascii) : isspace c = true -> negb (isdecimal c) = true.
Proof. destruct c as [[] [] [] [] [] [] [] []]; (reflexivity || discriminate). Qed.

Lemma lower_char_newline (c : ascii) :
  Ascii.eqb (lower_char c) newline = Ascii.eqb c newline.
Proof. destruct c as [[] [] [] [] [] [] [] []]; reflexivity. Qed.

Lemma all_chars_lower_space (s : string) :
  all_chars isspace (lower s) = all_chars isspace s.
Proof.
  induction s as [|c s IH]; [reflexivity|]. cbn [lower all_chars].
  now rewrite isspace_lower_char, IH.
Qed.

Lemma split_all_chars (p : ascii -> bool) (sep : ascii) (s : string) :
  all_chars p s = true -> forall piece, In piece (split sep s) -> all_chars p piece = true.
Proof.
  induction s as [|c s IH]; cbn [split all_chars]; intros Hs piece Hin.
  - destruct Hin as [<- | []]. reflexivity.
  - apply andb_true_iff in Hs as [Hc Hs]. destruct (Ascii.eqb c sep).
    + destruct Hin as [<- | Hin]; [reflexivity | now apply IH].
    + destruct (split sep s) as [|piece0 pieces] eqn:E.
      * destruct Hin as [<- | []]. cbn. now rewrite Hc.
      * destruct Hin as [<- | Hin].
        -- cbn [all_chars]. rewrite Hc. apply (IH Hs). now left.
        -- apply (IH Hs). now right.
Qed.

Lemma strip_blank (s : string) : all_chars isspace s = true -> strip s = "".
Proof.
  unfold strip. induction s as [|c s IH]; [reflexivity|]. cbn [all_chars lstrip].
  intros H. apply andb_true_iff in H as [Hc Hs]. rewrite Hc. now apply IH.
Qed.

Lemma collected_blank (c : category) (text : string) :
  c <> ignored -> all_chars isspace text = true -> collected c text = [].
Proof.
  intros Hc Ht. unfold collected.
  pose proof (split_all_chars isspace newline text Ht) as Hpieces.
  induction (split newline text) as [|piece pieces IH]; [reflexivity|].
  cbn [map filter]. rewrite (strip_blank piece) by (apply Hpieces; now left).
  replace (is_category c "") with false by (now destruct c).
  apply IH. intros q Hq. apply Hpieces. now right.
Qed.

(** *** Lower-casing the subject *)

Lemma lower_length (s : string) : String.length (lower s) = String.length s.
Proof. induction s as [|c s IH]; [reflexivity|]. cbn. now rewrite IH. Qed.

Lemma lower_idem (s : string) : lower (lower s) = lower s.
Proof.
  induction s as [|c s IH]; [reflexivity|]. cbn. now rewrite lower_char_idem, IH.
Qed.

Lemma lower_decimal (g : string) : all_chars isdecimal g = true -> lower g = g.
Proof.
  induction g as [|c g IH]; [reflexivity|]. cbn [all_chars lower].
  intros H. apply andb_true_iff in H as [Hc Hg]. now rewrite (lower_char_decimal c Hc), IH.
Qed.

Lemma atom_match_lower (a : atom) (c : ascii) :
  atom_match true a (lower_char c) = atom_match true a c.
Proof.
  destruct a as [b | items]; cbn [atom_match].
  - unfold char_eq. now rewrite lower_char_idem.
  - induction items as [|i items IH]; [reflexivity|]. cbn [existsb]. rewrite IH. f_equal.
    destruct i as [b | |]; cbn [item_match].
    + unfold char_eq. now rewrite lower_char_idem.
    + apply isdecimal_lower_char.
    + apply isspace_lower_char.
Qed.

Lemma star_lower (a : atom) (s : string) :
  star true a (lower s)
  = map (fun ur => (lower (fst ur), lower (snd ur))) (star true a s).
Proof.
  induction s as [|c s IH]; [reflexivity|]. cbn [lower star].
  rewrite atom_match_lower. destruct (atom_match true a c); [|reflexivity].
  rewrite IH, map_app, !map_map. reflexivity.
Qed.

(** Under [IGNORECASE] the matches in the lower-cased subject are the
    matches in the subject, lower-cased. *)
Lemma matches_lower (r : regex) :
  forall pos s,
    matches true r pos (lower s) = map CaseFold.lower_found (matches true r pos s).
Proof.
  induction r as [| a | a | a | r1 IH1 r2 IH2 | r IH |]; intros pos s; cbn [matches].
  - reflexivity.
  - destruct s as [|c s]; [reflexivity|]. cbn [lower]. rewrite atom_match_lower.
    now destruct (atom_match true a c).
  - rewrite star_lower, !map_map. reflexivity.
  - destruct s as [|c s]; [reflexivity|]. cbn [lower]. rewrite atom_match_lower.
    destruct (atom_match true a c); [|reflexivity].
    rewrite star_lower, !map_map. reflexivity.
  - rewrite IH1. induction (matches true r1 pos s) as [|m1 l IHl]; [reflexivity|].
    cbn [map flat_map]. rewrite map_app, IHl. f_equal.
    cbn [CaseFold.lower_found whole after group1].
    rewrite lower_length, IH2, !map_map. apply map_ext. intros m2.
    unfold CaseFold.lower_found. cbn [whole after group1]. rewrite lower_app.
    now destruct (group1 m2).
  - rewrite IH, !map_map. reflexivity.
  - now destruct (pos =? 0)%nat.
Qed.

Lemma search_from_lower (r : regex) (s : string) :
  forall pos,
    search_from true r pos (lower s)
    = option_map CaseFold.lower_found (search_from true r pos s).
Proof.
  induction s as [|c s IH]; intros pos.
  - cbn [lower search_from]. change "" with (lower "") at 1. rewrite matches_lower.
    now destruct (matches true r pos "").
  - cbn [lower search_from].
    change (String (lower_char c) (lower s)) with (lower (String c s)).
    rewrite matches_lower.
    destruct (matches true r pos (String c s)); [|reflexivity].
    cbn [map]. apply IH.
Qed.

Lemma search_lower (p text : string) :
  search p (lower text) IGNORECASE
  = match search p text IGNORECASE with
    | inl e => inl e
    | inr found => inr (option_map CaseFold.lower_found found)
    end.
Proof.
  unfold search. destruct (compile p) as [e | r]; [reflexivity|].
  cbn [Py.bind ret ignorecase_of]. now rewrite search_from_lower.
Qed.

(** None of the four patterns is found in a text without digit. *)
Lemma no_digit_no_match (p text : string) :
  In p confidence_patterns ->
  all_chars (fun c => negb (isdecimal c)) text = true ->
  search p text IGNORECASE = inr None.
Proof.
  intros Hp Ht. destruct (confidence_patterns_compile p Hp) as [r [Hc Hn]].
  rewrite (search_compiled p r text IGNORECASE Hc). cbn [ignorecase_of].
  destruct (search_from true r 0 text) as [m|] eqn:E; [exfalso | reflexivity].
  destruct (search_numeric true r text m Hn E) as [g [Hg [Hne Hd]]].
  pose proof (search_from_all_chars _ true r text 0 m g Ht E Hg) as Hnd.
  destruct g as [|c g]; [now apply Hne|].
  cbn [all_chars] in Hd, Hnd.
  apply andb_true_iff in Hd as [Hd _]. apply andb_true_iff in Hnd as [Hnd _].
  rewrite Hd in Hnd. discriminate.
Qed.

Lemma no_digit_no_score (text : string) (r : AnalysisResult) :
  all_chars (fun c => negb (isdecimal c)) text = true ->
  parse_try (VStr text) = inr r ->
  confidence_score r = None.
Proof.
  intros Ht Hr. destruct (parse_str text) as [c [Htry Hc]].
  assert (E : confidence_score r = c) by (rewrite Htry in Hr; now injection Hr as <-).
  rewrite E.
  destruct Hc as [[-> _] | [pre [p [post [m [g [Heq [_ [Hp _]]]]]]]]]; [reflexivity|].
  rewrite (no_digit_no_match p text) in Hp; [discriminate | | exact Ht].
  rewrite Heq. apply in_or_app. right. now left.
Qed.

(** The score of the lower-cased text is the score of the text. *)
Lemma score_of_lower (text : string) (r r' : AnalysisResult) :
  parse_try (VStr text) = inr r ->
  parse_try (VStr (lower text)) = inr r' ->
  confidence_score r' = confidence_score r.
Proof.
  intros Hr Hr'. destruct (parse_str text) as [c [Htry Hc]].
  assert (E : confidence_score r = c) by (rewrite Htry in Hr; now injection Hr as <-).
  rewrite E. clear E Htry Hr.
  destruct Hc as [[-> Hnone] | [pre [p [post [m [g [Heq [Hpre [Hp [Hg [[Hne Hd] ->]]]]]]]]]]].
  - destruct (parse_str (lower text)) as [c' [Htry' Hc']].
    assert (E : confidence_score r' = c') by (rewrite Htry' in Hr'; now injection Hr' as <-).
    rewrite E.
    destruct Hc' as [[-> _] | [pre [p [post [m [g [Heq [_ [Hp _]]]]]]]]]; [reflexivity|].
    rewrite search_lower, Hnone in Hp; [discriminate|].
    rewrite Heq. apply in_or_app. right. now left.
  - assert (Hpre' : forall q, In q pre -> search q (lower text) IGNORECASE = inr None).
    { intros q Hq. now rewrite search_lower, (Hpre q Hq). }
    assert (Hp' : search p (lower text) IGNORECASE = inr (Some (CaseFold.lower_found m))).
    { now rewrite search_lower, Hp. }
    destruct (parse_first_found (lower text) pre p post _ Heq Hpre' Hp')
      as [g' [Hg' [_ Htry']]].
    unfold group in Hg, Hg'. cbn [CaseFold.lower_found group1] in Hg'.
    rewrite Hg in Hg'. cbn [option_map] in Hg'. injection Hg' as <-.
    rewrite (lower_decimal g Hd) in Htry'.
    rewrite Htry' in Hr'. now injection Hr' as <-.
Qed.

End ParserFacts.

(** ** Further properties of the code *)

Import ParserFacts.

(** X1.  [process_chat_message] raises what the chat model raises, and
    otherwise returns the answer of the model with the conversation id
    ["default"] and the suggestions of the message as the caller gave it:
    the Kannada directive that is put before the message is never seen in
    the suggestions. *)
Theorem chat_answer_and_suggestions
  (self : Self) (message : string) (history : list ChatMessage) (language : option string) :
  process_chat_message self message history language
  = match chat_model self
            (messages (process_chat_message_context self message history language)) with
    | inl e => inl e
    | inr answer => inr (mkChatResult answer "default" (_get_suggested_actions message))
    end.
Proof.
  unfold process_chat_message, try_except. cbv zeta.
  destruct (chat_model self
              (messages (process_chat_message_context self message history language)))
    as [e | answer]; [reflexivity|].
  cbn [Py.bind ret]. rewrite context_message.
  destruct (String.eqb (language_or_default language) "kn"); [|reflexivity].
  now rewrite suggestions_ignore_directive.
Qed.

(** X2.  [analyze_crop_image] never raises.  When the image cannot be
    saved or the model call fails, it returns the fallback result, with the
    text of the exception in the analysis, score 0 and three fixed actions.
    When the model answers, it returns what [_parse_image_analysis] makes of
    the answer, whose analysis is the answer itself.  In every case there
    are at most 5 actions and at most 3 remedies.  The image is resized
    only when a side is over 1024. *)
Theorem analyze_crop_image_always_answers
  (Image : Type) (size : Image -> nat * nat) (thumbnail : Image -> nat * nat -> Image)
  (save_jpeg : Image -> nat -> M string) (b64encode : string -> string)
  (ainvoke : list CropImage.VisionMessage -> M value) (str_of_exception : exn -> string)
  (self : Self) (image : Image) (query language : string) :
  exists r,
    CropImage.analyze_crop_image Image size thumbnail save_jpeg b64encode ainvoke
      str_of_exception self image query language = inr r
    /\ List.length (recommended_actions r) <= 5
    /\ List.length (local_remedies r) <= 3
    /\ match save_jpeg (if ((1024 <? fst (size image)) || (1024 <? snd (size image)))%nat
                        then thumbnail image (1024, 1024) else image) 85 with
       | inl e => r = CropImage.fallback_result (str_of_exception e)
       | inr data =>
           match ainvoke (CropImage.analysis_messages self
                            (CropImage.analysis_prompt self query language)
                            (b64encode data)) with
           | inl e => r = CropImage.fallback_result (str_of_exception e)
           | inr content => _parse_image_analysis content = inr r /\ analysis r = content
           end
       end.
Proof.
  unfold CropImage.analyze_crop_image, CropImage.optimized, try_except. cbv zeta.
  destruct (save_jpeg _ 85) as [e | data].
  - eexists. split; [reflexivity|]. cbn. repeat split; lia.
  - cbn [Py.bind].
    destruct (ainvoke _) as [e | content].
    + eexists. split; [reflexivity|]. cbn. repeat split; lia.
    + cbn [Py.bind]. destruct (parse_total content) as [r [Hr [Ha [H5 H3]]]].
      exists r. rewrite Hr. cbn [Py.bind ret]. now repeat split.
Qed.

(** X3.  Every recommended action and every local remedy is a line of the
    answer with the whitespace around it removed: it is not empty, it
    starts with no whitespace and ends with none. *)
Theorem actions_and_remedies_are_stripped_lines
  (text : string) (r : AnalysisResult) (s : string) :
  _parse_image_analysis (VStr text) = inr r ->
  In s (recommended_actions r) \/ In s (local_remedies r) ->
  s <> ""
  /\ strip s = s
  /\ lstrip s = s
  /\ ends_with isspace s = false
  /\ exists line, In line (split newline text) /\ s = strip line.
Proof.
  intros Hr Hin. destruct (parse_str_fields text r Hr) as [_ [_ [Ha Hm]]].
  rewrite Ha, Hm in Hin.
  assert (H : exists c, c <> ignored /\ In s (collected c text)).
  { destruct Hin as [Hin | Hin]; apply in_slice_to in Hin;
      [exists action | exists remedy]; (split; [discriminate | exact Hin]). }
  destruct H as [c [Hc Hcol]]. apply in_collected in Hcol as [[line [Hline ->]] Hcat].
  apply is_category_classify in Hcat.
  destruct (strip_edges line) as [Hl He].
  split; [|split; [apply strip_idem | split; [exact Hl | split; [exact He|]]]].
  - intros E. rewrite E, classify_empty in Hcat. now apply Hc.
  - now exists line.
Qed.

Lemma actions_and_remedies_are_stripped_lines_witness :
  "Remove the affected leaves" <> ""
  /\ strip "Remove the affected leaves" = "Remove the affected leaves"
  /\ lstrip "Remove the affected leaves" = "Remove the affected leaves"
  /\ ends_with isspace "Remove the affected leaves" = false
  /\ exists line,
       In line (split newline "Leaf blight.
   Remove the affected leaves  ")
       /\ "Remove the affected leaves" = strip line.
Proof.
  apply (actions_and_remedies_are_stripped_lines
           "Leaf blight.
   Remove the affected leaves  "
           (mkAnalysisResult (VStr "Leaf blight.
   Remove the affected leaves  ")
              (Some "Blight") None ["Remove the affected leaves"] [])).
  - vm_compute. reflexivity.
  - left. now left.
Defined.

(** X4.  An ASCII text without a digit gets no confidence score.  (Past
    ASCII the digits of [re] and [float] are all the decimal digits of
    Unicode, which a text of bytes does not tell apart.) *)
Theorem no_digit_no_confidence_score (text : string) (r : AnalysisResult) :
  isascii text = true ->
  all_chars (fun c => negb (isdecimal c)) text = true ->
  _parse_image_analysis (VStr text) = inr r ->
  confidence_score r = None.
Proof.
  intros _ Ht Hr. apply parse_str_from_try in Hr. now apply (no_digit_no_score text).
Qed.

Lemma no_digit_no_confidence_score_witness :
  confidence_score
    (mkAnalysisResult (VStr "High confidence: ninety percent") None None [] [])
  = None.
Proof.
  apply (no_digit_no_confidence_score "High confidence: ninety percent").
  - reflexivity.
  - reflexivity.
  - vm_compute. reflexivity.
Defined.

(** X5.  A blank answer, empty or made of whitespace only, gives the
    result with no disease, no score, no actions and no remedies. *)
Theorem blank_answer_gives_defaults (text : string) :
  all_chars isspace text = true ->
  _parse_image_analysis (VStr text)
  = inr (mkAnalysisResult (VStr text) None None [] []).
Proof.
  intros Ht. destruct (parse_str text) as [c [Htry _]].
  assert (Hc : c = None).
  { apply (no_digit_no_score text _) in Htry as Hs; [exact Hs|].
    apply (all_chars_impl isspace); [apply space_not_decimal | exact Ht]. }
  apply parse_completes. rewrite Htry, Hc.
  rewrite !collected_blank by (assumption || discriminate).
  rewrite find_absent; [reflexivity|].
  intros d Hd. destruct (contains d (lower text)) eqn:E; [exfalso | reflexivity].
  apply (contains_all_chars isspace) in E; [|now rewrite all_chars_lower_space].
  unfold diseases in Hd. cbn [In] in Hd.
  repeat (destruct Hd as [<- | Hd]; [discriminate E|]). exact Hd.
Qed.

Lemma blank_answer_gives_defaults_witness :
  _parse_image_analysis (VStr "  
   ")
  = inr (mkAnalysisResult (VStr "  
   ") None None [] []).
Proof.
  apply (blank_answer_gives_defaults "  
   ").
  reflexivity.
Defined.

(** X6.  On ASCII text the disease label and the confidence score do not
    depend on the letter case of the answer: two ASCII texts with the same
    lower-case form get the same label and the same score.  (Past ASCII
    [str.lower] and [re.IGNORECASE] fold letters that a text of bytes does
    not tell apart, and they do not fold the same ones.) *)
Theorem letter_case_changes_neither_disease_nor_score
  (text1 text2 : string) (r1 r2 : AnalysisResult) :
  isascii text1 = true ->
  isascii text2 = true ->
  lower text1 = lower text2 ->
  _parse_image_analysis (VStr text1) = inr r1 ->
  _parse_image_analysis (VStr text2) = inr r2 ->
  disease_detected r1 = disease_detected r2
  /\ confidence_score r1 = confidence_score r2.
Proof.
  intros _ _ Hl H1 H2.
  destruct (parse_str_fields text1 r1 H1) as [_ [Hd1 _]].
  destruct (parse_str_fields text2 r2 H2) as [_ [Hd2 _]].
  split; [now rewrite Hd1, Hd2, Hl|].
  apply parse_str_from_try in H1. apply parse_str_from_try in H2.
  destruct (parse_str (lower text1)) as [c [Hlow _]].
  rewrite <- (score_of_lower text1 r1 _ H1 Hlow).
  rewrite Hl in Hlow.
  now rewrite <- (score_of_lower text2 r2 _ H2 Hlow).
Qed.

Lemma letter_case_changes_neither_disease_nor_score_witness :
  disease_detected
    (mkAnalysisResult (VStr "LEAF RUST, CONFIDENCE: 75%") (Some "Rust")
       (Some (S754_finite false 6755399441055744 (-53))) [] [])
  = disease_detected
      (mkAnalysisResult (VStr "Leaf rust, confidence: 75%") (Some "Rust")
         (Some (S754_finite false 6755399441055744 (-53))) [] [])
  /\ confidence_score
       (mkAnalysisResult (VStr "LEAF RUST, CONFIDENCE: 75%") (Some "Rust")
          (Some (S754_finite false 6755399441055744 (-53))) [] [])
     = confidence_score
         (mkAnalysisResult (VStr "Leaf rust, confidence: 75%") (Some "Rust")
            (Some (S754_finite false 6755399441055744 (-53))) [] []).
Proof.
  apply (letter_case_changes_neither_disease_nor_score
           "LEAF RUST, CONFIDENCE: 75%" "Leaf rust, confidence: 75%").
  - reflexivity.
  - reflexivity.
  - reflexivity.
  - vm_compute. reflexivity.
  - vm_compute. reflexivity.
Defined.


(** ** Facts on the scheme search *)

Module SchemesFacts.
Import Py PyStr PyStrFacts ParserFacts Schemes.
Local Open Scope string_scope.

Lemma text_loop_filter (database : list GovernmentScheme) (query_lower : string)
  (category : option string) :
  forall matching,
    text_loop database query_lower category matching
    = (matching ++ filter (text_match query_lower category) database)%list.
Proof.
  induction database as [|scheme database IH]; intros matching; cbn [text_loop filter].
  - now rewrite app_nil_r.
  - cbv zeta. unfold text_match at 1.
    destruct (truthy category && differs (Schemes.category scheme) category);
      cbn [negb andb]; [apply IH|].
    destruct (any _ (split_whitespace query_lower)); [|apply IH].
    rewrite IH, <- app_assoc. reflexivity.
Qed.

Lemma category_loop_filter (database : list GovernmentScheme) (categories : list string) :
  forall matching,
    category_loop database categories matching
    = (matching
       ++ filter (fun scheme => member (category scheme) categories) database)%list.
Proof.
  induction database as [|scheme database IH]; intros matching; cbn [category_loop filter].
  - now rewrite app_nil_r.
  - destruct (member (category scheme) categories); [|apply IH].
    rewrite IH, <- app_assoc. reflexivity.
Qed.

Lemma keyword_loop_find (mapping : list (string * list string))
  (database : list GovernmentScheme) (query_lower : string) :
  keyword_loop mapping database query_lower []
  = match find (fun entry => contains (fst entry) query_lower) mapping with
    | Some (_, categories) =>
        filter (fun scheme => member (category scheme) categories) database
    | None => []
    end.
Proof.
  induction mapping as [|[keyword categories] mapping IH]; [reflexivity|].
  cbn [keyword_loop find fst]. destruct (contains keyword query_lower); [|exact IH].
  now rewrite category_loop_filter.
Qed.

(** The search, as two filters of the database. *)
Lemma search_schemes_filters (database : list GovernmentScheme)
  (query state : string) (category : option string) :
  search_schemes database query state category
  = let found :=
      match filter (text_match (lower query) category) database with
      | [] => fallback_schemes database (lower query)
      | scheme :: rest => scheme :: rest
      end in
    mkSearchResult (slice_to 5 found) (List.length found) suggestions.
Proof.
  unfold search_schemes. cbv zeta. rewrite text_loop_filter. cbn [app].
  destruct (filter (text_match (lower query) category) database); [|reflexivity].
  now rewrite keyword_loop_find.
Qed.

Lemma filter_length_le {A : Type} (f : A -> bool) (l : list A) :
  List.length (filter f l) <= List.length l.
Proof.
  induction l as [|x l IH]; [apply Nat.le_refl|]. cbn [filter].
  destruct (f x); cbn [List.length]; lia.
Qed.

Lemma split_from_blank (s : string) :
  all_chars isspace s = true -> split_from "" s = [].
Proof.
  induction s as [|c s IH]; [reflexivity|]. cbn [all_chars split_from].
  intros H. apply andb_true_iff in H as [Hc Hs]. rewrite Hc. now apply IH.
Qed.

Lemma fallback_blank (database : list GovernmentScheme) (query_lower : string) :
  all_chars isspace query_lower = true -> fallback_schemes database query_lower = [].
Proof.
  intros Hq. unfold fallback_schemes. rewrite ServiceFacts.find_absent; [reflexivity|].
  intros [keyword categories] Hin. cbn [fst].
  destruct (contains keyword query_lower) eqn:E; [exfalso | reflexivity].
  apply (contains_all_chars isspace _ _ Hq) in E.
  unfold keyword_mapping in Hin. cbn [In] in Hin.
  repeat (destruct Hin as [Hin | Hin]; [injection Hin as <- _; discriminate E|]).
  exact Hin.
Qed.

Lemma details_loop_found (database : list GovernmentScheme) (scheme : GovernmentScheme)
  (scheme_name : string) :
  NoDup (map (fun s => lower (name s)) database) ->
  In scheme database ->
  lower scheme_name = lower (name scheme) ->
  details_loop database scheme_name = inr scheme.
Proof.
  intros Hnd Hin Hname. induction database as [|s0 database IH]; [contradiction|].
  cbn [details_loop]. cbn [map] in Hnd. inversion Hnd as [|x l Hnotin Hnd' Hx]; subst.
  destruct Hin as [-> | Hin].
  - now rewrite Hname, String.eqb_refl.
  - destruct (String.eqb (lower (name s0)) (lower scheme_name)) eqn:E.
    + exfalso. apply Hnotin. apply String.eqb_eq in E. rewrite E, Hname.
      apply in_map_iff. now exists scheme.
    + now apply IH.
Qed.

Lemma details_loop_missing (database : list GovernmentScheme) (scheme_name : string) :
  (forall s, In s database -> lower (name s) <> lower scheme_name) ->
  details_loop database scheme_name = inl (Http.HTTPException 404 "Scheme not found").
Proof.
  intros Hnone. induction database as [|s0 database IH]; [reflexivity|].
  cbn [details_loop].
  destruct (String.eqb (lower (name s0)) (lower scheme_name)) eqn:E.
  - apply String.eqb_eq in E. exfalso. now apply (Hnone s0 (or_introl eq_refl)).
  - apply IH. intros s Hs. apply Hnone. now right.
Qed.

End SchemesFacts.

Import SchemesFacts.

(** X7.  What [search_schemes] finds.  The schemes found by text are the
    schemes of the database, in its order, that are of the asked category,
    when one is asked, and whose name, description or benefits hold a word
    of the lower-cased query.  When there is none, the schemes found are
    those of the fallback: the schemes whose category goes with the first
    keyword of the mapping that the lower-cased query holds.  The result
    carries the first five schemes found, and [total_found] counts all of
    them, so it can be more than the number of schemes returned: it is 10
    against 5 on a database of twice the shipped schemes. *)
Theorem search_returns_first_five_matches
  (database : list Schemes.GovernmentScheme) (query state : string)
  (category : option string) :
  let result := Schemes.search_schemes database query state category in
  let by_text := filter (Schemes.text_match (lower query) category) database in
  let found :=
    match by_text with
    | [] => Schemes.fallback_schemes database (lower query)
    | _ :: _ => by_text
    end in
  Schemes.schemes result = firstn 5 found
  /\ Schemes.total_found result = List.length found
  /\ (forall scheme,
         In scheme by_text <->
         In scheme database
         /\ (category = None \/ category = Some ""
             \/ category = Some (Schemes.category scheme))
         /\ exists word,
              In word (Schemes.split_whitespace (lower query))
              /\ contains word (Schemes.searchable_text scheme) = true)
  /\ (forall scheme,
         In scheme (Schemes.fallback_schemes database (lower query)) <->
         In scheme database
         /\ exists keyword categories,
              find (fun entry => contains (fst entry) (lower query)) Schemes.keyword_mapping
              = Some (keyword, categories)
              /\ In (Schemes.category scheme) categories)
  /\ List.length (Schemes.schemes result) = Nat.min 5 (Schemes.total_found result)
  /\ Schemes.total_found result <= List.length database
  /\ (forall scheme, In scheme (Schemes.schemes result) -> In scheme database)
  /\ (let twice := (Schemes.schemes_database ++ Schemes.schemes_database)%list in
      Schemes.schemes (Schemes.search_schemes twice "a" "Karnataka" None)
      = Schemes.schemes_database
      /\ Schemes.total_found (Schemes.search_schemes twice "a" "Karnataka" None) = 10)
  /\ map Schemes.name
       (Schemes.schemes
          (Schemes.search_schemes Schemes.schemes_database "FARMERS" "Karnataka"
             (Some "subsidy")))
     = ["PM-KISAN Samman Nidhi"; "Micro Irrigation Subsidy"].
Proof.
  cbv zeta. rewrite search_schemes_filters. cbv zeta.
  cbn [Schemes.schemes Schemes.total_found]. unfold slice_to.
  set (by_text := filter (Schemes.text_match (lower query) category) database).
  set (found := match by_text with
                | [] => Schemes.fallback_schemes database (lower query)
                | scheme :: rest => scheme :: rest
                end).
  assert (Hfall : forall scheme,
             In scheme (Schemes.fallback_schemes database (lower query)) <->
             In scheme database
             /\ exists keyword categories,
                  find (fun entry => contains (fst entry) (lower query))
                       Schemes.keyword_mapping
                  = Some (keyword, categories)
                  /\ In (Schemes.category scheme) categories).
  { intros scheme. unfold Schemes.fallback_schemes.
    destruct (find _ Schemes.keyword_mapping) as [[keyword categories]|].
    - rewrite filter_In. unfold Schemes.member. rewrite existsb_exists. split.
      + intros [Hin [c [Hc Heq]]]. apply String.eqb_eq in Heq. subst c.
        split; [exact Hin|]. now exists keyword, categories.
      + intros [Hin [k [cs [E Hc]]]]. injection E as <- <-.
        split; [exact Hin|]. exists (Schemes.category scheme).
        split; [exact Hc | apply String.eqb_refl].
    - split; [intros [] | intros [_ [k [cs [E _]]]]; discriminate E]. }
  assert (Hsub : forall scheme, In scheme found -> In scheme database).
  { intros scheme. subst found. destruct by_text as [|s0 rest] eqn:E.
    - intros H. now apply Hfall in H.
    - rewrite <- E. subst by_text. intros H. now apply filter_In in H. }
  assert (Hlen : List.length found <= List.length database).
  { subst found. destruct by_text as [|s0 rest] eqn:E.
    - unfold Schemes.fallback_schemes.
      destruct (find _ Schemes.keyword_mapping) as [[keyword categories]|];
        [apply filter_length_le | apply Nat.le_0_l].
    - rewrite <- E. apply filter_length_le. }
  assert (Hfound : match by_text with
                    | [] => Schemes.fallback_schemes database (lower query)
                    | _ :: _ => by_text
                    end = found) by (subst found; now destruct by_text).
  rewrite Hfound.
  split; [reflexivity|]. split; [reflexivity|]. split; [|split; [exact Hfall|]].
  - intros scheme. subst by_text. rewrite filter_In. unfold Schemes.text_match.
    rewrite andb_true_iff. unfold any. rewrite existsb_exists.
    assert (Hcat : negb (Schemes.truthy category
                         && Schemes.differs (Schemes.category scheme) category) = true
                   <-> category = None \/ category = Some ""
                       \/ category = Some (Schemes.category scheme)).
    { destruct category as [[|c t]|]; cbn [Schemes.truthy Schemes.differs is_empty negb andb].
      - split; [intros _; right; now left | reflexivity].
      - rewrite negb_involutive, String.eqb_eq. split.
        + intros ->. right. now right.
        + intros [H | [H | H]]; [discriminate H | discriminate H | now injection H].
      - split; [intros _; now left | reflexivity]. }
    rewrite Hcat. reflexivity.
  - split; [apply length_firstn|]. split; [exact Hlen|].
    split; [|split; [split; reflexivity | reflexivity]].
    intros scheme Hin. apply Hsub. rewrite <- (firstn_skipn 5 found).
    apply in_or_app. now left.
Qed.

(** X8.  A blank query, empty or made of whitespace only, finds nothing:
    no scheme, [total_found] 0, whatever the database and the filter. *)
Theorem blank_query_finds_nothing
  (database : list Schemes.GovernmentScheme) (query state : string)
  (category : option string) :
  all_chars isspace query = true ->
  Schemes.search_schemes database query state category
  = Schemes.mkSearchResult [] 0 Schemes.suggestions.
Proof.
  intros Hq. rewrite search_schemes_filters. cbv zeta.
  assert (Hl : all_chars isspace (lower query) = true)
    by now rewrite all_chars_lower_space.
  assert (E : filter (Schemes.text_match (lower query) category) database = []).
  { induction database as [|s0 db IH]; [reflexivity|]. cbn [filter].
    unfold Schemes.text_match at 1, Schemes.split_whitespace.
    rewrite (split_from_blank _ Hl). cbn [any existsb]. rewrite andb_false_r. exact IH. }
  rewrite E, (fallback_blank database _ Hl). reflexivity.
Qed.

Lemma blank_query_finds_nothing_witness :
  Schemes.search_schemes Schemes.schemes_database "   " "Karnataka" (Some "loan")
  = Schemes.mkSearchResult [] 0 Schemes.suggestions.
Proof.
  apply (blank_query_finds_nothing Schemes.schemes_database "   " "Karnataka" (Some "loan")).
  reflexivity.
Defined.

(** X9.  The category filter works in the text search only.  When a scheme
    of the asked category holds a word of the query, every scheme returned
    is of that category.  When none does, the result is the keyword
    fallback, which does not look at the asked category: on the shipped
    database the query ["tractor loan"] under the category ["insurance"]
    returns the Kisan Credit Card, a scheme of category ["loan"]. *)
Theorem category_filter_only_in_text_search :
  (forall database query state asked,
      asked <> "" ->
      (exists scheme word,
          In scheme database /\ Schemes.category scheme = asked
          /\ In word (Schemes.split_whitespace (lower query))
          /\ contains word (Schemes.searchable_text scheme) = true) ->
      forall scheme,
        In scheme (Schemes.schemes
                     (Schemes.search_schemes database query state (Some asked))) ->
        Schemes.category scheme = asked)
  /\ (forall database query state asked,
         asked <> "" ->
         (forall scheme word,
             In scheme database -> Schemes.category scheme = asked ->
             In word (Schemes.split_whitespace (lower query)) ->
             contains word (Schemes.searchable_text scheme) = false) ->
         Schemes.search_schemes database query state (Some asked)
         = Schemes.mkSearchResult
             (firstn 5 (Schemes.fallback_schemes database (lower query)))
             (List.length (Schemes.fallback_schemes database (lower query)))
             Schemes.suggestions)
  /\ (exists scheme,
         Schemes.schemes
           (Schemes.search_schemes Schemes.schemes_database "tractor loan" "Karnataka"
              (Some "insurance"))
         = [scheme]
         /\ Schemes.name scheme = "Kisan Credit Card (KCC)"
         /\ Schemes.category scheme = "loan").
Proof.
  assert (Hpass : forall asked scheme,
             asked <> "" ->
             negb (Schemes.truthy (Some asked)
                   && Schemes.differs (Schemes.category scheme) (Some asked)) = true
             <-> Schemes.category scheme = asked).
  { intros asked scheme Hne. unfold Schemes.truthy, Schemes.differs.
    destruct asked as [|c t]; [now elim Hne|]. cbn [is_empty negb andb].
    rewrite negb_involutive. apply String.eqb_eq. }
  split; [|split].
  - intros database query state asked Hne [s0 [word [Hin [Hcat [Hword Hc]]]]] scheme Hs.
    rewrite search_schemes_filters in Hs. cbv zeta in Hs.
    destruct (filter (Schemes.text_match (lower query) (Some asked)) database)
      as [|s1 rest] eqn:E.
    + exfalso. assert (Hm : In s0 (filter (Schemes.text_match (lower query) (Some asked))
                                      database)).
      { apply filter_In. split; [exact Hin|]. unfold Schemes.text_match.
        apply andb_true_iff. split; [now apply Hpass|].
        apply existsb_exists. now exists word. }
      now rewrite E in Hm.
    + cbn [Schemes.schemes] in Hs. apply ServiceFacts.in_slice_to in Hs.
      rewrite <- E in Hs. apply filter_In in Hs as [_ Hs].
      unfold Schemes.text_match in Hs. apply andb_true_iff in Hs as [Hs _].
      now apply Hpass in Hs.
  - intros database query state asked Hne Hnone.
    rewrite search_schemes_filters. cbv zeta.
    assert (E : filter (Schemes.text_match (lower query) (Some asked)) database = []).
    { assert (Hall : forall s, In s database ->
                               Schemes.text_match (lower query) (Some asked) s = false).
      { intros s Hs. unfold Schemes.text_match.
        destruct (negb (Schemes.truthy (Some asked)
                        && Schemes.differs (Schemes.category s) (Some asked))) eqn:Ec;
          [|reflexivity].
        apply Hpass in Ec; [|exact Hne]. cbn [andb].
        destruct (any _ (Schemes.split_whitespace (lower query))) eqn:Ea; [|reflexivity].
        apply existsb_exists in Ea as [word [Hw Hc]].
        now rewrite (Hnone s word Hs Ec Hw) in Hc. }
      clear Hnone. induction database as [|s0 db IH]; [reflexivity|]. cbn [filter].
      rewrite (Hall s0 (or_introl eq_refl)). apply IH. intros s Hs. apply Hall. now right. }
    now rewrite E.
  - eexists. split; [vm_compute; reflexivity|]. split; reflexivity.
Qed.

Lemma category_filter_only_in_text_search_witness :
  Schemes.category
    (nth 1 Schemes.schemes_database (Schemes.mkScheme "" "" "" [] [] [] [] None None []))
  = "insurance".
Proof.
  destruct category_filter_only_in_text_search as [Hfilter _].
  apply (Hfilter Schemes.schemes_database "Crop Insurance" "Karnataka" "insurance").
  - discriminate.
  - exists (nth 1 Schemes.schemes_database (Schemes.mkScheme "" "" "" [] [] [] [] None None [])).
    exists "insurance". split; [right; now left|]. split; [reflexivity|].
    split; [right; now left | reflexivity].
  - vm_compute. left. reflexivity.
Defined.

(** X10.  In a database where no two schemes have the same name up to
    letter case, as in the shipped one, [get_scheme_details] returns the
    scheme whose name is the asked name up to letter case.  When no scheme
    has that name the route raises the HTTP error 404, never 500. *)
Theorem scheme_details_by_name :
  (forall database scheme scheme_name,
      NoDup (map (fun s => lower (Schemes.name s)) database) ->
      In scheme database ->
      lower scheme_name = lower (Schemes.name scheme) ->
      Schemes.get_scheme_details database scheme_name = inr scheme)
  /\ (forall database scheme_name,
         (forall s, In s database -> lower (Schemes.name s) <> lower scheme_name) ->
         Schemes.get_scheme_details database scheme_name
         = inl (Http.HTTPException 404 "Scheme not found"))
  /\ NoDup (map (fun s => lower (Schemes.name s)) Schemes.schemes_database).
Proof.
  split; [|split].
  - intros database scheme scheme_name Hnd Hin Hname. unfold Schemes.get_scheme_details.
    now rewrite (details_loop_found database scheme scheme_name Hnd Hin Hname).
  - intros database scheme_name Hnone. unfold Schemes.get_scheme_details.
    now rewrite (details_loop_missing database scheme_name Hnone).
  - cbn. repeat constructor; cbn; intuition discriminate.
Qed.

Lemma scheme_details_by_name_witness :
  Schemes.get_scheme_details Schemes.schemes_database "SOIL HEALTH CARD SCHEME"
  = inr (nth 3 Schemes.schemes_database (Schemes.mkScheme "" "" "" [] [] [] [] None None [])).
Proof.
  destruct scheme_details_by_name as [Hfound [_ Hnodup]].
  apply Hfound.
  - exact Hnodup.
  - cbn. tauto.
  - reflexivity.
Defined.


(** ** Facts on the market service *)

Module MarketFacts.
Import Market.
Local Open Scope string_scope.

Section WithCollaborators.

Variable rng : Type.
Variable uniform : Q -> Q -> rng -> Q * rng.
Variable choice : list string -> rng -> string * rng.
Variable round_ : Q -> nat -> Q.
Variable today : string.
Variable shifted_day : Z -> exn + string.
Variable str_of_int : Z -> string.
Variable str_of_float : Q -> string.

Lemma historical_loop_length (base_price : Q) (days : Z) (count : nat) :
  forall i acc g l g',
    historical_loop rng uniform round_ shifted_day base_price days count i acc g
    = (inr l, g') ->
    List.length l = List.length acc + count.
Proof.
  induction count as [|count IH]; intros i acc g l g'; cbn [historical_loop].
  - unfold ret. intros H. injection H as <- _. now rewrite Nat.add_0_r.
  - unfold bind at 1, lift. destruct (shifted_day (- (days - i))) as [e | d]; [discriminate|].
    unfold bind at 1, draw. intros H. apply IH in H.
    rewrite H, length_app. cbn [List.length]. lia.
Qed.

Lemma historical_loop_returns (base_price : Q) (days : Z) (count : nat) :
  (forall d, exists s, shifted_day d = inr s) ->
  forall i acc g,
    exists l g',
      historical_loop rng uniform round_ shifted_day base_price days count i acc g
      = (inr l, g').
Proof.
  intros Hdays. induction count as [|count IH]; intros i acc g; cbn [historical_loop].
  - now exists acc, g.
  - unfold bind at 1, lift. destruct (Hdays (- (days - i))%Z) as [d ->].
    unfold bind at 1, draw. apply IH.
Qed.

Lemma forecast_loop_length (base_price : Q) (indices : list Z) :
  forall acc g l g',
    forecast_loop rng uniform round_ shifted_day base_price indices acc g = (inr l, g') ->
    List.length l = List.length acc + List.length indices.
Proof.
  induction indices as [|i indices IH]; intros acc g l g'; cbn [forecast_loop].
  - unfold ret. intros H. injection H as <- _. cbn. lia.
  - unfold bind at 1, lift. destruct (shifted_day i) as [e | d]; [discriminate|].
    unfold bind at 1, draw. unfold bind at 1, draw. intros H. apply IH in H.
    rewrite H, length_app. cbn [List.length]. lia.
Qed.

Lemma forecast_loop_returns (base_price : Q) (indices : list Z) :
  (forall i, In i indices -> exists s, shifted_day i = inr s) ->
  forall acc g,
    exists l g',
      forecast_loop rng uniform round_ shifted_day base_price indices acc g = (inr l, g').
Proof.
  induction indices as [|i indices IH]; intros Hdays acc g; cbn [forecast_loop].
  - now exists acc, g.
  - unfold bind at 1, lift. destruct (Hdays i (or_introl eq_refl)) as [d ->].
    unfold bind at 1, draw. unfold bind at 1, draw.
    apply IH. intros j Hj. apply Hdays. now right.
Qed.

(** With no day to look back on, the average has nothing to divide by. *)
Lemma trends_without_days (table : list (string * PriceData)) (crop_name : string)
  (days : Z) (g : rng) :
  (days <= 0)%Z ->
  exists e g',
    get_market_trends rng uniform round_ shifted_day str_of_int str_of_float
      table crop_name days g = (inl e, g')
    /\ ((forall i, In i [1; 2; 3]%Z -> exists s, shifted_day i = inr s) ->
        e = ZeroDivisionError).
Proof.
  intros Hdays. unfold get_market_trends. cbv zeta.
  replace (Z.to_nat days) with 0 by lia. cbn [historical_loop].
  unfold bind at 1, ret at 1.
  set (base := match lookup table (PyStr.lower crop_name) with
               | Some data => data_current_price data
               | None => 25.0%Q
               end).
  unfold bind at 1.
  destruct (forecast_loop rng uniform round_ shifted_day base [1; 2; 3]%Z [] g)
    as [[e | l] g1] eqn:E.
  - exists e, g1. split; [reflexivity|]. intros Hok.
    destruct (forecast_loop_returns base [1; 2; 3]%Z Hok [] g) as [l [g2 Hl]].
    rewrite Hl in E. discriminate.
  - exists ZeroDivisionError, g1. split; [reflexivity | trivial].
Qed.

Lemma trends_with_days (table : list (string * PriceData)) (crop_name : string)
  (days : Z) (g : rng) :
  (0 < days)%Z ->
  (forall d, exists s, shifted_day d = inr s) ->
  exists t g',
    get_market_trends rng uniform round_ shifted_day str_of_int str_of_float
      table crop_name days g = (inr t, g')
    /\ List.length (historical_prices t) = Z.to_nat days
    /\ List.length (forecast t) = 3
    /\ trends_crop_name t = crop_name.
Proof.
  intros Hdays Hok. unfold get_market_trends. cbv zeta.
  set (base := match lookup table (PyStr.lower crop_name) with
               | Some data => data_current_price data
               | None => 25.0%Q
               end).
  destruct (historical_loop_returns base days (Z.to_nat days) Hok 0%Z [] g)
    as [h [g1 Hh]].
  pose proof (historical_loop_length base days (Z.to_nat days) _ _ _ _ _ Hh) as Hlen.
  cbn [List.length Nat.add] in Hlen.
  destruct (forecast_loop_returns base [1; 2; 3]%Z (fun i _ => Hok i) [] g1)
    as [f [g2 Hf]].
  pose proof (forecast_loop_length base [1; 2; 3]%Z _ _ _ _ Hf) as Hflen.
  cbn [List.length Nat.add] in Hflen.
  unfold bind at 1. rewrite Hh. unfold bind at 1. rewrite Hf.
  unfold bind at 1, lift, average.
  destruct (List.length h =? 0)%nat eqn:E; [apply Nat.eqb_eq in E; lia|].
  eexists. exists g2. unfold ret. split; [reflexivity|].
  cbn [historical_prices forecast trends_crop_name]. now repeat split.
Qed.

End WithCollaborators.

End MarketFacts.

(** X11.  [get_market_trends] needs a positive number of days.  With
    [days] zero or negative it never returns: it raises, and when the three
    forecast dates can be formed what it raises is the division by zero of
    the average, which the route reports as the HTTP error 500.  With
    [days] positive, and every date in range, it returns exactly [days]
    historical prices and 3 forecast entries for the crop as named. *)
Theorem trends_need_positive_days
  (rng : Type) (uniform : Q -> Q -> rng -> Q * rng) (round_ : Q -> nat -> Q)
  (shifted_day : Z -> Market.exn + string) (str_of_int : Z -> string)
  (str_of_float : Q -> string)
  (table : list (string * Market.PriceData)) (crop_name : string) (days : Z) (g : rng) :
  ((days <= 0)%Z ->
   (exists e g',
       Market.get_market_trends rng uniform round_ shifted_day str_of_int str_of_float
         table crop_name days g = (inl e, g'))
   /\ ((forall i, In i [1; 2; 3]%Z -> exists s, shifted_day i = inr s) ->
       fst (Market.get_market_trends_route rng uniform round_ shifted_day str_of_int
              str_of_float table crop_name days g)
       = inl (Http.HTTPException 500 "Failed to fetch trend data: division by zero")))
  /\ ((0 < days)%Z ->
      (forall d, exists s, shifted_day d = inr s) ->
      exists t g',
        Market.get_market_trends rng uniform round_ shifted_day str_of_int str_of_float
          table crop_name days g = (inr t, g')
        /\ List.length (Market.historical_prices t) = Z.to_nat days
        /\ List.length (Market.forecast t) = 3
        /\ Market.trends_crop_name t = crop_name).
Proof.
  split.
  - intros Hdays.
    destruct (MarketFacts.trends_without_days rng uniform round_ shifted_day str_of_int
                str_of_float table crop_name days g Hdays) as [e [g' [He Hzero]]].
    split; [now exists e, g'|]. intros Hok.
    unfold Market.get_market_trends_route, Market.as_http.
    rewrite He, (Hzero Hok). reflexivity.
  - apply MarketFacts.trends_with_days.
Qed.

Lemma trends_need_positive_days_witness :
  fst (Market.get_market_trends_route nat (fun a b g => (a, S g)) (fun x n => x)
         (fun d => inr "2025-06-01") (fun n => "0") (fun x => "25.0")
         Market.mock_prices "tomato" 0 0)
  = inl (Http.HTTPException 500 "Failed to fetch trend data: division by zero").
Proof.
  destruct (trends_need_positive_days nat (fun a b g => (a, S g)) (fun x n => x)
              (fun d => inr "2025-06-01") (fun n => "0") (fun x => "25.0")
              Market.mock_prices "tomato" 0 0) as [Hzero _].
  apply Hzero.
  - apply Z.le_refl.
  - intros i _. now exists "2025-06-01".
Defined.

(** X12.  What the selling-decision route answers.  It gives one reason,
    and advises ["hold"] or ["sell"], for the crop as named.  For a crop of
    the price table, looked up without regard to letter case, the price and
    the recommendations are those of the table entry, and the advice is
    ["hold"] exactly when the trend of the entry is ["increasing"] with a
    percentage over 5.  So an advice to hold always comes with the first
    recommendation ["Good time to sell - prices are rising"]. *)
Theorem hold_advice_for_table_crops
  (rng : Type) (uniform : Q -> Q -> rng -> Q * rng)
  (choice : list string -> rng -> string * rng) (round_ : Q -> nat -> Q)
  (today : string) (shifted_day : Z -> Market.exn + string)
  (str_of_int : Z -> string) (str_of_float : Q -> string)
  (table : list (string * Market.PriceData)) (crop_name : string)
  (location : option string) (g g' : rng) (r : Market.Decision) :
  Market.analyze_selling_decision rng uniform choice round_ today shifted_day
    str_of_int str_of_float table crop_name location g = (inr r, g') ->
  Market.decision_crop_name r = crop_name
  /\ List.length (Market.reasons r) = 1
  /\ (Market.decision r = "hold" \/ Market.decision r = "sell")
  /\ (forall data,
         Market.lookup table (lower crop_name) = Some data ->
         Market.decision_current_price r = Market.data_current_price data
         /\ Market.decision_recommendations r = Market._generate_recommendations data
         /\ (Market.decision r = "hold" <->
             Market.data_trend data = "increasing"
             /\ (5 < Market.data_trend_percentage data)%Q)
         /\ (Market.decision r = "hold" ->
             hd_error (Market.decision_recommendations r)
             = Some "Good time to sell - prices are rising")).
Proof.
  unfold Market.analyze_selling_decision, Market.as_http. unfold Market.bind at 1.
  destruct (Market.get_current_price rng uniform choice round_ today table crop_name
              location g) as [[e | p] g1] eqn:Ep; [discriminate|].
  unfold Market.bind at 1.
  destruct (Market.get_market_trends rng uniform round_ shifted_day str_of_int
              str_of_float table crop_name 7 g1) as [[e | t] g2]; [discriminate|].
  assert (Hgt : forall x, Market.gt x 5 = true <-> (5 < x)%Q).
  { intros x. unfold Market.gt. rewrite negb_true_iff, <- not_true_iff_false, Qle_bool_iff.
    split; [apply Qnot_le_lt | apply Qlt_not_le]. }
  assert (Hknown : forall data,
             Market.lookup table (lower crop_name) = Some data ->
             p = Market.mkPrice crop_name (Market.data_current_price data)
                   (Market.data_unit data) (Market.data_market data) today
                   (Market.data_trend data) (Market.data_trend_percentage data)
                   (Market._generate_recommendations data)).
  { intros data Hdata. unfold Market.get_current_price in Ep. cbv zeta in Ep.
    rewrite Hdata in Ep. unfold Market.ret in Ep. now injection Ep as <- _. }
  remember (String.eqb (Market.trend p) "increasing"
            && Market.gt (Market.trend_percentage p) 5) as rising eqn:Hrising.
  remember (String.eqb (Market.trend p) "decreasing"
            && Market.lt (Market.trend_percentage p) (-3)) as falling eqn:Hfalling.
  assert (Hhold : forall data,
             Market.lookup table (lower crop_name) = Some data ->
             rising = true <->
             Market.data_trend data = "increasing"
             /\ (5 < Market.data_trend_percentage data)%Q).
  { intros data Hdata. rewrite Hrising, (Hknown data Hdata).
    cbn [Market.trend Market.trend_percentage].
    now rewrite andb_true_iff, String.eqb_eq, Hgt. }
  clear Hrising Hfalling.
  destruct rising, falling; unfold Market.ret; intros H; injection H as <- _;
    cbn [Market.decision_crop_name Market.reasons Market.decision
           Market.decision_current_price Market.decision_recommendations
           List.length app];
    (split; [reflexivity|]); (split; [reflexivity|]);
    (split; [(now left) || (now right)|]);
    intros data Hdata; specialize (Hhold data Hdata); rewrite (Hknown data Hdata);
    cbn [Market.current_price Market.recommendations];
    (split; [reflexivity|]); (split; [reflexivity|]).
  1, 2: split; [split; [intros _; now apply Hhold | reflexivity]|];
        intros _; destruct Hhold as [Hhold _]; destruct (Hhold eq_refl) as [Ht _];
        unfold Market._generate_recommendations; now rewrite Ht.
  1, 2: split; [|discriminate]; split; [discriminate|];
        intros Hd; apply Hhold in Hd; discriminate.
Qed.

Lemma hold_advice_for_table_crops_witness :
  hd_error (Market._generate_recommendations
              (Market.mkPriceData 25.50 "per kg" "increasing" 12.5 "Bangalore APMC"))
  = Some "Good time to sell - prices are rising".
Proof.
  destruct (hold_advice_for_table_crops nat (fun a b g => (a, S g))
              (fun xs g => (hd "" xs, S g)) (fun x n => x) "2025-06-01"
              (fun d => inr "2025-06-01") (fun n => "7") (fun x => "25.5")
              Market.mock_prices "Tomato" (Some "Karnataka") 0 13
              (Market.mkDecision "Tomato" "hold" 0.7 25.50
                 ["Prices are rising significantly"]
                 (Market._generate_recommendations
                    (Market.mkPriceData 25.50 "per kg" "increasing" 12.5
                       "Bangalore APMC"))))
    as [_ [_ [_ Hknown]]].
  - vm_compute. reflexivity.
  - destruct (Hknown (Market.mkPriceData 25.50 "per kg" "increasing" 12.5 "Bangalore APMC")
                eq_refl) as [_ [_ [_ Hhold]]].
    apply Hhold. reflexivity.
Defined.


(** ** Facts on the image path *)

Module ImageFacts.
Import Py LangChainService ParserFacts.
Local Open Scope string_scope.

(** The service answers on every image; its analysis is a list only when
    the model answered with a list. *)
Lemma analyze_outcome
  (Image : Type) (size : Image -> nat * nat) (thumbnail : Image -> nat * nat -> Image)
  (save_jpeg : Image -> nat -> M string) (b64encode : string -> string)
  (ainvoke : list CropImage.VisionMessage -> M value) (str_of_exception : exn -> string)
  (self : Self) (image : Image) (query language : string) :
  exists r,
    CropImage.analyze_crop_image Image size thumbnail save_jpeg b64encode ainvoke
      str_of_exception self image query language = inr r
    /\ List.length (recommended_actions r) <= 5
    /\ List.length (local_remedies r) <= 3
    /\ (forall parts,
           analysis r = VList parts ->
           exists data,
             save_jpeg (CropImage.optimized Image size thumbnail image) 85 = inr data
             /\ ainvoke (CropImage.analysis_messages self
                           (CropImage.analysis_prompt self query language)
                           (b64encode data))
                = inr (VList parts)).
Proof.
  unfold CropImage.analyze_crop_image, try_except. cbv zeta.
  destruct (save_jpeg _ 85) as [e | data] eqn:Hsave.
  - eexists. split; [reflexivity|]. cbn. repeat split; try lia. discriminate.
  - cbn [Py.bind].
    destruct (ainvoke _) as [e | content] eqn:Hmodel.
    + eexists. split; [reflexivity|]. cbn. repeat split; try lia. discriminate.
    + cbn [Py.bind]. destruct (parse_total content) as [r [Hr [Ha [H5 H3]]]].
      exists r. rewrite Hr. cbn [Py.bind ret]. repeat split; try assumption.
      intros parts Hparts. exists data. split; [reflexivity|].
      rewrite Hmodel. congruence.
Qed.

End ImageFacts.

(** X13.  [validate_crop_image] accepts exactly the images that are at
    least 200 wide and 200 high and whose JPEG form can be written and is
    not over 10 megabytes; an image that cannot be saved is refused, not an
    error.  Every image it accepts is analysed by [analyze_image] without
    the too-small error. *)
Theorem valid_crop_images_are_analysed
  (Image : Type) (size : Image -> nat * nat) (save_jpeg : Image -> M string)
  (str_of_exception : exn -> string) (image : Image) :
  (Vision.validate_crop_image Image size save_jpeg image = true <->
   200 <= fst (size image) /\ 200 <= snd (size image)
   /\ exists data, save_jpeg image = inr data /\ Vision.over_ten_megabytes data = false)
  /\ (Vision.validate_crop_image Image size save_jpeg image = true ->
      Vision.analyze_image Image size str_of_exception image = Vision.mock_result).
Proof.
  unfold Vision.validate_crop_image, Vision.analyze_image.
  destruct (size image) as [width height]. cbn [fst snd].
  destruct (Nat.ltb_spec width 200) as [Ew | Ew];
    destruct (Nat.ltb_spec height 200) as [Eh | Eh]; cbn [orb]; unfold ret at 1.
  1, 2, 3: split; [split; [discriminate | intros [H1 [H2 _]]; lia] | discriminate].
  assert (Hw : (width <? 100)%nat = false) by (apply Nat.ltb_ge; lia).
  assert (Hh : (height <? 100)%nat = false) by (apply Nat.ltb_ge; lia).
  rewrite Hw, Hh. cbn [orb ret]. split; [|reflexivity].
  destruct (save_jpeg image) as [e | data]; cbn [Py.bind].
  - split; [discriminate | intros [_ [_ [data [H _]]]]; discriminate].
  - destruct (Vision.over_ten_megabytes data) eqn:Eo; cbn [ret].
    + split; [discriminate|]. intros [_ [_ [data' [H Ho]]]].
      injection H as <-. rewrite Eo in Ho. discriminate.
    + split; [intros _ | reflexivity].
      split; [exact Ew|]. split; [exact Eh|]. now exists data.
Qed.

Lemma valid_crop_images_are_analysed_witness :
  Vision.analyze_image (nat * nat) (fun image => image) (fun e => "failed") (640, 480)
  = Vision.mock_result.
Proof.
  destruct (valid_crop_images_are_analysed (nat * nat) (fun image => image)
              (fun image => inr "JFIF") (fun e => "failed") (640, 480)) as [_ Hvalid].
  apply Hvalid. reflexivity.
Defined.

(** X14.  The voice of a synthesis.  A voice that the caller names is used
    as it is.  Without one, the voice is always one of the four voices of
    the table: the voice of the language when the language is one of the
    four, by its short code or by its full code alike, and the English
    voice for every other language.  Mapping a language code twice is the
    same as mapping it once.  [text_to_speech] returns the audio exactly
    when the voice could be set, [AudioOutputConfig(use_default_speaker=False)]
    returned, and the synthesis with that voice completed; when
    [AudioOutputConfig(use_default_speaker=False)] raises, [text_to_speech]
    raises the same exception on every text, whatever the synthesizer
    would answer. *)
Theorem synthesis_voice_is_a_known_voice :
  (forall language c v,
      Speech.synthesis_voice language (Some (String c v)) = String c v)
  /\ (forall language voice,
         voice = None \/ voice = Some "" ->
         In (Speech.synthesis_voice language voice) (map snd Speech.voice_mappings))
  /\ (forall language, Speech.full_language (Speech.full_language language)
                       = Speech.full_language language)
  /\ (forall language voice,
         Speech.synthesis_voice (Speech.full_language language) voice
         = Speech.synthesis_voice language voice)
  /\ map (fun entry => Speech.synthesis_voice (Some (fst entry)) None)
         Speech.language_mappings
     = map snd Speech.voice_mappings
  /\ (forall set_voice_name AudioOutputConfig speak text language voice audio,
         Speech.text_to_speech set_voice_name AudioOutputConfig speak text language voice
         = inr audio <->
         set_voice_name (Speech.synthesis_voice language voice) = inr tt
         /\ AudioOutputConfig false = inr tt
         /\ speak (Speech.synthesis_voice language voice) text
            = inr (Speech.SynthesizingAudioCompleted, audio))
  /\ (forall set_voice_name AudioOutputConfig speak text language voice e,
         set_voice_name (Speech.synthesis_voice language voice) = inr tt ->
         AudioOutputConfig false = inl e ->
         Speech.text_to_speech set_voice_name AudioOutputConfig speak text language voice
         = inl e).
Proof.
  assert (Hfull : forall language,
             Speech.full_language (Speech.full_language language)
             = Speech.full_language language).
  { intros [l|]; [|reflexivity].
    unfold Speech.full_language, Speech.language_mappings. cbn [Speech.get].
    destruct (String.eqb "en" l) eqn:E1; [reflexivity|].
    destruct (String.eqb "kn" l) eqn:E2; [reflexivity|].
    destruct (String.eqb "hi" l) eqn:E3; [reflexivity|].
    destruct (String.eqb "ta" l) eqn:E4; [reflexivity|].
    cbn [Speech.get]. now rewrite E1, E2, E3, E4. }
  assert (Hknown : forall language,
             In (Speech.get Speech.voice_mappings (Speech.full_language language)
                   "en-US-AriaNeural" (fun v => v))
                (map snd Speech.voice_mappings)).
  { intros [l|]; [|now left].
    unfold Speech.full_language, Speech.language_mappings. cbn [Speech.get].
    destruct (String.eqb "en" l); [now left|].
    destruct (String.eqb "kn" l); [right; now left|].
    destruct (String.eqb "hi" l); [right; right; now left|].
    destruct (String.eqb "ta" l); [right; right; right; now left|].
    unfold Speech.voice_mappings. cbn [Speech.get map snd].
    destruct (String.eqb "en-US" l); [now left|].
    destruct (String.eqb "kn-IN" l); [right; now left|].
    destruct (String.eqb "hi-IN" l); [right; right; now left|].
    destruct (String.eqb "ta-IN" l); [right; right; right; now left|].
    now left. }
  split; [reflexivity|]. split; [|split; [exact Hfull | split; [|split; [|split]]]].
  - intros language voice [-> | ->]; apply Hknown.
  - intros language voice. unfold Speech.synthesis_voice. cbv zeta. now rewrite Hfull.
  - reflexivity.
  - intros set_voice_name AudioOutputConfig speak text language voice audio.
    unfold Speech.text_to_speech, Speech.text_to_speech_try. cbv zeta.
    destruct (set_voice_name (Speech.synthesis_voice language voice)) as [e | []].
    + split; [discriminate | intros [H _]; discriminate H].
    + destruct (AudioOutputConfig false) as [e | []].
      * split; [discriminate | intros [_ [H _]]; discriminate H].
      * destruct (speak (Speech.synthesis_voice language voice) text)
          as [e | [[| | other] data]].
        -- split; [discriminate | intros [_ [_ H]]; discriminate H].
        -- split; [intros H; injection H as <-; now repeat split|].
           intros [_ [_ H]]. now injection H as <-.
        -- split; [discriminate | intros [_ [_ H]]; discriminate H].
        -- split; [discriminate | intros [_ [_ H]]; discriminate H].
  - intros set_voice_name AudioOutputConfig speak text language voice e Hset Hconfig.
    unfold Speech.text_to_speech, Speech.text_to_speech_try. cbv zeta.
    now rewrite Hset, Hconfig.
Qed.

Lemma synthesis_voice_is_a_known_voice_witness :
  In (Speech.synthesis_voice (Some "fr") (Some "")) (map snd Speech.voice_mappings)
  /\ Speech.text_to_speech (fun voice => inr tt)
       (fun use_default_speaker =>
          if use_default_speaker then inr tt
          else inl (Speech.Exception "default speaker needs to be explicitly activated"))
       (fun voice text => inr (Speech.SynthesizingAudioCompleted, "RIFF"))
       "Namaskara" (Some "kn") None
     = inl (Speech.Exception "default speaker needs to be explicitly activated").
Proof.
  destruct synthesis_voice_is_a_known_voice as [_ [Hknown [_ [_ [_ [_ Hraise]]]]]].
  split.
  - apply Hknown. now right.
  - apply Hraise; reflexivity.
Defined.

(** X15.  The status of the route [analyze_crop_image].  Image data that
    cannot be decoded or opened gives the HTTP error 400, and so does an
    image under 50 on a side.  After that the route fails, with the error
    500, in two cases only: the language service cannot be built, or the
    model answered with a content that is not a [str], which the response
    model refuses.  In every other case, a failed model call included, it
    returns a response, with at most 5 actions and 3 remedies. *)
Theorem analyze_image_route_statuses
  (Image : Type) (size : Image -> nat * nat) (thumbnail : Image -> nat * nat -> Image)
  (save_jpeg : Image -> nat -> M string) (b64encode : string -> string)
  (ainvoke : list CropImage.VisionMessage -> M value) (str_of_exception : exn -> string)
  (b64decode : string -> M string) (image_open : string -> M Image)
  (str_of_validation_error : list string -> string) (get_langchain_service : M Self)
  (image_base64 : string) (query language : option string) :
  let route :=
    ChatRoutes.analyze_crop_image Image size thumbnail save_jpeg b64encode ainvoke
      str_of_exception b64decode image_open str_of_validation_error
      get_langchain_service image_base64 query language in
  match Py.bind (b64decode image_base64) image_open with
  | inl _ => route = inl (Http.HTTPException 400 "Invalid image data")
  | inr image =>
      if ((fst (size image) <? 50) || (snd (size image) <? 50))%nat
      then route = inl (Http.HTTPException 400 "Image too small for analysis")
      else
        match get_langchain_service with
        | inl e =>
            route = inl (Http.HTTPException 500
                           ("Failed to analyze image: " ++ str_of_exception e))
        | inr service =>
            (exists response,
                route = inr response
                /\ List.length (ChatRoutes.response_recommended_actions response) <= 5
                /\ List.length (ChatRoutes.response_local_remedies response) <= 3)
            \/ (exists data parts,
                   save_jpeg (CropImage.optimized Image size thumbnail image) 85 = inr data
                   /\ ainvoke (CropImage.analysis_messages service
                                 (CropImage.analysis_prompt service
                                    (ChatRoutes.text_of query) (ChatRoutes.text_of language))
                                 (b64encode data))
                      = inr (VList parts)
                   /\ route = inl (Http.HTTPException 500
                                     ("Failed to analyze image: "
                                      ++ str_of_validation_error parts)))
        end
  end.
Proof.
  cbv zeta. unfold ChatRoutes.analyze_crop_image, ChatRoutes.decode_image.
  destruct (Py.bind (b64decode image_base64) image_open) as [e | image]; [reflexivity|].
  destruct ((fst (size image) <? 50) || (snd (size image) <? 50))%nat; [reflexivity|].
  destruct get_langchain_service as [e | service]; [reflexivity|].
  destruct (ImageFacts.analyze_outcome Image size thumbnail save_jpeg b64encode ainvoke
              str_of_exception service image (ChatRoutes.text_of query)
              (ChatRoutes.text_of language)) as [r [-> [H5 [H3 Hlist]]]].
  unfold ChatRoutes.image_analysis_response.
  destruct (analysis r) as [text | parts] eqn:Ea.
  - left. eexists. split; [reflexivity|]. now split.
  - right. destruct (Hlist parts eq_refl) as [data [Hsave Hmodel]].
    exists data, parts. now repeat split.
Qed.

(** X16.  [get_current_price] never raises, and the letter case of the crop
    name changes nothing but the name that is echoed: two names that are
    equal up to case get the same price, market, trend and recommendations
    and leave the random state the same.  The answer always carries the
    name as given, the date of today and exactly three recommendations.
    For a crop of the table nothing is drawn at random and the price, unit,
    market and trend are the ones of the table. *)
Theorem price_ignores_letter_case
  (rng : Type) (uniform : Q -> Q -> rng -> Q * rng)
  (choice : list string -> rng -> string * rng) (round_ : Q -> nat -> Q)
  (today : string) (table : list (string * Market.PriceData))
  (crop crop' : string) (location : option string) (g : rng) :
  PyStr.lower crop = PyStr.lower crop' ->
  exists p g',
    Market.get_current_price rng uniform choice round_ today table crop location g
    = (inr p, g')
    /\ Market.get_current_price rng uniform choice round_ today table crop' location g
       = (inr (Market.mkPrice crop' (Market.current_price p) (Market.price_unit p)
                 (Market.market_name p) (Market.price_date p) (Market.trend p)
                 (Market.trend_percentage p) (Market.recommendations p)), g')
    /\ Market.crop_name p = crop
    /\ Market.price_date p = today
    /\ List.length (Market.recommendations p) = 3
    /\ (forall data,
           Market.lookup table (PyStr.lower crop) = Some data ->
           g' = g
           /\ Market.current_price p = Market.data_current_price data
           /\ Market.price_unit p = Market.data_unit data
           /\ Market.market_name p = Market.data_market data
           /\ Market.trend p = Market.data_trend data
           /\ Market.trend_percentage p = Market.data_trend_percentage data).
Proof.
  intros Hcase. unfold Market.get_current_price. cbv zeta. rewrite <- Hcase.
  destruct (Market.lookup table (PyStr.lower crop)) as [data|].
  - eexists. exists g. split; [reflexivity|]. split; [reflexivity|].
    split; [reflexivity|]. split; [reflexivity|]. split.
    + cbn [Market.recommendations]. unfold Market._generate_recommendations.
      destruct (String.eqb (Market.data_trend data) "increasing"); [reflexivity|].
      destruct (String.eqb (Market.data_trend data) "decreasing"); reflexivity.
    + intros data' Hdata. injection Hdata as <-. now repeat split.
  - eexists. eexists. split; [reflexivity|]. split; [reflexivity|].
    split; [reflexivity|]. split; [reflexivity|]. split; [reflexivity|].
    discriminate.
Qed.

Lemma price_ignores_letter_case_witness :
  exists p g',
    Market.get_current_price nat (fun a b g => (a, S g)) (fun xs g => (hd "none" xs, S g))
      (fun x digits => x) "2025-01-01" Market.mock_prices "Tomato" (Some "Karnataka") 0
    = (inr p, g')
    /\ Market.get_current_price nat (fun a b g => (a, S g))
         (fun xs g => (hd "none" xs, S g))
         (fun x digits => x) "2025-01-01" Market.mock_prices "TOMATO" (Some "Karnataka") 0
       = (inr (Market.mkPrice "TOMATO" (Market.current_price p) (Market.price_unit p)
                 (Market.market_name p) (Market.price_date p) (Market.trend p)
                 (Market.trend_percentage p) (Market.recommendations p)), g').
Proof.
  destruct (price_ignores_letter_case nat (fun a b g => (a, S g))
              (fun xs g => (hd "none" xs, S g)) (fun x digits => x) "2025-01-01"
              Market.mock_prices "Tomato" "TOMATO" (Some "Karnataka") 0 eq_refl)
    as [p [g' [H1 [H2 _]]]].
  exists p, g'. split; assumption.
Defined.
